(** * Bootstrap of the system database

    A shallow embedding of [bootstrap.go] (package [tidb]): the coordinator
    [bootstrap], the probe [checkBootstrapped] / [checkBootstrappedVar], the
    installer [doDDLWorks], the loader [doDMLWorks] and [mustExecute].

    The Go code talks to a [Session] (an interface) and never looks inside
    it, so the embedding keeps the session abstract: a type class with the
    two methods the code calls.  Every program is a function from the
    session state to an outcome, the new session state and the list of
    session calls it made, in order. *)

From Stdlib Require Import Ascii.
From stdpp Require Import gmap strings list fin_maps.

Local Open Scope Z_scope.

(** ** Strings as the Go code builds them *)

(** The double quote character; Go writes it inside raw string literals. *)
Definition dquote : ascii := Ascii.ascii_of_nat 34.
Definition newline : ascii := Ascii.ascii_of_nat 10.
Definition tab : ascii := Ascii.ascii_of_nat 9.

(** [quoted s] is the text of [s] between double quotes, the ["%s"] of the
    format strings. *)
Definition quoted (s : string) : string :=
  String dquote (s +:+ String dquote "").

(** What [strings.ToLower] does to one byte of ASCII text: A-Z become
    a-z. *)
Definition lower_ascii (c : ascii) : ascii :=
  let n := Ascii.nat_of_ascii c in
  if ((65 <=? n)%nat && (n <=? 90)%nat)%bool
  then Ascii.ascii_of_nat (n + 32) else c.

(** [strings.ToLower] on ASCII text.  Go lowers ASCII text byte by byte,
    A-Z to a-z.  Text with a byte of 0x80 or more it lowers rune by rune,
    by the Unicode case tables of the Go release, and it replaces bytes
    that are not UTF-8 by U+FFFD; the tables are not part of the sources
    at hand, and [ToLower] is not the library function on such text: it
    keeps those bytes.  [ToLower] is [strings.ToLower] on the strings that
    satisfy [isASCII], and the theorems that speak of the lower-cased names
    assume that the names of the registry are such, as the names of system
    variables are. *)
Fixpoint ToLower (s : string) : string :=
  match s with
  | EmptyString => EmptyString
  | String c s' => String (lower_ascii c) (ToLower s')
  end.

(** Every byte is below [utf8.RuneSelf], 0x80: the text is ASCII. *)
Fixpoint isASCII (s : string) : bool :=
  match s with
  | EmptyString => true
  | String c s' => (Ascii.nat_of_ascii c <? 128)%nat && isASCII s'
  end.

(** [strings.Join]. *)
Fixpoint Join (elems : list string) (sep : string) : string :=
  match elems with
  | [] => ""
  | [e] => e
  | e :: rest => e +:+ sep +:+ Join rest sep
  end.

(** ** Errors *)

(** Modelled from the spec: package [terror] and the error values of
    package [infoschema] are not part of the sources at hand.  The spec
    asks that the caller can tell "namespace or object does not exist" from
    other failures; these are the two classes the code tests for, and any
    other class by its code. *)
Inductive terror : Type :=
  | DatabaseNotExists
  | TableNotExists
  | OtherTerror (code : Z).

Global Instance terror_eq_dec : EqDecision terror.
Proof. solve_decision. Defined.

(** A Go [error] value that is not nil: an error of a [terror] class,
    what [errors.New] builds, or what [errors.Trace] wraps around an
    error. *)
Inductive error : Type :=
  | Terr (t : terror) (msg : string)
  | ErrNew (msg : string)
  | Traced (e : error).

Global Instance error_eq_dec : EqDecision error.
Proof. solve_decision. Defined.

(** [errors.Cause]: the error under the trace annotations. *)
Fixpoint Cause (e : error) : error :=
  match e with
  | Traced e' => Cause e'
  | _ => e
  end.

(** [errors.Trace]: nil stays nil, anything else is annotated. *)
Definition Trace (err : option error) : option error :=
  match err with
  | None => None
  | Some e => Some (Traced e)
  end.

(** Modelled from the spec: [Equal] and [NotEqual] of a [terror.Error]
    (package [terror], not part of the sources at hand) classify a failure:
    they compare the class of the error's cause; a nil error equals
    nothing. *)
Definition Equal (t : terror) (err : option error) : bool :=
  match err with
  | None => false
  | Some e =>
      match Cause e with
      | Terr t' _ => bool_decide (t = t')
      | _ => false
      end
  end.

Definition NotEqual (t : terror) (err : option error) : bool :=
  negb (Equal t err).

(** ** Result sets *)

(** Modelled from the spec: the result sets an execution returns are of
    types declared outside the sources at hand.  A value of a row is an
    [interface{}] in Go: the dynamic types a column value can have. *)
Inductive Datum : Type :=
  | DNil
  | DInt64 (z : Z)
  | DString (s : string)
  | DBytes (b : list ascii).

Record Row : Type := mkRow { Data : list Datum }.

(** What one call of [Next] on a record set yields. *)
Inductive Fetch : Type :=
  | FetchRow (row : Row)
  | FetchErr (e : error).

(** A [Recordset] is an iterator; it is modelled by what it is going to
    yield, in order. *)
Definition Recordset : Type := list Fetch.

(** [r.Next()]: the next row (nil at the end), an error, and the iterator
    advanced by one. *)
Definition Next (r : Recordset) : (option Row * option error) * Recordset :=
  match r with
  | [] => ((None, None), [])
  | FetchRow row :: r' => ((Some row, None), r')
  | FetchErr e :: r' => ((None, Some e), r')
  end.

(** ** The session interface *)

(** Modelled from the spec: the interface [Session] is declared outside the
    sources at hand.  The spec gives the capability the code consumes:
    execute a statement and get result sets or an error, and end the
    current transaction.  These are the two methods [bootstrap.go] calls;
    each may change the session. *)
Class Session (S : Type) : Type := {
  (** [s.Execute(sql)] *)
  Execute : string -> S -> (list Recordset * option error) * S;
  (** [s.FinishTxn(rollback)] *)
  FinishTxn : bool -> S -> option error * S
}.

(** The calls a program makes on its session. *)
Inductive Call : Type :=
  | CallExecute (sql : string)
  | CallFinishTxn (rollback : bool).

Global Instance Call_eq_dec : EqDecision Call.
Proof. solve_decision. Defined.

(** ** Outcomes and the monad of the programs *)

(** A Go function returns, or the process is stopped by [log.Fatal], or a
    run-time panic unwinds it. *)
Inductive Outcome (A : Type) : Type :=
  | Returned (a : A)
  | Fatal (e : error)
  | Panicked.
Arguments Returned {A} a.
Arguments Fatal {A} e.
Arguments Panicked {A}.

Definition Go (S A : Type) : Type := S -> Outcome A * S * list Call.

Definition ret {S A} (a : A) : Go S A := fun s => (Returned a, s, []).

Definition bind {S A B} (m : Go S A) (k : A -> Go S B) : Go S B :=
  fun s =>
    match m s with
    | (Returned a, s1, l1) =>
        let '(o, s2, l2) := k a s1 in (o, s2, l1 ++ l2)
    | (Fatal e, s1, l1) => (Fatal e, s1, l1)
    | (Panicked, s1, l1) => (Panicked, s1, l1)
    end.

Notation "x <- m ;; k" := (bind m (fun x => k))
  (at level 100, m at next level, right associativity,
   format "'[v' x  <-  m  ;; '/' k ']'").
Notation "m ;;; k" := (bind m (fun _ => k))
  (at level 100, right associativity).

(** [log.Fatal(err)] with a non-nil error: the process exits. *)
Definition logFatal {S A} (e : error) : Go S A := fun s => (Fatal e, s, []).

(** A run-time panic (a failed type assertion, an index out of range). *)
Definition panic {S A} : Go S A := fun s => (Panicked, s, []).

Definition outcome {S A} (r : Outcome A * S * list Call) : Outcome A := r.1.1.
Definition final {S A} (r : Outcome A * S * list Call) : S := r.1.2.
Definition trace {S A} (r : Outcome A * S * list Call) : list Call := r.2.

(** ** Constants of other packages *)

Module mysql.
(** Modelled from the spec: package [mysql] is not part of the sources at
    hand.  [SystemDB] names the reserved system database; its value is the
    one the CREATE TABLE statements below spell out. *)
Definition SystemDB : string := "mysql".
(** Modelled from the spec: the key-value table that holds the bootstrap
    flag, named as in [CreateTiDBTable]. *)
Definition TiDBTable : string := "tidb".
(** Modelled from the spec: the table of the configuration variables,
    named as in [CreateGloablVariablesTable]. *)
Definition GlobalVariablesTable : string := "GLOBAL_VARIABLES".
End mysql.

(** Modelled from the spec: an entry of the variable registry
    [variable.SysVars] (package [variable], not part of the sources at
    hand), a mapping from a variable's name to its default; the loader
    reads the [Value] of an entry only. *)
Record SysVar : Type := mkSysVar { Value : string }.

(** ** The statements of the schema *)

(** CreateUserTable is the SQL statement creates User table in system db. *)
Definition CreateUserTable : string :=
"CREATE TABLE if not exists mysql.user (
		Host			CHAR(64),
		User			CHAR(16),
		Password		CHAR(41),
		Select_priv		ENUM('N','Y') NOT NULL  DEFAULT 'N',
		Insert_priv		ENUM('N','Y') NOT NULL  DEFAULT 'N',
		Update_priv		ENUM('N','Y') NOT NULL  DEFAULT 'N',
		Delete_priv		ENUM('N','Y') NOT NULL  DEFAULT 'N',
		Create_priv		ENUM('N','Y') NOT NULL  DEFAULT 'N',
		Drop_priv		ENUM('N','Y') NOT NULL  DEFAULT 'N',
		Grant_priv		ENUM('N','Y') NOT NULL  DEFAULT 'N',
		Alter_priv		ENUM('N','Y') NOT NULL  DEFAULT 'N',
		Show_db_priv		ENUM('N','Y') NOT NULL  DEFAULT 'N',
		Execute_priv		ENUM('N','Y') NOT NULL  DEFAULT 'N',
		Index_priv		ENUM('N','Y') NOT NULL  DEFAULT 'N',
		Create_user_priv	ENUM('N','Y') NOT NULL  DEFAULT 'N',
		PRIMARY KEY (Host, User));".

(** CreateDBPrivTable is the SQL statement creates DB scope privilege table in system db. *)
Definition CreateDBPrivTable : string :=
"CREATE TABLE if not exists mysql.db (
		Host		CHAR(60),
		DB		CHAR(64),
		User		CHAR(16),
		Select_priv	ENUM('N','Y') Not Null  DEFAULT 'N',
		Insert_priv	ENUM('N','Y') Not Null  DEFAULT 'N',
		Update_priv	ENUM('N','Y') Not Null  DEFAULT 'N',
		Delete_priv	ENUM('N','Y') Not Null  DEFAULT 'N',
		Create_priv	ENUM('N','Y') Not Null  DEFAULT 'N',
		Drop_priv	ENUM('N','Y') Not Null  DEFAULT 'N',
		Grant_priv	ENUM('N','Y') Not Null  DEFAULT 'N',
		Index_priv	ENUM('N','Y') Not Null  DEFAULT 'N',
		Alter_priv	ENUM('N','Y') Not Null  DEFAULT 'N',
		Execute_priv	ENUM('N','Y') Not Null  DEFAULT 'N',
		PRIMARY KEY (Host, DB, User));".

(** CreateTablePrivTable is the SQL statement creates table scope privilege table in system db. *)
Definition CreateTablePrivTable : string :=
"CREATE TABLE if not exists mysql.tables_priv (
		Host		CHAR(60),
		DB		CHAR(64),
		User		CHAR(16),
		Table_name	CHAR(64),
		Grantor		CHAR(77),
		Timestamp	Timestamp DEFAULT CURRENT_TIMESTAMP,
		Table_priv	SET('Select','Insert','Update','Delete','Create','Drop','Grant', 'Index','Alter'),
		Column_priv	SET('Select','Insert','Update'),
		PRIMARY KEY (Host, DB, User, Table_name));".

(** CreateColumnPrivTable is the SQL statement creates column scope privilege table in system db. *)
Definition CreateColumnPrivTable : string :=
"CREATE TABLE if not exists mysql.columns_priv(
		Host		CHAR(60),
		DB		CHAR(64),
		User		CHAR(16),
		Table_name	CHAR(64),
		Column_name	CHAR(64),
		Timestamp	Timestamp DEFAULT CURRENT_TIMESTAMP,
		Column_priv	SET('Select','Insert','Update'),
		PRIMARY KEY (Host, DB, User, Table_name, Column_name));".

(** CreateGloablVariablesTable is the SQL statement creates global variable table in system db. *)
Definition CreateGloablVariablesTable : string :=
"CREATE TABLE if not exists mysql.GLOBAL_VARIABLES(
		VARIABLE_NAME  VARCHAR(64) Not Null PRIMARY KEY,
		VARIABLE_VALUE VARCHAR(1024) DEFAULT Null);".

(** CreateProcTable is the SQL statement creates a dummy table in system db. *)
Definition CreateProcTable : string :=
"CREATE TABLE if not exists mysql.proc (
  db char(64) CHARACTER SET utf8 COLLATE utf8_bin NOT NULL DEFAULT '',
  name char(64) NOT NULL DEFAULT '',
  type enum('FUNCTION','PROCEDURE') NOT NULL,
  specific_name char(64) NOT NULL DEFAULT '',
  language enum('SQL') NOT NULL DEFAULT 'SQL',
  sql_data_access enum('CONTAINS_SQL','NO_SQL','READS_SQL_DATA','MODIFIES_SQL_DATA') NOT NULL DEFAULT 'CONTAINS_S
QL',
  is_deterministic enum('YES','NO') NOT NULL DEFAULT 'NO',
  security_type enum('INVOKER','DEFINER') NOT NULL DEFAULT 'DEFINER',
  param_list blob NOT NULL,
  returns longblob NOT NULL,
  body longblob NOT NULL,
  definer char(77) CHARACTER SET utf8 COLLATE utf8_bin NOT NULL DEFAULT '',
  created timestamp NOT NULL DEFAULT CURRENT_TIMESTAMP ON UPDATE CURRENT_TIMESTAMP,
  modified timestamp NOT NULL DEFAULT '0000-00-00 00:00:00',
  sql_mode set('REAL_AS_FLOAT','PIPES_AS_CONCAT','ANSI_QUOTES','IGNORE_SPACE','NOT_USED','ONLY_FULL_GROUP_BY','NO_UNSIGNED_SUBTRACTION','NO_DIR_IN_CREATE','POSTGRESQL','ORACLE','MSSQL','DB2','MAXDB','NO_KEY_OPTIONS','NO_TABLE_OPTIONS','NO_FIELD_OPTIONS','MYSQL323','MYSQL40','ANSI','NO_AUTO_VALUE_ON_ZERO','NO_BACKSLASH_ESCAPES','STRICT_TRANS_TABLES','STRICT_ALL_TABLES','NO_ZERO_IN_DATE','NO_ZERO_DATE','INVALID_DATES','ERROR_FOR_DIVISION_BY_ZERO','TRADITIONAL','NO_AUTO_CREATE_USER','HIGH_NOT_PRECEDENCE','NO_ENGINE_SUBSTITUTION','PAD_CHAR_TO_FULL_LENGTH') NOT NULL DEFAULT '',
  comment text CHARACTER SET utf8 COLLATE utf8_bin NOT NULL,
  character_set_client char(32) CHARACTER SET utf8 COLLATE utf8_bin DEFAULT NULL,
  collation_connection char(32) CHARACTER SET utf8 COLLATE utf8_bin DEFAULT NULL,
  db_collation char(32) CHARACTER SET utf8 COLLATE utf8_bin DEFAULT NULL,
  body_utf8 longblob,
  PRIMARY KEY (db,name,type));".

(** performance_schema.events_statements_current *)
Definition CreateSomething1 : string :=
"
CREATE TABLE if not exists performance_schema.events_statements_current (
  THREAD_ID bigint(20) unsigned NOT NULL,
  EVENT_ID bigint(20) unsigned NOT NULL,
  END_EVENT_ID bigint(20) unsigned DEFAULT NULL,
  EVENT_NAME varchar(128) NOT NULL,
  SOURCE varchar(64) DEFAULT NULL,
  TIMER_START bigint(20) unsigned DEFAULT NULL,
  TIMER_END bigint(20) unsigned DEFAULT NULL,
  TIMER_WAIT bigint(20) unsigned DEFAULT NULL,
  LOCK_TIME bigint(20) unsigned NOT NULL,
  SQL_TEXT longtext,
  DIGEST varchar(32) DEFAULT NULL,
  DIGEST_TEXT longtext,
  CURRENT_SCHEMA varchar(64) DEFAULT NULL,
  OBJECT_TYPE varchar(64) DEFAULT NULL,
  OBJECT_SCHEMA varchar(64) DEFAULT NULL,
  OBJECT_NAME varchar(64) DEFAULT NULL,
  OBJECT_INSTANCE_BEGIN bigint(20) unsigned DEFAULT NULL,
  MYSQL_ERRNO int(11) DEFAULT NULL,
  RETURNED_SQLSTATE varchar(5) DEFAULT NULL,
  MESSAGE_TEXT varchar(128) DEFAULT NULL,
  ERRORS bigint(20) unsigned NOT NULL,
  WARNINGS bigint(20) unsigned NOT NULL,
  ROWS_AFFECTED bigint(20) unsigned NOT NULL,
  ROWS_SENT bigint(20) unsigned NOT NULL,
  ROWS_EXAMINED bigint(20) unsigned NOT NULL,
  CREATED_TMP_DISK_TABLES bigint(20) unsigned NOT NULL,
  CREATED_TMP_TABLES bigint(20) unsigned NOT NULL,
  SELECT_FULL_JOIN bigint(20) unsigned NOT NULL,
  SELECT_FULL_RANGE_JOIN bigint(20) unsigned NOT NULL,
  SELECT_RANGE bigint(20) unsigned NOT NULL,
  SELECT_RANGE_CHECK bigint(20) unsigned NOT NULL,
  SELECT_SCAN bigint(20) unsigned NOT NULL,
  SORT_MERGE_PASSES bigint(20) unsigned NOT NULL,
  SORT_RANGE bigint(20) unsigned NOT NULL,
  SORT_ROWS bigint(20) unsigned NOT NULL,
  SORT_SCAN bigint(20) unsigned NOT NULL,
  NO_INDEX_USED bigint(20) unsigned NOT NULL,
  NO_GOOD_INDEX_USED bigint(20) unsigned NOT NULL,
  NESTING_EVENT_ID bigint(20) unsigned DEFAULT NULL,
  NESTING_EVENT_TYPE enum('STATEMENT','STAGE','WAIT') DEFAULT NULL
); 
".

(** performance_schema.events_stages_history_long *)
Definition CreateSomething2 : string :=
"
CREATE TABLE if not exists performance_schema.events_stages_history_long (
  THREAD_ID bigint(20) unsigned NOT NULL,
  EVENT_ID bigint(20) unsigned NOT NULL,
  END_EVENT_ID bigint(20) unsigned DEFAULT NULL,
  EVENT_NAME varchar(128) NOT NULL,
  SOURCE varchar(64) DEFAULT NULL,
  TIMER_START bigint(20) unsigned DEFAULT NULL,
  TIMER_END bigint(20) unsigned DEFAULT NULL,
  TIMER_WAIT bigint(20) unsigned DEFAULT NULL,
  NESTING_EVENT_ID bigint(20) unsigned DEFAULT NULL,
  NESTING_EVENT_TYPE enum('STATEMENT','STAGE','WAIT') DEFAULT NULL
);
".

(** performance_schema.events_waits_history_long *)
Definition CreateSomething3 : string :=
"
CREATE TABLE if not exists performance_schema.events_waits_history_long (
  THREAD_ID bigint(20) unsigned NOT NULL,
  EVENT_ID bigint(20) unsigned NOT NULL,
  END_EVENT_ID bigint(20) unsigned DEFAULT NULL,
  EVENT_NAME varchar(128) NOT NULL,
  SOURCE varchar(64) DEFAULT NULL,
  TIMER_START bigint(20) unsigned DEFAULT NULL,
  TIMER_END bigint(20) unsigned DEFAULT NULL,
  TIMER_WAIT bigint(20) unsigned DEFAULT NULL,
  SPINS int(10) unsigned DEFAULT NULL,
  OBJECT_SCHEMA varchar(64) DEFAULT NULL,
  OBJECT_NAME varchar(512) DEFAULT NULL,
  INDEX_NAME varchar(64) DEFAULT NULL,
  OBJECT_TYPE varchar(64) DEFAULT NULL,
  OBJECT_INSTANCE_BEGIN bigint(20) unsigned NOT NULL,
  NESTING_EVENT_ID bigint(20) unsigned DEFAULT NULL,
  NESTING_EVENT_TYPE enum('STATEMENT','STAGE','WAIT') DEFAULT NULL,
  OPERATION varchar(32) NOT NULL,
  NUMBER_OF_BYTES bigint(20) DEFAULT NULL,
  FLAGS int(10) unsigned DEFAULT NULL
); 
".

(** CreateTiDBTable is the SQL statement creates a table in system db; it is a key-value table, and the only key bootstrap puts in it is the bootstrapped flag. *)
Definition CreateTiDBTable : string :=
"CREATE TABLE if not exists mysql.tidb(
		VARIABLE_NAME  VARCHAR(64) Not Null PRIMARY KEY,
		VARIABLE_VALUE VARCHAR(1024) DEFAULT Null,
		COMMENT VARCHAR(1024));".

(** ** The programs of bootstrap.go *)

Definition bootstrappedVar : string := "bootstrapped".
Definition bootstrappedVarTrue : string := "True".

(** [fmt.Sprintf("USE %s;", mysql.SystemDB)] *)
Definition useSystemDB : string := "USE " +:+ mysql.SystemDB +:+ ";".

(** The statement built at the head of [checkBootstrappedVar]. *)
Definition selectBootstrapped : string :=
  "SELECT VARIABLE_VALUE FROM " +:+ mysql.SystemDB +:+ "." +:+ mysql.TiDBTable
  +:+ " WHERE VARIABLE_NAME=" +:+ quoted bootstrappedVar.

Definition createTestDB : string := "CREATE DATABASE IF NOT EXISTS test".

(** [fmt.Sprintf("CREATE DATABASE IF NOT EXISTS %s;", mysql.SystemDB)] *)
Definition createSystemDB : string :=
  "CREATE DATABASE IF NOT EXISTS " +:+ mysql.SystemDB +:+ ";".

Definition createPerformanceSchema : string :=
  "CREATE DATABASE IF NOT EXISTS performance_schema;".

(** The raw string literal of the default user's INSERT. *)
Definition insertDefaultUser : string :=
  "INSERT INTO mysql.user VALUES" +:+ String newline (String tab (String tab
  ("(" +:+ quoted "%" +:+ ", " +:+ quoted "root" +:+ ", " +:+ quoted ""
   +:+ ", " +:+ quoted "Y" +:+ ", " +:+ quoted "Y" +:+ ", " +:+ quoted "Y"
   +:+ ", " +:+ quoted "Y" +:+ ", " +:+ quoted "Y" +:+ ", " +:+ quoted "Y"
   +:+ ", " +:+ quoted "Y" +:+ ", " +:+ quoted "Y" +:+ ", " +:+ quoted "Y"
   +:+ ", " +:+ quoted "Y" +:+ ", " +:+ quoted "Y" +:+ ", " +:+ quoted "Y"
   +:+ ")"))).

(** [fmt.Sprintf(`("%s", "%s")`, strings.ToLower(k), v.Value)], for a name
    [k] that is ASCII text (see [ToLower]). *)
Definition sysVarValue (k : string) (v : SysVar) : string :=
  "(" +:+ quoted (ToLower k) +:+ ", " +:+ quoted (Value v) +:+ ")".

(** The loop over [variable.SysVars]: [values] grows by one text per entry,
    in the order the map is ranged over. *)
Definition sysVarValues (SysVars : list (string * SysVar)) : list string :=
  fold_left (fun values kv => values ++ [sysVarValue kv.1 kv.2]) SysVars [].

(** [fmt.Sprintf("INSERT INTO %s.%s VALUES %s;", ...)] *)
Definition insertSysVars (SysVars : list (string * SysVar)) : string :=
  "INSERT INTO " +:+ mysql.SystemDB +:+ "." +:+ mysql.GlobalVariablesTable
  +:+ " VALUES " +:+ Join (sysVarValues SysVars) ", " +:+ ";".

(** The statement that writes the bootstrap flag. *)
Definition insertBootstrapped : string :=
  "INSERT INTO " +:+ mysql.SystemDB +:+ "." +:+ mysql.TiDBTable
  +:+ " VALUES(" +:+ quoted bootstrappedVar +:+ ", "
  +:+ quoted bootstrappedVarTrue +:+ ", "
  +:+ quoted "Bootstrap flag. Do not delete." +:+ ")"
  +:+ String newline (String tab (String tab
  ("ON DUPLICATE KEY UPDATE VARIABLE_VALUE=" +:+ quoted bootstrappedVarTrue))).

Section Programs.
Context {S : Type} `{Session S}.

(** [variable.SysVars], in the order this run ranges over it.  The names
    of system variables are ASCII text; see [ToLower] for names that are
    not. *)
Variable SysVars : list (string * SysVar).

Definition execute (sql : string) : Go S (list Recordset * option error) :=
  fun s => let '(r, s') := Execute sql s in (Returned r, s', [CallExecute sql]).

Definition finishTxn (rollback : bool) : Go S (option error) :=
  fun s =>
    let '(err, s') := FinishTxn rollback s in
    (Returned err, s', [CallFinishTxn rollback]).

Definition mustExecute (sql : string) : Go S unit :=
  r <- execute sql ;;
  match r.2 with
  | Some e => logFatal e
  | None => ret tt
  end.

Definition checkBootstrappedVar : Go S (bool * option error) :=
  r <- execute selectBootstrapped ;;
  let '(rs, err) := r in
  match err with
  | Some e =>
      if Equal TableNotExists err then ret (false, None)
      else ret (false, Trace err)
  | None =>
      if negb (length rs =? 1)%nat
      then ret (false, Some (ErrNew "Wrong number of Recordset"))
      else
        match rs with
        | [] => panic
        | r :: _ =>
            let '(row, err) := (Next r).1 in
            match err, row with
            | Some _, _ | None, None => ret (false, Trace err)
            | None, Some row =>
                match Data row with
                | DString v :: _ =>
                    let isBootstrapped := bool_decide (v = bootstrappedVarTrue) in
                    if isBootstrapped then
                      err <- finishTxn false ;;
                      match err with
                      | Some _ => ret (false, Trace err)
                      | None => ret (isBootstrapped, None)
                      end
                    else ret (isBootstrapped, None)
                | _ => panic
                end
            end
        end
  end.

Definition checkBootstrapped : Go S (bool * option error) :=
  r <- execute useSystemDB ;;
  let err := r.2 in
  (if (bool_decide (err <> None) && NotEqual DatabaseNotExists err)%bool
   then match err with Some e => logFatal e | None => ret tt end
   else ret tt) ;;;
  r <- checkBootstrappedVar ;;
  let '(v, err) := r in
  match err with
  | Some _ => ret (false, Trace err)
  | None => ret (v, None)
  end.

Definition doDDLWorks : Go S unit :=
  mustExecute createTestDB ;;;
  mustExecute createSystemDB ;;;
  mustExecute CreateUserTable ;;;
  mustExecute CreateDBPrivTable ;;;
  mustExecute CreateTablePrivTable ;;;
  mustExecute CreateColumnPrivTable ;;;
  mustExecute CreateGloablVariablesTable ;;;
  mustExecute CreateProcTable ;;;
  mustExecute createPerformanceSchema ;;;
  mustExecute CreateSomething1 ;;;
  mustExecute CreateSomething2 ;;;
  mustExecute CreateSomething3 ;;;
  mustExecute CreateTiDBTable.

Definition doDMLWorks : Go S unit :=
  mustExecute "BEGIN" ;;;
  mustExecute insertDefaultUser ;;;
  mustExecute (insertSysVars SysVars) ;;;
  mustExecute insertBootstrapped ;;;
  mustExecute "COMMIT".

Definition bootstrap : Go S unit :=
  r <- checkBootstrapped ;;
  let '(b, err) := r in
  match err with
  | Some e => logFatal e
  | None => if b then ret tt else doDDLWorks ;;; doDMLWorks
  end.

End Programs.

(** ** Reading SQL text

    The statements [bootstrap.go] issues are texts.  [Sql.parse] reads the
    shapes that occur in it: USE, CREATE DATABASE IF NOT EXISTS, CREATE TABLE
    IF NOT EXISTS, BEGIN, COMMIT, the SELECT of one variable's value and
    INSERT ... VALUES with an optional ON DUPLICATE KEY UPDATE. *)
Module Sql.


Fixpoint skip_space (s : string) : string :=
  match s with
  | String c s' => if Ascii.is_space c then skip_space s' else s
  | EmptyString => s
  end.

(** Only white space and semicolons are left. *)
Fixpoint ends (s : string) : bool :=
  match s with
  | EmptyString => true
  | String c s' => (Ascii.is_space c || Ascii.eqb c ";")%bool && ends s'
  end.

(** Drops the keyword text [p] from the front of [s], letters compared
    without case. *)
Fixpoint strip_prefix (p s : string) : option string :=
  match p, s with
  | EmptyString, _ => Some s
  | String a p', String b s' =>
      if Ascii.eqb (lower_ascii a) (lower_ascii b)
      then strip_prefix p' s' else None
  | String _ _, EmptyString => None
  end.

Definition is_name_char (c : ascii) : bool :=
  let n := Ascii.nat_of_ascii c in
  ((48 <=? n)%nat && (n <=? 57)%nat || (65 <=? n)%nat && (n <=? 90)%nat
   || (97 <=? n)%nat && (n <=? 122)%nat || Ascii.eqb c "_" || Ascii.eqb c ".")%bool.

(** The object name at the front of [s], and what follows it. *)
Fixpoint read_name (s : string) : string * string :=
  match s with
  | String c s' =>
      if is_name_char c
      then let '(n, r) := read_name s' in (String c n, r)
      else (EmptyString, s)
  | EmptyString => (EmptyString, EmptyString)
  end.

(** The text up to the closing double quote, and what follows the quote. *)
Fixpoint until_quote (s : string) : option (string * string) :=
  match s with
  | EmptyString => None
  | String c s' =>
      if Ascii.eqb c dquote then Some (EmptyString, s')
      else match until_quote s' with
           | Some (v, r) => Some (String c v, r)
           | None => None
           end
  end.

Definition read_quoted (s : string) : option (string * string) :=
  match s with
  | String c s' => if Ascii.eqb c dquote then until_quote s' else None
  | EmptyString => None
  end.

(** What follows the first occurrence of [p] in [s]. *)
Fixpoint find_after (p s : string) : option string :=
  match strip_prefix p s with
  | Some r => Some r
  | None =>
      match s with
      | String _ s' => find_after p s'
      | EmptyString => None
      end
  end.

(** The number of commas before the first closing parenthesis. *)
Fixpoint commas (s : string) : nat :=
  match s with
  | EmptyString => 0
  | String c s' =>
      if Ascii.eqb c ")" then 0
      else if Ascii.eqb c "," then Datatypes.S (commas s') else commas s'
  end%nat.

(** The number of key columns a CREATE TABLE text declares:
    [PRIMARY KEY (a, b)] declares two, [PRIMARY KEY] written after a
    column declares one, a text without it declares none.  In every table
    of [bootstrap.go] the key columns are the leading columns. *)
Definition key_arity (ddl : string) : nat :=
  match find_after "PRIMARY KEY" ddl with
  | None => 0
  | Some r =>
      match skip_space r with
      | String "(" r' => Datatypes.S (commas r')
      | _ => 1
      end
  end%nat.

(** The VALUES clause is read by a machine with three states: between
    tuples, inside a tuple, inside a quoted value. *)
Inductive VState : Type :=
  | VOut
  | VIn (vals : list string)
  | VStr (vals : list string) (cur : string).

Fixpoint read_values (st : VState) (rows : list (list string)) (s : string)
  : option (list (list string) * string) :=
  match s with
  | EmptyString =>
      match st with VOut => Some (rows, EmptyString) | _ => None end
  | String c s' =>
      match st with
      | VOut =>
          if (Ascii.is_space c || Ascii.eqb c ",")%bool
          then read_values VOut rows s'
          else if Ascii.eqb c "(" then read_values (VIn []) rows s'
          else Some (rows, s)
      | VIn vals =>
          if (Ascii.is_space c || Ascii.eqb c ",")%bool
          then read_values (VIn vals) rows s'
          else if Ascii.eqb c dquote then read_values (VStr vals EmptyString) rows s'
          else if Ascii.eqb c ")" then read_values VOut (rows ++ [vals]) s'
          else None
      | VStr vals cur =>
          if Ascii.eqb c dquote then read_values (VIn (vals ++ [cur])) rows s'
          else read_values (VStr vals (cur +:+ String c EmptyString)) rows s'
      end
  end.

(** The statements [parse] reads:
    - [SUse db]: USE db;
    - [SCreateDatabase db]: CREATE DATABASE IF NOT EXISTS db;
    - [SCreateTable tbl key]: CREATE TABLE IF NOT EXISTS tbl (...), with the
      number of key columns the text declares;
    - [SBegin], [SCommit]: BEGIN and COMMIT;
    - [SSelectValue tbl key]: SELECT VARIABLE_VALUE FROM tbl WHERE
      VARIABLE_NAME="key";
    - [SInsert tbl rows upd]: INSERT INTO tbl VALUES rows, followed, when
      [upd] is [Some v], by ON DUPLICATE KEY UPDATE VARIABLE_VALUE="v".
    A CREATE without IF NOT EXISTS is not read. *)
Inductive Stmt : Type :=
  | SUse (db : string)
  | SCreateDatabase (db : string)
  | SCreateTable (tbl : string) (key : nat)
  | SBegin
  | SCommit
  | SSelectValue (tbl key : string)
  | SInsert (tbl : string) (rows : list (list string)) (upd : option string).

Definition parse_use (r : string) : option Stmt :=
  let '(n, r') := read_name r in
  if ends r' then Some (SUse n) else None.

Definition parse_create_database (r : string) : option Stmt :=
  let '(n, r') := read_name r in
  if ends r' then Some (SCreateDatabase n) else None.

Definition parse_create_table (r : string) : option Stmt :=
  let '(n, r') := read_name r in
  Some (SCreateTable n (key_arity r')).

Definition parse_select (r : string) : option Stmt :=
  let '(n, r1) := read_name r in
  match strip_prefix "WHERE VARIABLE_NAME=" (skip_space r1) with
  | Some r2 =>
      match read_quoted r2 with
      | Some (k, r3) => if ends r3 then Some (SSelectValue n k) else None
      | None => None
      end
  | None => None
  end.

(** What may follow the tuples of an INSERT. *)
Definition parse_on_duplicate (r : string) : option (option string) :=
  if ends r then Some None
  else
    match strip_prefix "ON DUPLICATE KEY UPDATE VARIABLE_VALUE=" r with
    | Some r1 =>
        match read_quoted r1 with
        | Some (v, r2) => if ends r2 then Some (Some v) else None
        | None => None
        end
    | None => None
    end.

Definition parse_insert (r : string) : option Stmt :=
  let '(n, r1) := read_name r in
  match strip_prefix "VALUES" (skip_space r1) with
  | Some r2 =>
      match read_values VOut [] r2 with
      | Some (row :: rows, r3) =>
          match parse_on_duplicate r3 with
          | Some upd => Some (SInsert n (row :: rows) upd)
          | None => None
          end
      | _ => None
      end
  | None => None
  end.

Definition parse (sql : string) : option Stmt :=
  let s := skip_space sql in
  match strip_prefix "USE " s with
  | Some r => parse_use r
  | None =>
  match strip_prefix "CREATE DATABASE IF NOT EXISTS " s with
  | Some r => parse_create_database r
  | None =>
  match strip_prefix "CREATE TABLE IF NOT EXISTS " s with
  | Some r => parse_create_table r
  | None =>
  match strip_prefix "SELECT VARIABLE_VALUE FROM " s with
  | Some r => parse_select r
  | None =>
  match strip_prefix "INSERT INTO " s with
  | Some r => parse_insert r
  | None =>
  match strip_prefix "BEGIN" s with
  | Some r => if ends r then Some SBegin else None
  | None =>
  match strip_prefix "COMMIT" s with
  | Some r => if ends r then Some SCommit else None
  | None => None
  end end end end end end end.

End Sql.

(** ** A reference executor *)

(** Modelled from the spec: the [Session] implementation and the SQL engine
    behind it are not part of the sources at hand.  The spec describes the
    executor by its capabilities: it runs a statement against the shared
    store and returns result sets or an error; it tells "namespace or object
    does not exist" from "duplicate key" from other failures; creation "if
    absent" of an existing object does nothing; begin and commit delimit an
    atomic transaction; a read outside a transaction opens one implicitly;
    the flag write overwrites the value of an existing row.  [Store] is the
    smallest executor with these capabilities for the statements that
    [Sql.parse] reads.  Table layouts are opaque: a table keeps, per
    primary key, the columns that follow the key. *)
Module Store.
Import Sql.

(** A table: the number of its key columns and, per key, the values of
    the columns after the key ([None] is SQL's NULL). *)
Record Table : Type := mkTable {
  key_cols : nat;
  rows : gmap (list string) (list (option string))
}.

Record Database : Type := mkDatabase {
  schemas : gset string;
  tables : gmap string Table
}.

(** Modelled from the spec: the shared store and one session on it.  The
    committed data is what every session sees and what survives the
    process; the working copy is that of the session's open transaction,
    if any. *)
Record State : Type := mkState {
  committed : Database;
  txn : option Database
}.

(** What the session reads and writes. *)
Definition cur (st : State) : Database := default (committed st) (txn st).

Definition commit (st : State) : State := mkState (cur st) None.

Definition rollback (st : State) : State := mkState (committed st) None.

(** A write goes to the open transaction, or straight to the store. *)
Definition write (d : Database) (st : State) : State :=
  match txn st with
  | Some _ => mkState (committed st) (Some d)
  | None => mkState d None
  end.

(** A read outside a transaction opens one. *)
Definition open_txn (st : State) : State :=
  match txn st with
  | Some _ => st
  | None => mkState (committed st) (Some (committed st))
  end.

Definition errDatabaseNotExists : error := Terr DatabaseNotExists "database does not exist".
Definition errTableNotExists : error := Terr TableNotExists "table does not exist".
Definition errDupKey : error := Terr (OtherTerror 1062) "duplicate entry for key PRIMARY".
Definition errColumnCount : error := Terr (OtherTerror 1136) "column count does not match value count".
Definition errSyntax : error := Terr (OtherTerror 1064) "syntax error".
Definition errNoKey : error := ErrNew "insert into a table without primary key is not modelled".

(** The schema part of a qualified table name. *)
Fixpoint schema_of (tbl : string) : string :=
  match tbl with
  | EmptyString => EmptyString
  | String c s' => if Ascii.eqb c "." then EmptyString else String c (schema_of s')
  end.

Definition datum (c : option string) : Datum :=
  match c with
  | Some s => DString s
  | None => DNil
  end.

(** One row of an INSERT.  A row whose key is taken fails with "duplicate
    key" (of the behaviours the spec leaves to the store, the loud one),
    unless the statement says ON DUPLICATE KEY UPDATE VARIABLE_VALUE: then
    the column that follows the key, which is VARIABLE_VALUE in the
    key-value tables, is overwritten. *)
Definition insert_row (k : nat) (upd : option string)
    (t : gmap (list string) (list (option string))) (vals : list string)
  : error + gmap (list string) (list (option string)) :=
  if (length vals <? k)%nat then inl errColumnCount
  else
    let key := take k vals in
    match t !! key with
    | None => inr (<[key := Some <$> drop k vals]> t)
    | Some old =>
        match upd with
        | None => inl errDupKey
        | Some v => inr (<[key := Some v :: tail old]> t)
        end
    end.

Fixpoint insert_rows (k : nat) (upd : option string)
    (t : gmap (list string) (list (option string))) (rs : list (list string))
  : error + gmap (list string) (list (option string)) :=
  match rs with
  | [] => inr t
  | vals :: rs' =>
      match insert_row k upd t vals with
      | inl e => inl e
      | inr t' => insert_rows k upd t' rs'
      end
  end.

Definition ok (st : State) : (list Recordset * option error) * State :=
  (([], None), st).

Definition fail (e : error) (st : State) : (list Recordset * option error) * State :=
  (([], Some e), st).

(** Modelled from the spec: what a statement does.  USE fails with
    "database does not exist" on a missing namespace.  A creation does
    nothing when its object is there; schema statements do not take part
    in a transaction, an open one is committed first.  BEGIN opens a
    transaction on the data the session sees, COMMIT makes its working
    copy the committed data.  The read of a variable fails with "table
    does not exist" on a missing table, yields the row of the key if there
    is one, and opens a transaction if none is open.  An INSERT takes
    effect as a whole or not at all. *)
Definition exec (stmt : Stmt) (st : State) : (list Recordset * option error) * State :=
  match stmt with
  | SUse db =>
      if bool_decide (db ∈ schemas (cur st)) then ok st
      else fail errDatabaseNotExists st
  | SCreateDatabase db =>
      let d := committed (commit st) in
      ok (mkState (mkDatabase ({[db]} ∪ schemas d) (tables d)) None)
  | SCreateTable tbl k =>
      let d := committed (commit st) in
      if bool_decide (schema_of tbl ∈ schemas d) then
        match tables d !! tbl with
        | Some _ => ok (commit st)
        | None =>
            ok (mkState (mkDatabase (schemas d) (<[tbl := mkTable k ∅]> (tables d))) None)
        end
      else fail errDatabaseNotExists (commit st)
  | SBegin =>
      let d := committed (commit st) in
      ok (mkState d (Some d))
  | SCommit => ok (commit st)
  | SSelectValue tbl key =>
      match tables (cur st) !! tbl with
      | None => fail errTableNotExists st
      | Some t =>
          let found : Recordset :=
            match rows t !! [key] with
            | Some cols => [FetchRow (mkRow [datum (mjoin (head cols))])]
            | None => []
            end in
          (([found], None), open_txn st)
      end
  | SInsert tbl rs upd =>
      let d := cur st in
      match tables d !! tbl with
      | None => fail errTableNotExists st
      | Some t =>
          if (key_cols t =? 0)%nat then fail errNoKey st
          else
            match insert_rows (key_cols t) upd (rows t) rs with
            | inl e => fail e st
            | inr m =>
                ok (write (mkDatabase (schemas d)
                             (<[tbl := mkTable (key_cols t) m]> (tables d))) st)
            end
      end
  end.

(** Modelled from the spec: a statement text is read and executed; a text
    the reader does not understand is a syntax error. *)
Definition execute_sql (sql : string) (st : State)
  : (list Recordset * option error) * State :=
  match parse sql with
  | Some stmt => exec stmt st
  | None => fail errSyntax st
  end.

(** Modelled from the spec: [FinishTxn(rollback)] ends the open
    transaction, if any: it drops the working copy, or commits it. *)
Definition finish_txn (rb : bool) (st : State) : option error * State :=
  (None, if rb then rollback st else commit st).

(** Modelled from the spec: the reference executor as a [Session]. *)
Global Instance session : Session State := {
  Execute := execute_sql;
  FinishTxn := finish_txn
}.

(** A store nothing was ever created in. *)
Definition fresh : State := mkState (mkDatabase ∅ ∅) None.

(** *** The flag in the store *)

Definition tidbTable : string := "mysql.tidb".

(** The columns after the key of the flag row, if the row is there. *)
Definition flag (d : Database) : option (list (option string)) :=
  match tables d !! tidbTable with
  | Some t => rows t !! [bootstrappedVar]
  | None => None
  end.

(** The flag row is there and its value is "True". *)
Definition flag_is_true (d : Database) : Prop :=
  exists cols, flag d = Some (Some bootstrappedVarTrue :: cols).

(** The flag table, where it exists, has the layout [CreateTiDBTable]
    declares: one key column. *)
Definition layout_ok (d : Database) : Prop :=
  forall t, tables d !! tidbTable = Some t -> key_cols t = 1%nat.

Definition session_layout_ok (st : State) : Prop :=
  layout_ok (committed st) /\ forall w, txn st = Some w -> layout_ok w.

(** Statements that keep the layout of the flag table. *)
Definition keeps_layout (stmt : Stmt) : bool :=
  match stmt with
  | SCreateTable tbl k => negb (String.eqb tbl tidbTable) || (k =? 1)%nat
  | _ => true
  end.

Definition sql_keeps_layout (sql : string) : bool :=
  match parse sql with
  | Some stmt => keeps_layout stmt
  | None => true
  end.

(** The statements that create an object if it is absent, and the object
    being there. *)
Definition is_create (stmt : Stmt) : bool :=
  match stmt with
  | SCreateDatabase _ | SCreateTable _ _ => true
  | _ => false
  end.

Definition has (d : Database) (stmt : Stmt) : Prop :=
  match stmt with
  | SCreateDatabase db => db ∈ schemas d
  | SCreateTable tbl _ => schema_of tbl ∈ schemas d /\ is_Some (tables d !! tbl)
  | _ => True
  end.

Definition sql_creates (sql : string) : bool :=
  match parse sql with
  | Some stmt => is_create stmt
  | None => false
  end.

Definition has_sql (d : Database) (sql : string) : Prop :=
  match parse sql with
  | Some stmt => has d stmt
  | None => True
  end.

(** Every table of the list is created after its database, or in one of
    the databases known beforehand. *)
Fixpoint schemas_declared (known : list string) (sqls : list string) : bool :=
  match sqls with
  | [] => true
  | sql :: rest =>
      match parse sql with
      | Some (SCreateDatabase db) => schemas_declared (db :: known) rest
      | Some (SCreateTable tbl _) =>
          bool_decide (schema_of tbl ∈ known) && schemas_declared known rest
      | _ => false
      end
  end.

(** [d'] has every table of [d] as it is in [d], and beyond them only
    empty tables. *)
Definition keeps_tables (d d' : Database) : Prop :=
  forall tbl,
    match tables d !! tbl with
    | Some t => tables d' !! tbl = Some t
    | None =>
        tables d' !! tbl = None \/ exists k, tables d' !! tbl = Some (mkTable k ∅)
    end.

(** The data on which the probe answers (false, nil): no flag table, no
    flag row, or a flag row with a string value other than "True". *)
Definition flag_says_no (d : Database) : Prop :=
  match tables d !! tidbTable with
  | None => True
  | Some t =>
      match rows t !! [bootstrappedVar] with
      | None => True
      | Some cols =>
          exists v, mjoin (head cols) = Some v /\ v <> bootstrappedVarTrue
      end
  end.

(** Statements that run inside the open transaction, without ending it. *)
Definition transactional (stmt : Stmt) : bool :=
  match stmt with
  | SUse _ | SSelectValue _ _ | SInsert _ _ _ => true
  | _ => false
  end.

Definition sql_transactional (sql : string) : bool :=
  match parse sql with
  | Some stmt => transactional stmt
  | None => true
  end.

End Store.

(** ** The two statement sequences *)

(** What [doDDLWorks] passes to [mustExecute], in the order of its lines. *)
Definition ddlStatements : list string :=
  [ createTestDB; createSystemDB; CreateUserTable; CreateDBPrivTable;
    CreateTablePrivTable; CreateColumnPrivTable; CreateGloablVariablesTable;
    CreateProcTable; createPerformanceSchema; CreateSomething1;
    CreateSomething2; CreateSomething3; CreateTiDBTable ].

(** What [doDMLWorks] passes to [mustExecute]. *)
Definition dmlStatements (SysVars : list (string * SysVar)) : list string :=
  [ "BEGIN"; insertDefaultUser; insertSysVars SysVars; insertBootstrapped;
    "COMMIT" ].

(** A run of [mustExecute] over a list of statements: it stops at the first
    statement that fails. *)
Fixpoint mustExecuteAll {S : Type} `{Session S} (sqls : list string) : Go S unit :=
  match sqls with
  | [] => ret tt
  | sql :: rest => mustExecute sql ;;; mustExecuteAll rest
  end.

(** The call that reads the flag. *)
Definition selectCall : list Call := [CallExecute selectBootstrapped].

(** Which answers to USE stop the process: [checkBootstrapped] lets nil and
    "database does not exist" pass. *)
Definition useFatal (err : option error) : option error :=
  match err with
  | Some e => if Equal DatabaseNotExists err then None else Some e
  | None => None
  end.

(** The session after the statements were executed one after the other,
    whatever they answered. *)
Definition exec_all {S : Type} `{Session S} (sqls : list string) (s : S) : S :=
  fold_left (fun s sql => (Execute sql s).2) sqls s.

(** The position and the error of the first statement of the list that
    fails, when they are executed one after the other. *)
Fixpoint first_failure {S : Type} `{Session S} (sqls : list string) (s : S)
  : option (nat * error) :=
  match sqls with
  | [] => None
  | sql :: rest =>
      match (Execute sql s).1.2 with
      | Some e => Some (0%nat, e)
      | None =>
          match first_failure rest (Execute sql s).2 with
          | Some (j, e) => Some (Datatypes.S j, e)
          | None => None
          end
      end
  end.

(** The number of places of [s] where the text [p] starts. *)
Fixpoint occurrences (p s : string) : nat :=
  match s with
  | EmptyString => 0%nat
  | String _ s' =>
      (match Sql.strip_prefix p s with Some _ => 1 | None => 0 end
       + occurrences p s')%nat
  end.

(** No double quote occurs in [s]. *)
Fixpoint quote_free (s : string) : bool :=
  match s with
  | EmptyString => true
  | String c s' => negb (Ascii.eqb c dquote) && quote_free s'
  end.

(** ** A scripted session

    A second implementation of [Session]: it answers the calls from two
    lists, whatever the statement.  It stands for sessions whose engine is
    free to answer as the interface allows: several result sets, several
    rows, failures of any class. *)
Module Script.

Record State : Type := mkState {
  answers : list (list Recordset * option error);
  finishes : list (option error)
}.

Definition execute_sql (sql : string) (st : State)
  : (list Recordset * option error) * State :=
  match answers st with
  | [] => (([], None), st)
  | a :: rest => (a, mkState rest (finishes st))
  end.

Definition finish_txn (rb : bool) (st : State) : option error * State :=
  match finishes st with
  | [] => (None, st)
  | a :: rest => (a, mkState (answers st) rest)
  end.

Global Instance scripted : Session State := {
  Execute := execute_sql;
  FinishTxn := finish_txn
}.

End Script.

(** ** Stores and registries to run the programs on *)

(** A small registry, ranged over in this order. *)
Definition exampleSysVars : list (string * SysVar) :=
  [ ("autocommit", mkSysVar "ON");
    ("SQL_MODE", mkSysVar "");
    ("Max_Connections", mkSysVar "151") ].

(** A registry with two names that differ in case only. *)
Definition clashingSysVars : list (string * SysVar) :=
  [ ("autocommit", mkSysVar "ON"); ("AutoCommit", mkSysVar "1") ].

Module Stores.
Import Store.

(** The store after the installer alone: every table exists and is
    empty; this is what a run leaves that died before the loader's
    commit. *)
Definition installed : State := exec_all ddlStatements fresh.

(** The store after a whole run of bootstrap on the fresh store. *)
Definition bootstrapped : State := final (bootstrap exampleSysVars fresh).

(** A store with the system namespace and nothing in it. *)
Definition namespace_only : State := (Execute createSystemDB fresh).2.

(** The installed store with a flag row of the given columns. *)
Definition with_flag (cols : list (option string)) : State :=
  let d := committed installed in
  mkState (mkDatabase (schemas d)
             (<[tidbTable := mkTable 1 {[ [bootstrappedVar] := cols ]}]> (tables d)))
          None.

(** A scripted session that answers the first statement with nil and
    the second with the given result sets. *)
Definition answering (rs : list Recordset) : Script.State :=
  Script.mkState [([], None); (rs, None)] [].

Definition row_of (v : string) : Fetch := FetchRow (mkRow [DString v]).

End Stores.

(** ** Proof steps *)

(** Closes a goal whose first hypothesis equates two different outcomes. *)
Ltac absurd_outcome :=
  let Ho := fresh "Ho" in
  intros Ho; unfold outcome in Ho; cbn in Ho; discriminate.

(** * Facts about the programs, for every session *)

Section Facts.
Context {S : Type} `{Session S}.

Lemma bind_run {A B} (m : Go S A) (k : A -> Go S B) (s : S) :
  bind m k s =
    match m s with
    | (Returned a, s1, l1) => (outcome (k a s1), final (k a s1), l1 ++ trace (k a s1))
    | (Fatal e, s1, l1) => (Fatal e, s1, l1)
    | (Panicked, s1, l1) => (Panicked, s1, l1)
    end.
Proof.
  unfold bind, outcome, final, trace.
  destruct (m s) as [[[a|e|] s1] l1]; try reflexivity.
  destruct (k a s1) as [[o s2] l2]; reflexivity.
Qed.

Lemma outcome_mk {A} (o : Outcome A) (s : S) (l : list Call) : outcome (o, s, l) = o.
Proof. reflexivity. Qed.

Lemma final_mk {A} (o : Outcome A) (s : S) (l : list Call) : final (o, s, l) = s.
Proof. reflexivity. Qed.

Lemma trace_mk {A} (o : Outcome A) (s : S) (l : list Call) : trace (o, s, l) = l.
Proof. reflexivity. Qed.

Lemma run_eta {A} (r : Outcome A * S * list Call) :
  (outcome r, final r, trace r) = r.
Proof. destruct r as [[o s] l]; reflexivity. Qed.

Lemma mustExecute_run (sql : string) (s : S) :
  mustExecute sql s =
    match (Execute sql s).1.2 with
    | Some e => (Fatal e, (Execute sql s).2, [CallExecute sql])
    | None => (Returned tt, (Execute sql s).2, [CallExecute sql])
    end.
Proof.
  unfold mustExecute, execute, bind, logFatal, ret.
  destruct (Execute sql s) as [[rs [e|]] s']; reflexivity.
Qed.

Lemma mustExecuteAll_cons (sql : string) (rest : list string) (s : S) :
  mustExecuteAll (sql :: rest) s =
    match (Execute sql s).1.2 with
    | Some e => (Fatal e, (Execute sql s).2, [CallExecute sql])
    | None =>
        let r := mustExecuteAll rest (Execute sql s).2 in
        (outcome r, final r, CallExecute sql :: trace r)
    end.
Proof.
  cbn [mustExecuteAll]. rewrite bind_run, mustExecute_run.
  destruct ((Execute sql s).1.2); reflexivity.
Qed.

Lemma mustExecuteAll_one (sql : string) (s : S) :
  mustExecute sql s = mustExecuteAll [sql] s.
Proof.
  rewrite mustExecuteAll_cons, mustExecute_run.
  destruct ((Execute sql s).1.2); reflexivity.
Qed.

Lemma mustExecuteAll_seq (sql : string) (k : Go S unit) (rest : list string) :
  (forall s, k s = mustExecuteAll rest s) ->
  forall s, (mustExecute sql ;;; k) s = mustExecuteAll (sql :: rest) s.
Proof.
  intros Hk s. rewrite mustExecuteAll_cons, bind_run, mustExecute_run.
  destruct ((Execute sql s).1.2); [reflexivity|].
  rewrite Hk. reflexivity.
Qed.

(** The installer and the loader are runs of [mustExecute] over their
    statement lists. *)
Lemma doDDLWorks_all (s : S) : doDDLWorks s = mustExecuteAll ddlStatements s.
Proof.
  revert s. unfold doDDLWorks, ddlStatements.
  repeat (apply mustExecuteAll_seq). apply mustExecuteAll_one.
Qed.

Lemma doDMLWorks_all SysVars (s : S) :
  doDMLWorks SysVars s = mustExecuteAll (dmlStatements SysVars) s.
Proof.
  revert s. unfold doDMLWorks, dmlStatements.
  repeat (apply mustExecuteAll_seq). apply mustExecuteAll_one.
Qed.

Lemma mustExecuteAll_app (l1 l2 : list string) (s : S) :
  mustExecuteAll (l1 ++ l2) s = (mustExecuteAll l1 ;;; mustExecuteAll l2) s.
Proof.
  revert s. induction l1 as [|q l1 IH]; intros s.
  - cbn [app mustExecuteAll]. rewrite bind_run. unfold ret.
    cbn [app]. apply eq_sym, run_eta.
  - cbn [app]. rewrite mustExecuteAll_cons, bind_run, mustExecuteAll_cons.
    destruct ((Execute q s).1.2); [reflexivity|].
    cbn zeta. rewrite IH, bind_run. unfold outcome, final, trace.
    destruct (mustExecuteAll l1 _) as [[[[]|e|] s1] t1]; cbn; reflexivity.
Qed.

Lemma exec_all_snoc (sqls : list string) (sql : string) (s : S) :
  exec_all (sqls ++ [sql]) s = (Execute sql (exec_all sqls s)).2.
Proof. unfold exec_all. rewrite fold_left_app. reflexivity. Qed.

(** [mustExecuteAll] executes the statements in order up to the first
    failure, which is fatal; without failure it executes them all and
    returns. *)
Lemma mustExecuteAll_run (sqls : list string) (s : S) :
  mustExecuteAll sqls s =
    match first_failure sqls s with
    | Some (j, e) =>
        (Fatal e, exec_all (take (Datatypes.S j) sqls) s,
         CallExecute <$> take (Datatypes.S j) sqls)
    | None => (Returned tt, exec_all sqls s, CallExecute <$> sqls)
    end.
Proof.
  revert s. induction sqls as [|q sqls IH]; intros s; [reflexivity|].
  rewrite mustExecuteAll_cons. cbn [first_failure].
  destruct ((Execute q s).1.2) as [e|]; [reflexivity|].
  cbn zeta. rewrite IH.
  destruct (first_failure sqls _) as [[j e]|]; reflexivity.
Qed.

(** A run of [mustExecute] calls nothing but Execute. *)
Lemma mustExecuteAll_only_executes (sqls : list string) (s : S) (c : Call) :
  c ∈ trace (mustExecuteAll sqls s) -> exists sql, c = CallExecute sql.
Proof.
  rewrite mustExecuteAll_run.
  destruct (first_failure sqls s) as [[j e]|]; unfold trace; cbn [snd];
    intros (q & -> & _)%list_elem_of_fmap; eauto.
Qed.

Lemma first_failure_lt (sqls : list string) (s : S) (j : nat) (e : error) :
  first_failure sqls s = Some (j, e) -> (j < length sqls)%nat.
Proof.
  revert s j e. induction sqls as [|q sqls IH]; intros s j e; cbn; [discriminate|].
  destruct ((Execute q s).1.2); [intros [= <- _]; lia|].
  destruct (first_failure sqls _) as [[j' e']|] eqn:E; [|discriminate].
  intros [= <- _]. apply IH in E. lia.
Qed.

(** The failure is the answer of the statement at that position, in the
    session the statements before it left. *)
Lemma first_failure_at (sqls : list string) (s : S) (j : nat) (e : error) :
  first_failure sqls s = Some (j, e) ->
  exists sql, sqls !! j = Some sql /\
    (Execute sql (exec_all (take j sqls) s)).1.2 = Some e.
Proof.
  revert s j e. induction sqls as [|q sqls IH]; intros s j e; cbn [first_failure]; [discriminate|].
  destruct ((Execute q s).1.2) as [e'|] eqn:E.
  - intros [= <- <-]. exists q. split; [reflexivity|exact E].
  - destruct (first_failure sqls _) as [[j' e']|] eqn:F; [|discriminate].
    intros [= <- <-]. destruct (IH _ _ _ F) as (sql & Hl & He).
    exists sql. split; [exact Hl|exact He].
Qed.

(** The probe of the flag, branch by branch. *)
Lemma checkBootstrappedVar_run (s : S) :
  checkBootstrappedVar s =
    let '((rs, err), s1) := Execute selectBootstrapped s in
    match err with
    | Some e =>
        (Returned (false, if Equal TableNotExists err then None else Some (Traced e)),
         s1, selectCall)
    | None =>
        match rs with
        | [r] =>
            match r with
            | [] => (Returned (false, None), s1, selectCall)
            | FetchErr e :: _ => (Returned (false, Some (Traced e)), s1, selectCall)
            | FetchRow row :: _ =>
                match Data row with
                | DString v :: _ =>
                    if bool_decide (v = bootstrappedVarTrue) then
                      let '(ferr, s2) := FinishTxn false s1 in
                      (Returned (match ferr with
                                 | Some e => (false, Some (Traced e))
                                 | None => (true, None)
                                 end),
                       s2, selectCall ++ [CallFinishTxn false])
                    else (Returned (false, None), s1, selectCall)
                | _ => (Panicked, s1, selectCall)
                end
            end
        | _ => (Returned (false, Some (ErrNew "Wrong number of Recordset")), s1, selectCall)
        end
    end.
Proof.
  unfold checkBootstrappedVar, bind, execute, finishTxn, ret, panic, selectCall.
  destruct (Execute selectBootstrapped s) as [[rs [e|]] s1].
  - destruct (Equal TableNotExists (Some e)); reflexivity.
  - destruct rs as [|r [|r' rs]]; try reflexivity.
    cbn [length Nat.eqb negb].
    destruct r as [|[row|e] r]; try reflexivity.
    cbn [Next fst].
    destruct row as [[|[| |v|] data]]; try reflexivity.
    cbn [Data]. destruct (bool_decide (v = bootstrappedVarTrue)); [|reflexivity].
    destruct (FinishTxn false s1) as [[e|] s2]; reflexivity.
Qed.

Lemma checkBootstrapped_run (s : S) :
  checkBootstrapped s =
    let '((rs, err), s0) := Execute useSystemDB s in
    match useFatal err with
    | Some e => (Fatal e, s0, [CallExecute useSystemDB])
    | None =>
        let r := checkBootstrappedVar s0 in
        (match outcome r with
         | Returned (v, None) => Returned (v, None)
         | Returned (_, Some e) => Returned (false, Some (Traced e))
         | Fatal e => Fatal e
         | Panicked => Panicked
         end, final r, CallExecute useSystemDB :: trace r)
    end.
Proof.
  unfold checkBootstrapped, bind at 1 2, execute, useFatal, NotEqual.
  destruct (Execute useSystemDB s) as [[rs err] s0]. cbn [snd].
  destruct err as [e|].
  - rewrite bool_decide_eq_true_2 by discriminate. cbn [andb].
    destruct (Equal DatabaseNotExists (Some e)); cbn [negb]; [|reflexivity].
    unfold ret at 1, bind, outcome, final, trace.
    destruct (checkBootstrappedVar s0) as [[[[v [e'|]]|e'|] s1] l1];
      unfold ret; cbn [fst snd app Trace]; rewrite ?app_nil_r; reflexivity.
  - rewrite bool_decide_eq_false_2 by (intros Hn; apply Hn; reflexivity).
    cbn [andb]. unfold ret at 1, bind, outcome, final, trace.
    destruct (checkBootstrappedVar s0) as [[[[v [e'|]]|e'|] s1] l1];
      unfold ret; cbn [fst snd app Trace]; rewrite ?app_nil_r; reflexivity.
Qed.

Lemma bootstrap_run SysVars (s : S) :
  bootstrap SysVars s =
    let p := checkBootstrapped s in
    match outcome p with
    | Returned (_, Some e) => (Fatal e, final p, trace p)
    | Returned (true, None) => (Returned tt, final p, trace p)
    | Returned (false, None) =>
        let r := mustExecuteAll (ddlStatements ++ dmlStatements SysVars) (final p) in
        (outcome r, final r, trace p ++ trace r)
    | Fatal e => (Fatal e, final p, trace p)
    | Panicked => (Panicked, final p, trace p)
    end.
Proof.
  unfold bootstrap. rewrite bind_run.
  destruct (checkBootstrapped s) as [[[[[] [e|]]|e|] s1] l1];
    unfold outcome, final, trace, logFatal, ret; cbn [fst snd];
    rewrite ?app_nil_r; try reflexivity.
  rewrite mustExecuteAll_app, !bind_run, <- doDDLWorks_all.
  destruct (doDDLWorks s1) as [[[[]|e|] s2] l2]; try reflexivity.
  rewrite <- doDMLWorks_all. reflexivity.
Qed.

End Facts.

(** * Facts about the statement texts *)

Import Sql.

Lemma insertSysVars_text vars : insertSysVars vars = "INSERT INTO mysql.GLOBAL_VARIABLES VALUES " +:+ (Join (sysVarValues vars) ", " +:+ ";").
Proof. reflexivity. Qed.
Lemma parse_insert_global_variables X : parse ("INSERT INTO mysql.GLOBAL_VARIABLES VALUES " +:+ X) =
  match read_values VOut [] X with
  | Some (row :: rows, r3) => match parse_on_duplicate r3 with Some upd => Some (SInsert "mysql.GLOBAL_VARIABLES" (row :: rows) upd) | None => None end
  | _ => None end.
Proof. reflexivity. Qed.

Lemma append_cons (x : ascii) (a b : string) : String x a +:+ b = String x (a +:+ b).
Proof. reflexivity. Qed.

Lemma append_nil_r (a : string) : a +:+ "" = a.
Proof. induction a as [|x a IH]; [reflexivity|]. rewrite append_cons, IH. reflexivity. Qed.

Lemma append_assoc (a b c : string) : (a +:+ b) +:+ c = a +:+ (b +:+ c).
Proof. induction a as [|x a IH]; [reflexivity|]. rewrite !append_cons, IH. reflexivity. Qed.

Lemma sysVarValues_map (vars : list (string * SysVar)) :
  sysVarValues vars = (fun kv => sysVarValue kv.1 kv.2) <$> vars.
Proof.
  unfold sysVarValues.
  enough (forall acc, fold_left (fun values kv => values ++ [sysVarValue kv.1 kv.2]) vars acc
                      = acc ++ ((fun kv => sysVarValue kv.1 kv.2) <$> vars)) as E by apply (E []).
  induction vars as [|kv vars IH]; intros acc; cbn [fold_left fmap list_fmap].
  - rewrite app_nil_r. reflexivity.
  - rewrite IH, <- app_assoc. reflexivity.
Qed.

Lemma lower_ascii_quote (c : ascii) :
  Ascii.eqb c dquote = false -> Ascii.eqb (lower_ascii c) dquote = false.
Proof. destruct c as [[] [] [] [] [] [] [] []]; vm_compute; intros; congruence. Qed.

Lemma quote_free_ToLower (s : string) : quote_free s = true -> quote_free (ToLower s) = true.
Proof.
  induction s as [|c s IH]; cbn [quote_free ToLower]; [reflexivity|].
  intros [Hc Hs]%andb_true_iff. apply negb_true_iff in Hc.
  rewrite (lower_ascii_quote _ Hc), IH by assumption. reflexivity.
Qed.

(** Reading a quoted value. *)
Lemma read_values_string (vals : list string) (rows : list (list string)) (v cur rest : string) :
  quote_free v = true ->
  read_values (VStr vals cur) rows (v +:+ String dquote rest) =
  read_values (VIn (vals ++ [cur +:+ v])) rows rest.
Proof.
  revert cur. induction v as [|c v IH]; intros cur Hq.
  - rewrite append_nil_r. reflexivity.
  - cbn [quote_free] in Hq. apply andb_true_iff in Hq as [Hc Hv]. apply negb_true_iff in Hc.
    rewrite append_cons. cbn [read_values]. rewrite Hc, IH by assumption.
    rewrite append_assoc. reflexivity.
Qed.

Lemma append_nil_l (a : string) : "" +:+ a = a.
Proof. reflexivity. Qed.

Lemma read_values_tuple (rows : list (list string)) (k : string) (v : SysVar) (rest : string) :
  quote_free k = true -> quote_free (Value v) = true ->
  read_values VOut rows (sysVarValue k v +:+ rest) =
  read_values VOut (rows ++ [[ToLower k; Value v]]) rest.
Proof.
  intros Hk Hv. apply quote_free_ToLower in Hk. unfold sysVarValue, quoted.
  repeat (rewrite ?append_assoc, ?append_cons, ?append_nil_l).
  change (read_values VOut rows (String "(" (String dquote ?s)))
    with (read_values (VStr [] "") rows s).
  rewrite read_values_string by assumption.
  change (read_values (VIn ?vs) rows (String "," (String " " (String dquote ?s))))
    with (read_values (VStr vs "") rows s).
  rewrite read_values_string by assumption.
  reflexivity.
Qed.

Lemma read_values_join (rows : list (list string)) (vars : list (string * SysVar)) :
  Forall (fun kv => quote_free kv.1 = true /\ quote_free (Value kv.2) = true) vars ->
  read_values VOut rows (Join ((fun kv => sysVarValue kv.1 kv.2) <$> vars) ", " +:+ ";") =
  Some (rows ++ ((fun kv => [ToLower kv.1; Value kv.2]) <$> vars), ";").
Proof.
  intros Hq. revert rows. induction Hq as [|kv vars [Hk Hv] Hq IH]; intros rows.
  - rewrite app_nil_r. reflexivity.
  - cbn [fmap list_fmap]. destruct vars as [|kv' vars].
    + cbn [fmap list_fmap Join]. rewrite read_values_tuple by assumption. reflexivity.
    + change (Join (sysVarValue kv.1 kv.2 :: ?l) ", ")
        with (sysVarValue kv.1 kv.2 +:+ ", " +:+ Join l ", ").
      rewrite append_assoc, read_values_tuple by assumption.
      rewrite append_assoc.
      change (read_values VOut ?r (", " +:+ ?s)) with (read_values VOut r s).
      rewrite IH, <- app_assoc. reflexivity.
Qed.

(** The registry has no double quote in a name or in a value. *)
Lemma quote_free_Forall (vars : list (string * SysVar)) :
  forallb (fun kv => quote_free kv.1 && quote_free (Value kv.2)) vars = true ->
  Forall (fun kv => quote_free kv.1 = true /\ quote_free (Value kv.2) = true) vars.
Proof.
  induction vars as [|kv vars IH]; cbn [forallb]; [constructor|].
  intros [[Hk Hv]%andb_true_iff Hs]%andb_true_iff. constructor; [split; assumption|auto].
Qed.

(** Read back, the bulk INSERT has one tuple per entry of the registry:
    the name in lower case and the value as it is. *)
Lemma parse_insertSysVars (vars : list (string * SysVar)) :
  vars <> [] ->
  forallb (fun kv => quote_free kv.1 && quote_free (Value kv.2)) vars = true ->
  parse (insertSysVars vars) =
  Some (SInsert "mysql.GLOBAL_VARIABLES" ((fun kv => [ToLower kv.1; Value kv.2]) <$> vars) None).
Proof.
  intros Hne Hq%quote_free_Forall.
  rewrite insertSysVars_text, parse_insert_global_variables, sysVarValues_map,
    read_values_join by assumption.
  destruct vars as [|kv vars]; [congruence|]. reflexivity.
Qed.

(** * Facts about the programs on the reference executor *)

Import Store.

Lemma cur_layout st : session_layout_ok st -> layout_ok (cur st).
Proof. intros [Hc Hw]. unfold cur. destruct (txn st) as [w|]; cbn; auto. Qed.

Lemma layout_commit st : session_layout_ok st -> session_layout_ok (commit st).
Proof. intros HI. split; cbn; [apply cur_layout, HI|discriminate]. Qed.

Lemma layout_insert_table d tbl t :
  layout_ok d -> (tbl = tidbTable -> key_cols t = 1%nat) ->
  layout_ok (mkDatabase (schemas d) (<[tbl := t]> (tables d))).
Proof.
  intros Hd Ht t'. cbn. destruct (decide (tbl = tidbTable)) as [->|Hne].
  - rewrite lookup_insert_eq. intros [= <-]. auto.
  - rewrite lookup_insert_ne by assumption. apply Hd.
Qed.

Lemma layout_write st d : session_layout_ok st -> layout_ok d -> session_layout_ok (write d st).
Proof.
  intros [Hc Hw] Hd. unfold write.
  destruct (txn st) as [w|]; split; cbn; try discriminate; auto.
  intros w' [= <-]. assumption.
Qed.

Lemma exec_layout stmt st : keeps_layout stmt = true -> session_layout_ok st -> session_layout_ok (exec stmt st).2.
Proof.
  intros Hg HI. pose proof (cur_layout st HI) as Hcur.
  destruct stmt as [db|db|tbl k| | |tbl key|tbl rs upd]; cbn [exec].
  - case_bool_decide; exact HI.
  - cbn. split; cbn; [|discriminate]. intros t. cbn. apply Hcur.
  - cbn [commit committed]. case_bool_decide; cbn [fail ok snd]; [|apply layout_commit, HI].
    destruct (tables (cur st) !! tbl) as [t|] eqn:E; cbn [ok snd]; [apply layout_commit, HI|].
    split; cbn [committed txn]; [|discriminate].
    apply layout_insert_table; [assumption|]. intros ->. cbn in Hg.
    apply Nat.eqb_eq. exact Hg.
  - cbn. split; cbn; [assumption|]. intros w [= <-]. assumption.
  - apply layout_commit, HI.
  - destruct (tables (cur st) !! tbl); cbn; [|exact HI].
    unfold open_txn. destruct (txn st) eqn:E; [exact HI|].
    destruct HI as [Hc Hw]. split; cbn; [assumption|]. intros w [= <-]. assumption.
  - destruct (tables (cur st) !! tbl) as [t|] eqn:E; cbn [fail snd]; [|exact HI].
    destruct (key_cols t =? 0)%nat; cbn [fail snd]; [exact HI|].
    destruct (insert_rows _ _ _ _) as [e|m]; cbn [fail ok snd]; [exact HI|].
    apply layout_write; [exact HI|]. apply layout_insert_table; [assumption|].
    intros ->. cbn. apply Hcur. exact E.
Qed.

Lemma execute_layout sql st : sql_keeps_layout sql = true -> session_layout_ok st -> session_layout_ok (Execute sql st).2.
Proof.
  unfold sql_keeps_layout. change (Execute sql st) with (execute_sql sql st). unfold execute_sql.
  destruct (parse sql) as [stmt|]; [apply exec_layout|]. intros _ HI. exact HI.
Qed.

Lemma exec_all_layout sqls st :
  forallb sql_keeps_layout sqls = true -> session_layout_ok st -> session_layout_ok (exec_all sqls st).
Proof.
  revert st. induction sqls as [|q sqls IH]; intros st; [intros _ HI; exact HI|].
  cbn [forallb]. intros [Hq Hs]%andb_true_iff HI.
  change (exec_all (q :: sqls) st) with (exec_all sqls (Execute q st).2).
  apply IH; [assumption|]. apply execute_layout; assumption.
Qed.

(** The programs on the store. *)

Lemma cur_write d st : cur (write d st) = d.
Proof. unfold write. destruct (txn st); reflexivity. Qed.

Lemma cur_open_txn st : cur (open_txn st) = cur st.
Proof. unfold open_txn, cur. destruct (txn st) eqn:E; [rewrite E|]; reflexivity. Qed.


Lemma parse_use : parse useSystemDB = Some (SUse "mysql").
Proof. reflexivity. Qed.

Lemma parse_select_flag :
  parse selectBootstrapped = Some (SSelectValue tidbTable bootstrappedVar).
Proof. reflexivity. Qed.

Lemma parse_insertBootstrapped :
  parse insertBootstrapped =
  Some (SInsert tidbTable
          [[bootstrappedVar; bootstrappedVarTrue; "Bootstrap flag. Do not delete."]]
          (Some bootstrappedVarTrue)).
Proof. reflexivity. Qed.

(** The reference executor reads the statement, then executes it. *)
Lemma Execute_store sql (st : State) :
  Execute sql st =
    match parse sql with
    | Some stmt => exec stmt st
    | None => fail errSyntax st
    end.
Proof. reflexivity. Qed.

(** USE answers nil or "database does not exist", and changes nothing. *)
Lemma execute_use (st : State) :
  (Execute useSystemDB st).2 = st /\ useFatal (Execute useSystemDB st).1.2 = None.
Proof.
  rewrite Execute_store, parse_use. cbn [exec].
  case_bool_decide; split; reflexivity.
Qed.

(** The read of the flag. *)
Lemma execute_select (st : State) :
  Execute selectBootstrapped st =
    match tables (cur st) !! tidbTable with
    | None => (([], Some errTableNotExists), st)
    | Some t =>
        (([match rows t !! [bootstrappedVar] with
           | Some cols => [FetchRow (mkRow [datum (mjoin (head cols))])]
           | None => []
           end], None), open_txn st)
    end.
Proof.
  rewrite Execute_store, parse_select_flag. cbn [exec].
  destruct (tables (cur st) !! tidbTable); reflexivity.
Qed.

(** The probe on the store, by the state of the flag table. *)
Lemma checkBootstrapped_store (st : State) :
  checkBootstrapped st =
    match tables (cur st) !! tidbTable with
    | None => (Returned (false, None), st, CallExecute useSystemDB :: selectCall)
    | Some t =>
        match rows t !! [bootstrappedVar] with
        | None => (Returned (false, None), open_txn st, CallExecute useSystemDB :: selectCall)
        | Some cols =>
            match mjoin (head cols) with
            | None => (Panicked, open_txn st, CallExecute useSystemDB :: selectCall)
            | Some v =>
                if bool_decide (v = bootstrappedVarTrue)
                then (Returned (true, None), mkState (cur st) None,
                      CallExecute useSystemDB :: selectCall ++ [CallFinishTxn false])
                else (Returned (false, None), open_txn st,
                      CallExecute useSystemDB :: selectCall)
            end
        end
    end.
Proof.
  rewrite checkBootstrapped_run.
  destruct (execute_use st) as [Hs Hf].
  destruct (Execute useSystemDB st) as [[rs0 err0] s0]. cbn [fst snd] in Hs, Hf.
  subst s0. rewrite Hf. cbn zeta. rewrite checkBootstrappedVar_run, execute_select.
  destruct (tables (cur st) !! tidbTable) as [t|]; [|reflexivity].
  destruct (rows t !! [bootstrappedVar]) as [cols|]; [|reflexivity].
  cbn [Data]. destruct (mjoin (head cols)) as [v|]; [|reflexivity].
  cbn [datum]. destruct (bool_decide (v = bootstrappedVarTrue)); [|reflexivity].
  cbn [FinishTxn session finish_txn]. unfold commit. rewrite cur_open_txn. reflexivity.
Qed.

Lemma at_rest_eta (st : State) : txn st = None -> mkState (committed st) None = st.
Proof. destruct st as [d w]. cbn. intros ->. reflexivity. Qed.

Lemma cur_at_rest (st : State) : txn st = None -> cur st = committed st.
Proof. unfold cur. intros ->. reflexivity. Qed.


Lemma execute_commit (st : State) : Execute "COMMIT" st = (([], None), commit st).
Proof. reflexivity. Qed.

Lemma execute_begin (st : State) :
  Execute "BEGIN" st = (([], None), mkState (cur st) (Some (cur st))).
Proof. reflexivity. Qed.

(** What the flag statement does to the rows of the flag table. *)
Lemma insert_rows_flag (m : gmap (list string) (list (option string))) :
  insert_rows 1 (Some bootstrappedVarTrue) m
    [[bootstrappedVar; bootstrappedVarTrue; "Bootstrap flag. Do not delete."]] =
  inr (<[[bootstrappedVar] :=
          match m !! [bootstrappedVar] with
          | Some old => Some bootstrappedVarTrue :: tail old
          | None => [Some bootstrappedVarTrue; Some "Bootstrap flag. Do not delete."]
          end]> m).
Proof.
  cbn [insert_rows]. unfold insert_row. cbn [length Nat.ltb Nat.leb take drop].
  destruct (m !! [bootstrappedVar]); reflexivity.
Qed.

(** The flag statement on a store whose flag table has its layout: it
    fails only when the table is missing, and otherwise leaves the flag
    row with the value "True". *)
Lemma execute_insertBootstrapped (st : State) :
  layout_ok (cur st) ->
  Execute insertBootstrapped st =
    match tables (cur st) !! tidbTable with
    | None => (([], Some errTableNotExists), st)
    | Some t =>
        (([], None),
         write (mkDatabase (schemas (cur st))
                  (<[tidbTable :=
                      mkTable 1 (<[[bootstrappedVar] :=
                        match rows t !! [bootstrappedVar] with
                        | Some old => Some bootstrappedVarTrue :: tail old
                        | None => [Some bootstrappedVarTrue;
                                   Some "Bootstrap flag. Do not delete."]
                        end]> (rows t))]> (tables (cur st)))) st)
    end.
Proof.
  intros Hl. rewrite Execute_store, parse_insertBootstrapped. cbn [exec].
  destruct (tables (cur st) !! tidbTable) as [t|] eqn:E; [|reflexivity].
  rewrite (Hl t E). cbn [Nat.eqb]. rewrite insert_rows_flag. reflexivity.
Qed.

Lemma flag_after_insertBootstrapped (st : State) :
  layout_ok (cur st) ->
  (Execute insertBootstrapped st).1.2 = None ->
  flag_is_true (cur (Execute insertBootstrapped st).2).
Proof.
  intros Hl. rewrite execute_insertBootstrapped by assumption.
  destruct (tables (cur st) !! tidbTable) as [t|]; [|discriminate].
  intros _. cbn [snd]. rewrite cur_write. unfold flag_is_true, flag. cbn [tables].
  rewrite lookup_insert_eq. cbn [rows]. rewrite lookup_insert_eq.
  destruct (rows t !! [bootstrappedVar]); eauto.
Qed.

(** Every statement of the installer and of the loader keeps the layout of
    the flag table. *)
Lemma ddlStatements_keep_layout : forallb sql_keeps_layout ddlStatements = true.
Proof. vm_compute. reflexivity. Qed.

Lemma insertSysVars_keeps_layout vars : sql_keeps_layout (insertSysVars vars) = true.
Proof.
  unfold sql_keeps_layout. rewrite insertSysVars_text, parse_insert_global_variables.
  destruct (read_values VOut [] _) as [[[|row rs] r3]|]; try reflexivity.
  destruct (parse_on_duplicate r3); reflexivity.
Qed.


Lemma first_failure_none {S : Type} `{Session S} (sqls : list string) (s : S) :
  first_failure sqls s = None ->
  forall j sql, sqls !! j = Some sql ->
    (Execute sql (exec_all (take j sqls) s)).1.2 = None.
Proof.
  revert s. induction sqls as [|q sqls IH]; intros s Hf j sql Hj; [discriminate|].
  cbn [first_failure] in Hf.
  destruct ((Execute q s).1.2) eqn:E; [discriminate|].
  destruct (first_failure sqls _) as [[j' e']|] eqn:F; [discriminate|].
  destruct j as [|j]; cbn in Hj.
  - injection Hj as <-. exact E.
  - apply (IH _ F j sql Hj).
Qed.

(** When installer and loader run through, the transaction is committed
    and the committed flag is "True". *)
Lemma install_and_load_sets_flag vars (st : State) :
  session_layout_ok st ->
  outcome (mustExecuteAll (ddlStatements ++ dmlStatements vars) st) = Returned tt ->
  let st' := final (mustExecuteAll (ddlStatements ++ dmlStatements vars) st) in
  txn st' = None /\ flag_is_true (committed st').
Proof.
  intros HI. rewrite mustExecuteAll_run.
  destruct (first_failure _ st) as [[j e]|] eqn:F; [discriminate|]. intros _.
  cbn zeta. unfold final. cbn [fst snd].
  set (pre := ddlStatements ++ ["BEGIN"; insertDefaultUser; insertSysVars vars]).
  assert (ddlStatements ++ dmlStatements vars = (pre ++ [insertBootstrapped]) ++ ["COMMIT"]) as E.
  { unfold pre, dmlStatements. rewrite <- !app_assoc. reflexivity. }
  rewrite E, exec_all_snoc, exec_all_snoc, execute_commit. cbn [snd commit txn committed].
  split; [reflexivity|].
  apply flag_after_insertBootstrapped.
  - apply cur_layout, exec_all_layout; [|assumption].
    unfold pre. rewrite forallb_app, ddlStatements_keep_layout.
    cbn [forallb andb]. rewrite insertSysVars_keeps_layout. reflexivity.
  - pose proof (first_failure_none _ _ F (length pre) insertBootstrapped) as Hok.
    rewrite E, <- app_assoc in Hok. rewrite take_app_length in Hok.
    apply Hok. rewrite lookup_app_r by lia. rewrite Nat.sub_diag. reflexivity.
Qed.

Lemma layout_open_txn (st : State) : session_layout_ok st -> session_layout_ok (open_txn st).
Proof.
  intros HI. unfold open_txn. destruct (txn st) eqn:E; [exact HI|].
  destruct HI as [Hc Hw]. split; cbn; [assumption|]. intros w [= <-]. assumption.
Qed.

(** On a session at rest whose committed flag is "True", the probe reports
    the store initialized and leaves session and store as it found them:
    the transaction the read opened is ended, and nothing was written. *)
Lemma checkBootstrapped_true_restores (st : State) :
  txn st = None ->
  flag_is_true (committed st) ->
  checkBootstrapped st =
    (Returned (true, None), st,
     [CallExecute useSystemDB; CallExecute selectBootstrapped; CallFinishTxn false]).
Proof.
  intros Ht [cols Hf]. rewrite checkBootstrapped_store.
  destruct st as [d w]. cbn in Ht. subst w. cbn [cur txn committed default] in *.
  unfold flag in Hf. destruct (tables d !! tidbTable) as [t|]; [|discriminate].
  rewrite Hf. cbn [head mjoin option_join]. reflexivity.
Qed.

(** On a session at rest whose flag row has a string value other than
    "True", the probe reports the store not initialized and leaves the
    transaction open that the read opened. *)
Lemma checkBootstrapped_other_value_open (st : State) (t : Table)
    (v : string) (cols : list (option string)) :
  txn st = None ->
  tables (committed st) !! tidbTable = Some t ->
  rows t !! [bootstrappedVar] = Some (Some v :: cols) ->
  v <> bootstrappedVarTrue ->
  checkBootstrapped st =
    (Returned (false, None), mkState (committed st) (Some (committed st)),
     [CallExecute useSystemDB; CallExecute selectBootstrapped]).
Proof.
  intros Ht Hl Hr Hv. rewrite checkBootstrapped_store.
  rewrite (cur_at_rest st Ht), Hl, Hr. cbn [head mjoin option_join].
  rewrite bool_decide_eq_false_2 by assumption.
  unfold open_txn. rewrite Ht. reflexivity.
Qed.

(** On a store whose committed flag is "True", bootstrap only probes, and
    leaves the session as it found it. *)
Lemma bootstrap_noop vars (st : State) :
  txn st = None ->
  flag_is_true (committed st) ->
  bootstrap vars st =
    (Returned tt, st,
     [CallExecute useSystemDB; CallExecute selectBootstrapped; CallFinishTxn false]).
Proof.
  intros Ht Hf. rewrite bootstrap_run, (checkBootstrapped_true_restores st Ht Hf).
  reflexivity.
Qed.

(** A run of bootstrap that returns leaves no transaction open and the
    committed flag at "True". *)
Lemma bootstrap_returned vars (st : State) :
  session_layout_ok st ->
  outcome (bootstrap vars st) = Returned tt ->
  txn (final (bootstrap vars st)) = None /\
  flag_is_true (committed (final (bootstrap vars st))).
Proof.
  intros HI. rewrite bootstrap_run, checkBootstrapped_store.
  destruct (tables (cur st) !! tidbTable) as [t|] eqn:Et.
  - destruct (rows t !! [bootstrappedVar]) as [cols|] eqn:Er.
    + destruct cols as [|[v|] cols]; cbn [head mjoin option_join]; try discriminate.
      case_bool_decide as Hv.
      * intros _. cbn. split; [reflexivity|]. subst v. exists cols.
        unfold flag. rewrite Et. exact Er.
      * cbn zeta. unfold outcome, final. cbn [fst snd].
        apply (install_and_load_sets_flag vars (open_txn st)), layout_open_txn, HI.
    + cbn zeta. unfold outcome, final. cbn [fst snd].
      apply (install_and_load_sets_flag vars (open_txn st)), layout_open_txn, HI.
  - cbn zeta. unfold outcome, final. cbn [fst snd].
    apply (install_and_load_sets_flag vars st), HI.
Qed.

(** A transactional statement inside a transaction leaves the committed
    data alone and the transaction open. *)
Lemma exec_in_txn stmt (st : State) :
  transactional stmt = true -> is_Some (txn st) ->
  committed (exec stmt st).2 = committed st /\ is_Some (txn (exec stmt st).2).
Proof.
  intros Ht [w Hw].
  destruct stmt as [db|db|tbl k| | |tbl key|tbl rs upd]; try discriminate; cbn [exec].
  - case_bool_decide; cbn; rewrite Hw; eauto.
  - destruct (tables (cur st) !! tbl); cbn [fail snd]; [|rewrite Hw; eauto].
    unfold open_txn. rewrite Hw. cbn. rewrite Hw. eauto.
  - destruct (tables (cur st) !! tbl) as [t|]; cbn [fail snd]; [|rewrite Hw; eauto].
    destruct (key_cols t =? 0)%nat; cbn [fail snd]; [rewrite Hw; eauto|].
    destruct (insert_rows _ _ _ _); cbn [fail ok snd]; [rewrite Hw; eauto|].
    unfold write. rewrite Hw. cbn. eauto.
Qed.

Lemma execute_in_txn sql (st : State) :
  sql_transactional sql = true -> is_Some (txn st) ->
  committed (Execute sql st).2 = committed st /\ is_Some (txn (Execute sql st).2).
Proof.
  unfold sql_transactional. rewrite Execute_store.
  destruct (parse sql) as [stmt|]; [apply exec_in_txn|]. intros _ Hw. split; [reflexivity|exact Hw].
Qed.

Lemma exec_all_in_txn sqls (st : State) :
  forallb sql_transactional sqls = true -> is_Some (txn st) ->
  committed (exec_all sqls st) = committed st /\ is_Some (txn (exec_all sqls st)).
Proof.
  revert st. induction sqls as [|q sqls IH]; intros st; [intros _ Hw; split; [reflexivity|exact Hw]|].
  cbn [forallb]. intros [Hq Hs]%andb_true_iff Hw.
  change (exec_all (q :: sqls) st) with (exec_all sqls (Execute q st).2).
  destruct (execute_in_txn q st Hq Hw) as [Hc Hw'].
  destruct (IH _ Hs Hw') as [Hc' Hw'']. split; [congruence|assumption].
Qed.

Lemma insertSysVars_transactional vars : sql_transactional (insertSysVars vars) = true.
Proof.
  unfold sql_transactional. rewrite insertSysVars_text, parse_insert_global_variables.
  destruct (read_values VOut [] _) as [[[|row rs] r3]|]; try reflexivity.
  destruct (parse_on_duplicate r3); reflexivity.
Qed.

(** The loader's statements between BEGIN and COMMIT. *)
Lemma seed_statements_transactional vars :
  forallb sql_transactional [insertDefaultUser; insertSysVars vars; insertBootstrapped] = true.
Proof. cbn [forallb]. rewrite insertSysVars_transactional. reflexivity. Qed.

Lemma forallb_take {A} (P : A -> bool) (l : list A) (n : nat) :
  forallb P l = true -> forallb P (take n l) = true.
Proof.
  revert n. induction l as [|x l IH]; intros [|n]; cbn [take forallb]; try reflexivity.
  intros [-> Hl]%andb_true_iff. cbn. apply IH, Hl.
Qed.

(** After BEGIN and any number of the statements that follow it, short of
    COMMIT, the committed data is what the session saw before BEGIN. *)
Lemma loader_prefix_committed vars (st : State) (k : nat) :
  (1 <= k <= 4)%nat ->
  committed (exec_all (take k (dmlStatements vars)) st) = cur st /\
  is_Some (txn (exec_all (take k (dmlStatements vars)) st)).
Proof.
  intros Hk.
  assert (take k (dmlStatements vars) =
          "BEGIN" :: take (k - 1) [insertDefaultUser; insertSysVars vars; insertBootstrapped]) as ->.
  { destruct k as [|[|[|[|[|k]]]]]; try lia; reflexivity. }
  change (exec_all ("BEGIN" :: ?l) st) with (exec_all l (Execute "BEGIN" st).2).
  rewrite execute_begin. cbn [snd].
  apply (exec_all_in_txn _ (mkState (cur st) (Some (cur st)))); [|eauto].
  apply forallb_take, seed_statements_transactional.
Qed.

(** A loader that does not return has committed nothing. *)
Lemma loader_fatal_committed vars (st : State) (e : error) :
  outcome (doDMLWorks vars st) = Fatal e ->
  committed (final (doDMLWorks vars st)) = cur st /\
  exists k, (1 <= k <= 4)%nat /\
    trace (doDMLWorks vars st) = CallExecute <$> take k (dmlStatements vars).
Proof.
  rewrite doDMLWorks_all, mustExecuteAll_run.
  destruct (first_failure _ st) as [[j e']|] eqn:F; [|discriminate].
  intros _. unfold final, trace. cbn [fst snd].
  pose proof (first_failure_lt _ _ _ _ F) as Hj. cbn [length dmlStatements] in Hj.
  destruct (decide (j = 4%nat)) as [->|Hne].
  - destruct (first_failure_at _ _ _ _ F) as (sql & Hl & He).
    cbn in Hl. injection Hl as <-. rewrite execute_commit in He. discriminate.
  - split; [apply loader_prefix_committed; lia|].
    exists (Datatypes.S j). split; [lia|reflexivity].
Qed.

(** ** Re-execution of the installer *)

(** Creating what is there changes nothing. *)
Lemma exec_create_noop stmt (st : State) :
  is_create stmt = true -> txn st = None -> has (committed st) stmt ->
  exec stmt st = (([], None), st).
Proof.
  intros Hc Ht Hh. pose proof (cur_at_rest st Ht) as Hcur.
  destruct stmt as [db|db|tbl k| | |tbl key|tbl rs upd]; try discriminate; cbn [exec has] in *.
  - cbn [commit committed]. rewrite Hcur. unfold ok. f_equal.
    rewrite <- (at_rest_eta st Ht) at 3. f_equal.
    destruct (committed st) as [sch tbls]. cbn [schemas tables] in *. f_equal.
    apply subseteq_union_1_L, singleton_subseteq_l, Hh.
  - destruct Hh as [Hs [t Hl]]. cbn [commit committed]. rewrite Hcur.
    rewrite bool_decide_eq_true_2 by assumption. rewrite Hl.
    unfold ok, commit. rewrite Hcur, (at_rest_eta st Ht). reflexivity.
Qed.

(** A creation that succeeds leaves its object there, and no transaction. *)
Lemma exec_create_has stmt (st : State) :
  is_create stmt = true -> (exec stmt st).1.2 = None ->
  has (committed (exec stmt st).2) stmt /\ txn (exec stmt st).2 = None.
Proof.
  intros Hc.
  destruct stmt as [db|db|tbl k| | |tbl key|tbl rs upd]; try discriminate; cbn [exec has].
  - intros _. cbn. split; [apply elem_of_union_l, elem_of_singleton_2; reflexivity|reflexivity].
  - cbn [commit committed]. case_bool_decide as Hs; [|discriminate].
    destruct (tables (cur st) !! tbl) as [t|] eqn:E; intros _; cbn.
    + rewrite E. eauto.
    + rewrite lookup_insert_eq. eauto.
Qed.

(** No creation removes an object. *)
Lemma exec_create_mono stmt stmt' (st : State) :
  is_create stmt = true -> has (cur st) stmt' ->
  has (committed (exec stmt st).2) stmt'.
Proof.
  intros Hc Hh.
  destruct stmt as [db|db|tbl k| | |tbl key|tbl rs upd]; try discriminate; cbn [exec].
  - cbn. destruct stmt'; cbn [has] in *; cbn; try exact I;
      [apply elem_of_union_r, Hh|].
    destruct Hh as [Hs Hl]. split; [apply elem_of_union_r, Hs|assumption].
  - cbn [commit committed]. case_bool_decide as Hs; [|exact Hh].
    destruct (tables (cur st) !! tbl) as [t|] eqn:E; [exact Hh|]. cbn.
    destruct stmt' as [|db'|tbl' k'| | | |]; cbn [has] in *; cbn; try exact I; [exact Hh|].
    destruct Hh as [Hs' Hl]. split; [assumption|].
    destruct (decide (tbl = tbl')) as [->|Hne];
      [rewrite lookup_insert_eq|rewrite lookup_insert_ne by assumption]; eauto.
Qed.

(** A creation leaves no transaction open. *)
Lemma exec_create_at_rest stmt (st : State) :
  is_create stmt = true -> txn (exec stmt st).2 = None.
Proof.
  intros Hc.
  destruct stmt as [db|db|tbl k| | |tbl key|tbl rs upd]; try discriminate; cbn [exec].
  - reflexivity.
  - cbn [commit committed]. case_bool_decide; [|reflexivity].
    destruct (tables (cur st) !! tbl); reflexivity.
Qed.

Lemma execute_create_mono (q q' : string) (st : State) :
  sql_creates q' = true -> has_sql (cur st) q -> has_sql (cur (Execute q' st).2) q.
Proof.
  unfold sql_creates, has_sql. rewrite Execute_store.
  destruct (parse q') as [stmt'|]; [|discriminate]. intros Hc Hh.
  rewrite cur_at_rest by (apply exec_create_at_rest, Hc).
  destruct (parse q) as [stmt|]; [|exact I].
  apply exec_create_mono; assumption.
Qed.

Lemma exec_all_create_mono (q : string) (sqls : list string) (st : State) :
  forallb sql_creates sqls = true -> has_sql (cur st) q ->
  has_sql (cur (exec_all sqls st)) q.
Proof.
  revert st. induction sqls as [|q' sqls IH]; intros st Hc Hh; [exact Hh|].
  cbn [forallb] in Hc. apply andb_true_iff in Hc as [Hq' Hc].
  change (exec_all (q' :: sqls) st) with (exec_all sqls (Execute q' st).2).
  apply IH; [assumption|]. apply execute_create_mono; assumption.
Qed.

Lemma exec_all_create_at_rest (sqls : list string) (st : State) :
  forallb sql_creates sqls = true -> txn st = None -> txn (exec_all sqls st) = None.
Proof.
  revert st. induction sqls as [|q sqls IH]; intros st Hc Ht; [exact Ht|].
  cbn [forallb] in Hc. apply andb_true_iff in Hc as [Hq Hc].
  change (exec_all (q :: sqls) st) with (exec_all sqls (Execute q st).2).
  apply IH; [assumption|]. unfold sql_creates in Hq. rewrite Execute_store.
  destruct (parse q) as [stmt|]; [|discriminate]. apply exec_create_at_rest, Hq.
Qed.

(** On a session at rest whose store has every object of the list,
    executing the creations again answers nil to each and changes
    nothing. *)
Lemma creations_noop (sqls : list string) (st : State) :
  forallb sql_creates sqls = true ->
  txn st = None ->
  Forall (has_sql (committed st)) sqls ->
  mustExecuteAll sqls st = (Returned tt, st, CallExecute <$> sqls).
Proof.
  intros Hc Ht Hh. induction Hh as [|q sqls Hq Hh IH]; [reflexivity|].
  cbn [forallb] in Hc. apply andb_true_iff in Hc as [Hcq Hcs].
  rewrite mustExecuteAll_cons, Execute_store.
  unfold sql_creates in Hcq. unfold has_sql in Hq.
  destruct (parse q) as [stmt|]; [|discriminate].
  rewrite (exec_create_noop stmt st Hcq Ht Hq). cbn [fst snd]. cbn zeta.
  rewrite (IH Hcs). reflexivity.
Qed.

(** After a run of creations without failure, every object of the list is
    there and no transaction is open. *)
Lemma creations_done (sqls : list string) (st : State) :
  forallb sql_creates sqls = true ->
  first_failure sqls st = None ->
  sqls <> [] ->
  txn (exec_all sqls st) = None /\ Forall (has_sql (committed (exec_all sqls st))) sqls.
Proof.
  intros Hc. revert st. induction sqls as [|q sqls IH]; intros st Hf Hne; [congruence|].
  cbn [forallb] in Hc. apply andb_true_iff in Hc as [Hcq Hcs].
  cbn [first_failure] in Hf.
  destruct ((Execute q st).1.2) eqn:Eq; [discriminate|].
  destruct (first_failure sqls _) as [[j e]|] eqn:F; [discriminate|]. clear Hf.
  change (exec_all (q :: sqls) st) with (exec_all sqls (Execute q st).2).
  assert (has_sql (committed (Execute q st).2) q /\ txn (Execute q st).2 = None) as [Hq Ht].
  { unfold has_sql, sql_creates in *. rewrite Execute_store in *.
    destruct (parse q) as [stmt|]; [|discriminate]. apply exec_create_has; assumption. }
  pose proof (exec_all_create_at_rest sqls _ Hcs Ht) as Ht'.
  split; [exact Ht'|]. constructor.
  - rewrite <- (cur_at_rest _ Ht'). apply exec_all_create_mono; [assumption|].
    rewrite (cur_at_rest _ Ht). exact Hq.
  - destruct sqls as [|q' sqls']; [constructor|].
    apply (IH Hcs _ F). discriminate.
Qed.

Lemma ddlStatements_create : forallb sql_creates ddlStatements = true.
Proof. vm_compute. reflexivity. Qed.

(** The installer run a second time, on what its first run left, answers
    no error and changes nothing in the store. *)
Lemma doDDLWorks_again_is_noop (st : State) :
  outcome (doDDLWorks st) = Returned tt ->
  doDDLWorks (final (doDDLWorks st)) =
    (Returned tt, final (doDDLWorks st), CallExecute <$> ddlStatements).
Proof.
  rewrite !doDDLWorks_all, mustExecuteAll_run.
  destruct (first_failure ddlStatements st) as [[j e]|] eqn:F; [absurd_outcome|].
  intros _. unfold final. cbn [fst snd].
  destruct (creations_done ddlStatements st ddlStatements_create F) as [Ht Hh];
    [discriminate|].
  apply creations_noop; [apply ddlStatements_create|assumption..].
Qed.

(** ** A second run after a run that died *)

(** Creating what is there ends the open transaction and changes nothing
    in what the session sees. *)
Lemma exec_create_settles stmt (st : State) :
  is_create stmt = true -> has (cur st) stmt ->
  exec stmt st = (([], None), mkState (cur st) None).
Proof.
  intros Hc Hh.
  destruct stmt as [db|db|tbl k| | |tbl key|tbl rs upd]; try discriminate; cbn [exec has] in *.
  - cbn [commit committed]. unfold ok. do 2 f_equal.
    destruct (cur st) as [sch tbls]. cbn [schemas tables] in *. f_equal.
    apply subseteq_union_1_L, singleton_subseteq_l, Hh.
  - destruct Hh as [Hs [t Hl]]. cbn [commit committed].
    rewrite bool_decide_eq_true_2 by assumption. rewrite Hl. reflexivity.
Qed.

Lemma creations_settle (sqls : list string) (st : State) :
  forallb sql_creates sqls = true ->
  sqls <> [] ->
  Forall (has_sql (cur st)) sqls ->
  mustExecuteAll sqls st = (Returned tt, mkState (cur st) None, CallExecute <$> sqls).
Proof.
  intros Hc Hne Hh.
  destruct sqls as [|q sqls]; [congruence|]. clear Hne.
  cbn [forallb] in Hc. apply andb_true_iff in Hc as [Hcq Hcs].
  apply Forall_cons in Hh as [Hq Hh].
  rewrite mustExecuteAll_cons, Execute_store.
  unfold sql_creates in Hcq. unfold has_sql in Hq.
  destruct (parse q) as [stmt|]; [|discriminate].
  rewrite (exec_create_settles stmt st Hcq Hq). cbn [fst snd]. cbn zeta.
  rewrite (creations_noop sqls (mkState (cur st) None)); [reflexivity|assumption|reflexivity|].
  exact Hh.
Qed.

(** A list of creations in which every table comes after its database
    never fails. *)
Lemma creations_never_fail (sqls : list string) (known : list string) (st : State) :
  schemas_declared known sqls = true ->
  (forall db, db ∈ known -> db ∈ schemas (cur st)) ->
  first_failure sqls st = None.
Proof.
  revert known st. induction sqls as [|q sqls IH]; intros known st Hd Hk; [reflexivity|].
  cbn [schemas_declared first_failure] in *. rewrite Execute_store.
  destruct (parse q) as [[db|db|tbl k| | |tbl key|tbl rs upd]|]; try discriminate.
  - cbn [exec ok fst snd]. rewrite (IH (db :: known)); [reflexivity|assumption|].
    intros db' [->|Hin]%elem_of_cons; cbn.
    + apply elem_of_union_l, elem_of_singleton_2. reflexivity.
    + apply elem_of_union_r, Hk, Hin.
  - apply andb_true_iff in Hd as [Hs%bool_decide_eq_true_1 Hd].
    cbn [exec commit committed]. rewrite bool_decide_eq_true_2 by (apply Hk, Hs).
    destruct (tables (cur st) !! tbl) as [t|]; cbn [ok fst snd];
      (rewrite (IH known); [reflexivity|assumption|]); intros db' Hin; cbn; apply Hk, Hin.
Qed.

Lemma ddlStatements_never_fail (st : State) : first_failure ddlStatements st = None.
Proof.
  apply (creations_never_fail ddlStatements []); [vm_compute; reflexivity|].
  intros db Hin. apply elem_of_nil in Hin. destruct Hin.
Qed.

(** The installer always runs through on the reference executor, and
    leaves no transaction open. *)
Lemma doDDLWorks_returns (st : State) :
  doDDLWorks st = (Returned tt, exec_all ddlStatements st, CallExecute <$> ddlStatements) /\
  txn (exec_all ddlStatements st) = None /\
  Forall (has_sql (committed (exec_all ddlStatements st))) ddlStatements.
Proof.
  rewrite doDDLWorks_all, mustExecuteAll_run, ddlStatements_never_fail.
  split; [reflexivity|].
  apply creations_done; [apply ddlStatements_create|apply ddlStatements_never_fail|discriminate].
Qed.

Lemma keeps_tables_refl (d : Database) : keeps_tables d d.
Proof. intros tbl. destruct (tables d !! tbl); auto. Qed.

Lemma keeps_tables_trans (d1 d2 d3 : Database) :
  keeps_tables d1 d2 -> keeps_tables d2 d3 -> keeps_tables d1 d3.
Proof.
  intros H12 H23 tbl. specialize (H12 tbl). specialize (H23 tbl).
  destruct (tables d1 !! tbl) as [t|].
  - rewrite H12 in H23. exact H23.
  - destruct H12 as [E|[k E]]; rewrite E in H23; eauto.
Qed.

(** A creation keeps the tables the session saw, with their rows. *)
Lemma exec_create_keeps_tables stmt (st : State) :
  is_create stmt = true -> keeps_tables (cur st) (committed (exec stmt st).2).
Proof.
  intros Hc.
  destruct stmt as [db|db|tbl k| | |tbl key|tbl rs upd]; try discriminate; cbn [exec].
  - cbn. intros tbl. cbn. destruct (tables (cur st) !! tbl); auto.
  - cbn [commit committed]. case_bool_decide; [|apply keeps_tables_refl].
    destruct (tables (cur st) !! tbl) as [t|] eqn:E; [apply keeps_tables_refl|].
    cbn. intros tbl'. cbn. destruct (decide (tbl = tbl')) as [<-|Hne].
    + rewrite E, lookup_insert_eq. eauto.
    + rewrite lookup_insert_ne by assumption. destruct (tables (cur st) !! tbl'); auto.
Qed.

Lemma exec_all_create_keeps_tables (sqls : list string) (st : State) :
  forallb sql_creates sqls = true ->
  keeps_tables (cur st) (cur (exec_all sqls st)).
Proof.
  revert st. induction sqls as [|q sqls IH]; intros st Hc; [apply keeps_tables_refl|].
  cbn [forallb] in Hc. apply andb_true_iff in Hc as [Hq Hc].
  change (exec_all (q :: sqls) st) with (exec_all sqls (Execute q st).2).
  apply keeps_tables_trans with (cur (Execute q st).2); [|apply IH, Hc].
  unfold sql_creates in Hq. rewrite Execute_store.
  destruct (parse q) as [stmt|]; [|discriminate].
  rewrite (cur_at_rest (exec stmt st).2) by (apply exec_create_at_rest, Hq).
  apply exec_create_keeps_tables, Hq.
Qed.

Lemma flag_says_no_kept (d d' : Database) :
  keeps_tables d d' -> flag_says_no d -> flag_says_no d'.
Proof.
  intros Hk Hn. specialize (Hk tidbTable). unfold flag_says_no in *.
  destruct (tables d !! tidbTable) as [t|].
  - rewrite Hk. exact Hn.
  - destruct Hk as [->|[k ->]]; [exact I|]. cbn [rows]. rewrite lookup_empty. exact I.
Qed.

(** The probe on data that says no. *)
Lemma checkBootstrapped_says_no (st : State) :
  flag_says_no (cur st) ->
  outcome (checkBootstrapped st) = Returned (false, None) /\
  trace (checkBootstrapped st) = [CallExecute useSystemDB; CallExecute selectBootstrapped] /\
  cur (final (checkBootstrapped st)) = cur st /\
  committed (final (checkBootstrapped st)) = committed st.
Proof.
  intros Hn. rewrite checkBootstrapped_store. unfold flag_says_no in Hn.
  destruct (tables (cur st) !! tidbTable) as [t|]; [|repeat split].
  destruct (rows t !! [bootstrappedVar]) as [cols|].
  - destruct Hn as (v & -> & Hv). rewrite bool_decide_eq_false_2 by assumption.
    unfold final. cbn [fst snd]. rewrite cur_open_txn.
    repeat split. unfold open_txn. destruct (txn st); reflexivity.
  - unfold final. cbn [fst snd]. rewrite cur_open_txn.
    repeat split. unfold open_txn. destruct (txn st); reflexivity.
Qed.

Lemma mustExecuteAll_never_panics {S : Type} `{Session S} (sqls : list string) (s : S) :
  outcome (mustExecuteAll sqls s) <> Panicked.
Proof.
  rewrite mustExecuteAll_run. destruct (first_failure sqls s) as [[j e]|]; discriminate.
Qed.

(** Bootstrap after a probe that says no: installer and loader on the
    session the probe left. *)
Lemma bootstrap_not_initialized {S : Type} `{Session S} vars (s : S) :
  outcome (checkBootstrapped s) = Returned (false, None) ->
  outcome (bootstrap vars s) =
    outcome (mustExecuteAll (ddlStatements ++ dmlStatements vars)
               (final (checkBootstrapped s))) /\
  final (bootstrap vars s) =
    final (mustExecuteAll (ddlStatements ++ dmlStatements vars)
             (final (checkBootstrapped s))).
Proof.
  intros Hp. rewrite bootstrap_run. cbn zeta. rewrite Hp.
  rewrite !final_mk, !outcome_mk. split; reflexivity.
Qed.

(** Installer and loader on the reference executor: the installer runs
    through, and the loader runs on what it left. *)
Lemma install_and_load_run vars (st : State) :
  outcome (mustExecuteAll (ddlStatements ++ dmlStatements vars) st) =
    outcome (doDMLWorks vars (exec_all ddlStatements st)) /\
  final (mustExecuteAll (ddlStatements ++ dmlStatements vars) st) =
    final (doDMLWorks vars (exec_all ddlStatements st)).
Proof.
  rewrite mustExecuteAll_app, bind_run, <- doDDLWorks_all.
  destruct (doDDLWorks_returns st) as [-> _]. rewrite <- doDMLWorks_all.
  rewrite !final_mk, !outcome_mk. split; reflexivity.
Qed.

(** The installer on a store that has all its objects. *)
Lemma ddl_settles (st : State) :
  Forall (has_sql (cur st)) ddlStatements ->
  exec_all ddlStatements st = mkState (cur st) None.
Proof.
  intros Hh.
  pose proof (creations_settle ddlStatements st ddlStatements_create) as Hs.
  rewrite mustExecuteAll_run, ddlStatements_never_fail in Hs.
  assert (ddlStatements <> []) as Hne by discriminate.
  specialize (Hs Hne Hh). congruence.
Qed.

(** On a session at rest whose store has the installer's objects and a
    flag that says no, when the loader dies, so it does in a run of
    bootstrap, and the committed data stays. *)
Lemma bootstrap_after_dead_loader vars (st : State) (e : error) :
  txn st = None ->
  Forall (has_sql (committed st)) ddlStatements ->
  flag_says_no (cur st) ->
  outcome (doDMLWorks vars st) = Fatal e ->
  committed (final (bootstrap vars st)) = committed st.
Proof.
  intros Ht Hh Hn Ho.
  pose proof (cur_at_rest st Ht) as Hcur.
  destruct (checkBootstrapped_says_no st Hn) as (Hpo & _ & Hpcur & _).
  destruct (bootstrap_not_initialized vars st Hpo) as [_ ->].
  destruct (install_and_load_run vars (final (checkBootstrapped st))) as [_ ->].
  rewrite ddl_settles by (rewrite Hpcur, Hcur; exact Hh).
  rewrite Hpcur, Hcur, (at_rest_eta st Ht).
  destruct (loader_fatal_committed vars st e Ho) as [-> _]. exact Hcur.
Qed.

(** After installer and loader ran, whatever the outcome, a run of
    bootstrap on a new session changes nothing in the committed data. *)
Lemma install_and_load_then_bootstrap vars (st : State) :
  session_layout_ok st ->
  flag_says_no (cur st) ->
  committed (final (bootstrap vars
    (rollback (final (mustExecuteAll (ddlStatements ++ dmlStatements vars) st))))) =
  committed (rollback (final (mustExecuteAll (ddlStatements ++ dmlStatements vars) st))).
Proof.
  intros HI Hn.
  destruct (outcome (mustExecuteAll (ddlStatements ++ dmlStatements vars) st))
    as [[]|e|] eqn:Ho.
  - destruct (install_and_load_sets_flag vars st HI Ho) as [Ht Hf].
    unfold rollback. rewrite (at_rest_eta _ Ht).
    rewrite bootstrap_noop by assumption. reflexivity.
  - destruct (install_and_load_run vars st) as [Eo Ef]. rewrite Eo in Ho. rewrite Ef.
    destruct (doDDLWorks_returns st) as (_ & Ht13 & Hh13).
    assert (flag_says_no (cur (exec_all ddlStatements st))) as Hn13.
    { apply (flag_says_no_kept (cur st)); [|assumption].
      apply exec_all_create_keeps_tables, ddlStatements_create. }
    revert Ho Ht13 Hh13 Hn13. generalize (exec_all ddlStatements st). intros s13 Ho Ht Hh Hn13.
    destruct (loader_fatal_committed vars s13 e Ho) as [Hc _].
    rewrite (cur_at_rest s13 Ht) in Hc.
    unfold rollback. rewrite Hc, (at_rest_eta s13 Ht).
    apply (bootstrap_after_dead_loader vars s13 e); assumption.
  - destruct (mustExecuteAll_never_panics _ _ Ho).
Qed.

(** A session at rest is what a new process starts with. *)
Lemma rollback_open_txn (st : State) : txn st = None -> rollback (open_txn st) = st.
Proof.
  intros Ht. unfold rollback, open_txn. rewrite Ht. cbn [committed].
  apply at_rest_eta, Ht.
Qed.

(** Whatever the outcome of a run of bootstrap on a session at rest, a
    second run on a new session changes nothing in the committed data. *)
Lemma bootstrap_then_bootstrap vars (st : State) :
  txn st = None ->
  layout_ok (committed st) ->
  committed (final (bootstrap vars (rollback (final (bootstrap vars st))))) =
  committed (rollback (final (bootstrap vars st))).
Proof.
  intros Ht Hl.
  assert (session_layout_ok st) as HI by (split; [assumption|rewrite Ht; discriminate]).
  pose proof (cur_at_rest st Ht) as Hcur.
  pose proof (checkBootstrapped_store st) as HP.
  destruct (tables (cur st) !! tidbTable) as [t|] eqn:Et.
  - destruct (rows t !! [bootstrappedVar]) as [cols|] eqn:Er.
    + destruct (mjoin (head cols)) as [v|] eqn:Ev.
      * destruct (decide (v = bootstrappedVarTrue)) as [->|Hv].
        -- assert (flag_is_true (committed st)) as Hf.
           { destruct cols as [|[v|] cols]; try discriminate. cbn in Ev.
             injection Ev as ->. exists cols. unfold flag. rewrite <- Hcur, Et. exact Er. }
           rewrite (bootstrap_noop vars st Ht Hf).
           rewrite final_mk. unfold rollback. rewrite (at_rest_eta st Ht).
           rewrite (bootstrap_noop vars st Ht Hf), final_mk. reflexivity.
        -- assert (flag_says_no (cur st)) as Hn.
           { unfold flag_says_no. rewrite Et, Er. eauto. }
           destruct (checkBootstrapped_says_no st Hn) as (Hpo & _ & _ & _).
           destruct (bootstrap_not_initialized vars st Hpo) as [_ ->].
           rewrite HP, bool_decide_eq_false_2 by assumption.
           rewrite final_mk.
           apply install_and_load_then_bootstrap; [apply layout_open_txn, HI|].
           rewrite cur_open_txn. exact Hn.
      * assert (bootstrap vars st =
                (Panicked, open_txn st, CallExecute useSystemDB :: selectCall)) as HB.
        { rewrite bootstrap_run, HP. cbn zeta. rewrite outcome_mk, final_mk, trace_mk.
          reflexivity. }
        rewrite HB.
        rewrite final_mk, (rollback_open_txn st Ht), HB, final_mk.
        unfold open_txn. rewrite Ht. reflexivity.
    + assert (flag_says_no (cur st)) as Hn.
      { unfold flag_says_no. rewrite Et, Er. exact I. }
      destruct (checkBootstrapped_says_no st Hn) as (Hpo & _ & _ & _).
      destruct (bootstrap_not_initialized vars st Hpo) as [_ ->].
      rewrite HP.
      rewrite final_mk.
      apply install_and_load_then_bootstrap; [apply layout_open_txn, HI|].
      rewrite cur_open_txn. exact Hn.
  - assert (flag_says_no (cur st)) as Hn.
    { unfold flag_says_no. rewrite Et. exact I. }
    destruct (checkBootstrapped_says_no st Hn) as (Hpo & _ & _ & _).
    destruct (bootstrap_not_initialized vars st Hpo) as [_ ->].
    rewrite HP.
    rewrite final_mk.
    apply install_and_load_then_bootstrap; assumption.
Qed.

(** * The coordinator, the installer and the loader, for every session *)

Section Sequences.
Context {S : Type} `{Session S}.

Lemma checkBootstrapped_true_trace (s : S) :
  outcome (checkBootstrapped s) = Returned (true, None) ->
  trace (checkBootstrapped s) =
    [CallExecute useSystemDB; CallExecute selectBootstrapped; CallFinishTxn false].
Proof.
  rewrite checkBootstrapped_run.
  destruct (Execute useSystemDB s) as [[rs0 err0] s0].
  destruct (useFatal err0); [absurd_outcome|]. cbn zeta.
  rewrite checkBootstrappedVar_run.
  destruct (Execute selectBootstrapped s0) as [[rs [e|]] s1].
  - destruct (Equal TableNotExists (Some e)); absurd_outcome.
  - destruct rs as [|[|[row|e] r] [|r' rs]]; try absurd_outcome.
    destruct row as [[|[| |v|] data]]; try absurd_outcome.
    cbn [Data]. case_bool_decide; [|absurd_outcome].
    destruct (FinishTxn false s1) as [[e|] s2]; [absurd_outcome|]. reflexivity.
Qed.

(** C3: bootstrap calls the probe first.  When the probe reports the store
    initialized, bootstrap returns at once: its calls are the probe's USE,
    the probe's read and the probe's FinishTxn, and nothing else, and there
    is no error.  When the probe reports it not initialized, bootstrap runs
    the installer and then the loader on the session the probe left, so
    what follows the probe's calls is a non-empty prefix of the installer's
    statements followed by the loader's, all eighteen when bootstrap
    returns.  An error of the probe stops the process with that error, and
    nothing is called after the probe. *)
Theorem bootstrap_probe_install_load (SysVars : list (string * SysVar)) (s : S) :
  let p := checkBootstrapped s in
  let b := bootstrap SysVars s in
  match outcome p with
  | Returned (true, None) =>
      b = (Returned tt, final p, trace p) /\
      trace p = [CallExecute useSystemDB; CallExecute selectBootstrapped;
                 CallFinishTxn false]
  | Returned (false, None) =>
      b = (let r := (doDDLWorks ;;; doDMLWorks SysVars) (final p) in
           (outcome r, final r, trace p ++ trace r)) /\
      exists k : nat,
        (1 <= k <= 18)%nat /\
        trace b = trace p ++
                  (CallExecute <$> take k (ddlStatements ++ dmlStatements SysVars)) /\
        (outcome b = Returned tt -> k = 18%nat)
  | Returned (_, Some e) => b = (Fatal e, final p, trace p)
  | Fatal e => b = (Fatal e, final p, trace p)
  | Panicked => b = (Panicked, final p, trace p)
  end.
Proof.
  intros p b. subst b. rewrite bootstrap_run. cbn zeta. fold p.
  pose proof (checkBootstrapped_true_trace s) as Htrue. fold p in Htrue.
  destruct (outcome p) as [[[] [e|]]|e|]; try reflexivity.
  - split; [reflexivity|]. apply Htrue. reflexivity.
  - cbn zeta. split.
    + rewrite bind_run, mustExecuteAll_app, bind_run, <- doDDLWorks_all.
      destruct (doDDLWorks (final p)) as [[[[]|e|] s2] l2]; try reflexivity.
      rewrite <- doDMLWorks_all. reflexivity.
    + rewrite mustExecuteAll_run.
      destruct (first_failure _ (final p)) as [[j e]|] eqn:F.
      * pose proof (first_failure_lt _ _ _ _ F) as Hj.
        rewrite length_app in Hj. cbn [length ddlStatements dmlStatements] in Hj.
        exists (Datatypes.S j). split; [cbn in Hj; lia|].
        split; [reflexivity|]. discriminate.
      * exists 18%nat. split; [lia|]. split; [|reflexivity].
        unfold trace at 1. cbn [snd]. reflexivity.
Qed.

(** C8: the installer executes its thirteen statements in the order of
    [ddlStatements] up to the first one that fails; a failure stops the
    process with the statement's error, and without failure the installer
    returns after the last.  Read as SQL, the thirteen statements create, in
    this order and each only if absent: the database test, the database
    mysql, the tables mysql.user, mysql.db, mysql.tables_priv and
    mysql.columns_priv, the table mysql.GLOBAL_VARIABLES, the table
    mysql.proc, the database performance_schema and its three tables, and
    last the flag table mysql.tidb. *)
Theorem doDDLWorks_statements (s : S) :
  doDDLWorks s =
    match first_failure ddlStatements s with
    | Some (j, e) =>
        (Fatal e, exec_all (take (Datatypes.S j) ddlStatements) s,
         CallExecute <$> take (Datatypes.S j) ddlStatements)
    | None => (Returned tt, exec_all ddlStatements s, CallExecute <$> ddlStatements)
    end
  /\ Sql.parse <$> ddlStatements =
     [ Some (SCreateDatabase "test");
       Some (SCreateDatabase "mysql");
       Some (SCreateTable "mysql.user" 2);
       Some (SCreateTable "mysql.db" 3);
       Some (SCreateTable "mysql.tables_priv" 4);
       Some (SCreateTable "mysql.columns_priv" 5);
       Some (SCreateTable "mysql.GLOBAL_VARIABLES" 1);
       Some (SCreateTable "mysql.proc" 3);
       Some (SCreateDatabase "performance_schema");
       Some (SCreateTable "performance_schema.events_statements_current" 0);
       Some (SCreateTable "performance_schema.events_stages_history_long" 0);
       Some (SCreateTable "performance_schema.events_waits_history_long" 0);
       Some (SCreateTable "mysql.tidb" 1) ].
Proof.
  split; [rewrite doDDLWorks_all; apply mustExecuteAll_run|].
  vm_compute. reflexivity.
Qed.

(** C5: the names of the registry are ASCII text, so that their lower
    case is what [strings.ToLower] makes of them.  The loader executes its
    five statements in the order of
    [dmlStatements] up to the first one that fails, which stops the
    process; without failure it returns after the fifth.  The first is
    BEGIN and the last is COMMIT.  The second inserts one row into
    mysql.user: the host "%", the user root, the empty password and "Y"
    twelve times, as many as the table has privilege columns.  The third is
    one INSERT into mysql.GLOBAL_VARIABLES whose VALUES clause joins, with
    ", ", one tuple per entry of the registry in the order it is ranged
    over: the name in lower case and the value of the entry, each between
    double quotes; read back (when no name and no value has a double quote
    in it), the clause has exactly these rows.  The fourth inserts the row
    (bootstrapped, True, comment) into mysql.tidb with ON DUPLICATE KEY
    UPDATE VARIABLE_VALUE="True". *)
Theorem doDMLWorks_statements (SysVars : list (string * SysVar)) (s : S) :
  forallb (fun kv => isASCII kv.1) SysVars = true ->
  doDMLWorks SysVars s =
    match first_failure (dmlStatements SysVars) s with
    | Some (j, e) =>
        (Fatal e, exec_all (take (Datatypes.S j) (dmlStatements SysVars)) s,
         CallExecute <$> take (Datatypes.S j) (dmlStatements SysVars))
    | None =>
        (Returned tt, exec_all (dmlStatements SysVars) s,
         CallExecute <$> dmlStatements SysVars)
    end
  /\ dmlStatements SysVars !! 0%nat = Some "BEGIN"
  /\ dmlStatements SysVars !! 4%nat = Some "COMMIT"
  /\ Sql.parse "BEGIN" = Some SBegin
  /\ Sql.parse "COMMIT" = Some SCommit
  /\ Sql.parse insertDefaultUser =
       Some (SInsert "mysql.user" [["%"; "root"; ""] ++ replicate 12 "Y"] None)
  /\ occurrences "_priv" CreateUserTable = 12%nat
  /\ insertSysVars SysVars =
       "INSERT INTO mysql.GLOBAL_VARIABLES VALUES "
       +:+ Join ((fun kv => "(" +:+ quoted (ToLower kv.1) +:+ ", "
                            +:+ quoted (Value kv.2) +:+ ")") <$> SysVars) ", "
       +:+ ";"
  /\ (SysVars <> [] ->
       forallb (fun kv => quote_free kv.1 && quote_free (Value kv.2)) SysVars = true ->
       Sql.parse (insertSysVars SysVars) =
         Some (SInsert "mysql.GLOBAL_VARIABLES"
                 ((fun kv => [ToLower kv.1; Value kv.2]) <$> SysVars) None))
  /\ Sql.parse insertBootstrapped =
       Some (SInsert "mysql.tidb"
               [["bootstrapped"; "True"; "Bootstrap flag. Do not delete."]]
               (Some "True")).
Proof.
  intros _.
  split; [rewrite doDMLWorks_all; apply mustExecuteAll_run|].
  repeat split; try reflexivity.
  - rewrite insertSysVars_text, sysVarValues_map. reflexivity.
  - apply parse_insertSysVars.
Qed.

End Sequences.

(** * The probe, for every session *)

Section Probe.
Context {S : Type} `{Session S}.

(** [checkBootstrapped] when USE does not stop the process: the result of
    [checkBootstrappedVar], its error traced once more. *)
Lemma checkBootstrapped_after_use (s s1 : S) rs0 err0 :
  Execute useSystemDB s = ((rs0, err0), s1) ->
  useFatal err0 = None ->
  checkBootstrapped s =
    (match outcome (checkBootstrappedVar s1) with
     | Returned (v, None) => Returned (v, None)
     | Returned (_, Some e) => Returned (false, Some (Traced e))
     | Fatal e => Fatal e
     | Panicked => Panicked
     end, final (checkBootstrappedVar s1),
     CallExecute useSystemDB :: trace (checkBootstrappedVar s1)).
Proof. intros HU HF. rewrite checkBootstrapped_run, HU, HF. reflexivity. Qed.

(** C9: when the read of the flag succeeds with one result set of exactly
    one row whose value is the string "True", the probe calls
    [FinishTxn(false)] on the session the read left, right after the read
    and before it returns: its calls are the read and then FinishTxn.  It
    returns (true, nil) when FinishTxn reports no error, and (false, the
    traced error) when it reports one. *)
Theorem checkBootstrappedVar_true_finishes_txn
    (s s1 : S) (row : Row) (rest : list Datum) :
  Execute selectBootstrapped s = (([[FetchRow row]], None), s1) ->
  Data row = DString bootstrappedVarTrue :: rest ->
  trace (checkBootstrappedVar s) =
    [CallExecute selectBootstrapped; CallFinishTxn false] /\
  final (checkBootstrappedVar s) = (FinishTxn false s1).2 /\
  outcome (checkBootstrappedVar s) =
    Returned (match (FinishTxn false s1).1 with
              | None => (true, None)
              | Some e => (false, Some (Traced e))
              end).
Proof.
  intros HS HD. rewrite checkBootstrappedVar_run, HS, HD.
  rewrite bool_decide_eq_true_2 by reflexivity.
  destruct (FinishTxn false s1) as [[e|] s2]; repeat split.
Qed.

(** C10 (amended): when the flag row is there with a string value other than "True",
    the probe returns (false, nil) and its only calls are USE and the read:
    FinishTxn is not called, the session is the one the read left.
    Bootstrap then runs the installer and the loader on that very session,
    and no call of FinishTxn occurs in the whole run. *)
Theorem checkBootstrapped_other_value_keeps_txn
    (SysVars : list (string * SysVar)) (s0 s s1 : S)
    rs0 err0 (row : Row) (v : string) (rest : list Datum) :
  Execute useSystemDB s0 = ((rs0, err0), s) ->
  useFatal err0 = None ->
  Execute selectBootstrapped s = (([[FetchRow row]], None), s1) ->
  Data row = DString v :: rest ->
  v <> bootstrappedVarTrue ->
  checkBootstrapped s0 =
    (Returned (false, None), s1,
     [CallExecute useSystemDB; CallExecute selectBootstrapped]) /\
  bootstrap SysVars s0 =
    (let r := (doDDLWorks ;;; doDMLWorks SysVars) s1 in
     (outcome r, final r,
      [CallExecute useSystemDB; CallExecute selectBootstrapped] ++ trace r)) /\
  forall rb, CallFinishTxn rb ∉ trace (bootstrap SysVars s0).
Proof.
  intros HU HF HS HD Hv.
  assert (checkBootstrapped s0 =
          (Returned (false, None), s1,
           [CallExecute useSystemDB; CallExecute selectBootstrapped])) as HP.
  { rewrite (checkBootstrapped_after_use _ _ _ _ HU HF).
    rewrite checkBootstrappedVar_run, HS, HD.
    rewrite bool_decide_eq_false_2 by assumption. reflexivity. }
  split; [exact HP|].
  assert (bootstrap SysVars s0 =
          (let r := mustExecuteAll (ddlStatements ++ dmlStatements SysVars) s1 in
           (outcome r, final r,
            [CallExecute useSystemDB; CallExecute selectBootstrapped] ++ trace r))) as HB.
  { rewrite bootstrap_run, HP. reflexivity. }
  split.
  - rewrite HB. cbn zeta.
    rewrite mustExecuteAll_app, !bind_run, <- doDDLWorks_all.
    destruct (doDDLWorks s1) as [[[[]|e|] s2] l2]; try reflexivity.
    rewrite <- doDMLWorks_all. reflexivity.
  - intros rb. rewrite HB. cbn zeta. unfold trace at 1. cbn [snd].
    rewrite elem_of_app, !elem_of_cons.
    intros [[?|[?|?%elem_of_nil]]|(q & ?)%mustExecuteAll_only_executes];
      try discriminate; assumption.
Qed.

(** C2 (amended): the probe on the four kinds of store, each told by what the
    session answers.  A store without the system namespace answers USE with
    "database does not exist" and the read with "table does not exist": the
    probe returns (false, nil).  A store with the namespace and without the
    flag table answers USE with nil and the read with "table does not
    exist": (false, nil).  A store whose flag row has the value "True"
    answers the read with that row, and FinishTxn succeeds: (true, nil).  A
    store whose flag row has a string value other than "True": (false,
    nil). *)
Theorem checkBootstrapped_four_states (s s1 s2 : S) rs0 err0 :
  Execute useSystemDB s = ((rs0, err0), s1) ->
  (forall rs e,
      Equal DatabaseNotExists err0 = true ->
      Execute selectBootstrapped s1 = ((rs, Some e), s2) ->
      Equal TableNotExists (Some e) = true ->
      outcome (checkBootstrapped s) = Returned (false, None)) /\
  (forall rs e,
      err0 = None ->
      Execute selectBootstrapped s1 = ((rs, Some e), s2) ->
      Equal TableNotExists (Some e) = true ->
      outcome (checkBootstrapped s) = Returned (false, None)) /\
  (forall s3,
      useFatal err0 = None ->
      Execute selectBootstrapped s1 =
        (([[FetchRow (mkRow [DString bootstrappedVarTrue])]], None), s2) ->
      FinishTxn false s2 = (None, s3) ->
      outcome (checkBootstrapped s) = Returned (true, None)) /\
  (forall v,
      useFatal err0 = None ->
      Execute selectBootstrapped s1 = (([[FetchRow (mkRow [DString v])]], None), s2) ->
      v <> bootstrappedVarTrue ->
      outcome (checkBootstrapped s) = Returned (false, None)).
Proof.
  intros HU. repeat split.
  - intros rs e HE HS HT.
    rewrite (checkBootstrapped_after_use _ _ _ _ HU).
    + rewrite checkBootstrappedVar_run, HS, HT. reflexivity.
    + unfold useFatal. destruct err0; [rewrite HE|]; reflexivity.
  - intros rs e -> HS HT.
    rewrite (checkBootstrapped_after_use _ _ _ _ HU eq_refl).
    rewrite checkBootstrappedVar_run, HS, HT. reflexivity.
  - intros s3 HN HS HF.
    rewrite (checkBootstrapped_after_use _ _ _ _ HU HN).
    rewrite checkBootstrappedVar_run, HS. cbn [Data].
    rewrite bool_decide_eq_true_2, HF by reflexivity. reflexivity.
  - intros v HN HS Hv.
    rewrite (checkBootstrapped_after_use _ _ _ _ HU HN).
    rewrite checkBootstrappedVar_run, HS. cbn [Data].
    rewrite bool_decide_eq_false_2 by assumption. reflexivity.
Qed.

(** A first value that is not a string makes the type assertion of the
    probe panic; SQL's NULL is such a value. *)
Lemma checkBootstrappedVar_not_a_string (s s1 : S) (row : Row) (more : Recordset) :
  Execute selectBootstrapped s = (([FetchRow row :: more], None), s1) ->
  (forall v rest, Data row <> DString v :: rest) ->
  checkBootstrappedVar s = (Panicked, s1, selectCall).
Proof.
  intros HS Hd. rewrite checkBootstrappedVar_run, HS.
  destruct (Data row) as [|[| |v|] rest] eqn:E; try reflexivity.
  destruct (Hd v rest). reflexivity.
Qed.

(** C1 (amended): the read of the flag succeeded.  If it did not yield
    exactly one result set, the probe returns the error "Wrong number of
    Recordset"; if fetching the first row of the result set fails, the
    probe returns that error; either way bootstrap stops the process with
    the traced error and calls nothing after the read.  If the result set
    has no row, the probe returns (false, nil): the store counts as not
    initialized.  If it has several rows, the probe decides on the first
    row alone: it does what it does on any result set with that first
    row. *)
Theorem checkBootstrapped_unexpected_read
    (SysVars : list (string * SysVar)) (s0 s s1 : S) rs0 err0
    (rs : list Recordset) :
  Execute useSystemDB s0 = ((rs0, err0), s) ->
  useFatal err0 = None ->
  Execute selectBootstrapped s = ((rs, None), s1) ->
  let calls := [CallExecute useSystemDB; CallExecute selectBootstrapped] in
  (length rs <> 1%nat ->
     checkBootstrappedVar s =
       (Returned (false, Some (ErrNew "Wrong number of Recordset")), s1, selectCall) /\
     bootstrap SysVars s0 =
       (Fatal (Traced (ErrNew "Wrong number of Recordset")), s1, calls)) /\
  (forall e more, rs = [FetchErr e :: more] ->
     checkBootstrappedVar s = (Returned (false, Some (Traced e)), s1, selectCall) /\
     bootstrap SysVars s0 = (Fatal (Traced (Traced e)), s1, calls)) /\
  (rs = [[]] ->
     checkBootstrapped s0 = (Returned (false, None), s1, calls)) /\
  (forall row more, rs = [FetchRow row :: more] ->
     forall (s' : S) more',
       Execute selectBootstrapped s' = (([FetchRow row :: more'], None), s1) ->
       checkBootstrappedVar s' = checkBootstrappedVar s).
Proof.
  intros HU HF HS calls.
  pose proof (checkBootstrapped_after_use _ _ _ _ HU HF) as HP.
  pose proof (bootstrap_run SysVars s0) as HB. cbn zeta in HB.
  rewrite checkBootstrappedVar_run, HS in HP.
  rewrite checkBootstrappedVar_run, HS.
  split; [|split; [|split]].
  - intros Hn. rewrite HB, HP.
    destruct rs as [|r [|r' rs']]; cbn [length] in Hn; try congruence;
      split; reflexivity.
  - intros e more ->. rewrite HB, HP. split; reflexivity.
  - intros ->. rewrite HP. reflexivity.
  - intros row more -> s' more' HS'.
    rewrite (checkBootstrappedVar_run s'), HS'. reflexivity.
Qed.

End Probe.

(** * Idempotence, atomicity and the flag write, on the reference executor *)

(** C4: bootstrap starts on a session at rest, on a store whose flag
    table, if it exists, has the layout [CreateTiDBTable] declares.  When
    the run returns, a second run on the session and store it left returns
    too, leaves both exactly as they were, and calls only the probe's USE,
    read and FinishTxn: no statement of the installer or of the loader is
    executed.  And whatever the outcome of the first run (a run that does
    not return ends the process, and the next run starts on a new session
    of the same store), the second run leaves the committed data of the
    store as the first run left it. *)
Theorem bootstrap_twice_is_bootstrap_once
    (SysVars : list (string * SysVar)) (st : State) :
  txn st = None ->
  layout_ok (committed st) ->
  (outcome (bootstrap SysVars st) = Returned tt ->
   bootstrap SysVars (final (bootstrap SysVars st)) =
     (Returned tt, final (bootstrap SysVars st),
      [CallExecute useSystemDB; CallExecute selectBootstrapped;
       CallFinishTxn false])) /\
  committed (final (bootstrap SysVars (rollback (final (bootstrap SysVars st))))) =
    committed (rollback (final (bootstrap SysVars st))).
Proof.
  intros Ht Hl. split.
  - intros HR.
    assert (session_layout_ok st) as HI by (split; [assumption|rewrite Ht; discriminate]).
    destruct (bootstrap_returned SysVars st HI HR) as [Ht' Hf].
    apply bootstrap_noop; assumption.
  - apply bootstrap_then_bootstrap; assumption.
Qed.

(** C6: the loader starts on a session without open transaction.  After
    BEGIN and any number of the statements that follow it, short of COMMIT,
    the committed data of the store is what it was before the loader
    started; and when the loader stops the process, at whatever statement,
    the committed data is what it was before: no row of mysql.user, of
    mysql.GLOBAL_VARIABLES or of mysql.tidb written by the loader is in
    it. *)
Theorem doDMLWorks_all_or_nothing (SysVars : list (string * SysVar)) (st : State) :
  txn st = None ->
  (forall k : nat, (1 <= k <= 4)%nat ->
     committed (exec_all (take k (dmlStatements SysVars)) st) = committed st) /\
  (forall e : error, outcome (doDMLWorks SysVars st) = Fatal e ->
     committed (final (doDMLWorks SysVars st)) = committed st).
Proof.
  intros Ht.
  assert (cur st = committed st) as Hc by (unfold cur; rewrite Ht; reflexivity).
  split.
  - intros k Hk. rewrite <- Hc. apply loader_prefix_committed, Hk.
  - intros e He. rewrite <- Hc. apply (loader_fatal_committed _ _ _ He).
Qed.

(** C7: on a store whose flag table has a row for the key "bootstrapped",
    whatever the columns of that row, the loader's flag statement succeeds
    and the row then has the value "True", its other columns and the other
    rows of the table being what they were. *)
Theorem insertBootstrapped_overwrites
    (st : State) (t : Table) (old : list (option string)) :
  tables (cur st) !! tidbTable = Some t ->
  key_cols t = 1%nat ->
  rows t !! [bootstrappedVar] = Some old ->
  (Execute insertBootstrapped st).1 = ([], None) /\
  tables (cur (Execute insertBootstrapped st).2) !! tidbTable =
    Some (mkTable 1 (<[[bootstrappedVar] := Some bootstrappedVarTrue :: tail old]> (rows t))) /\
  flag (cur (Execute insertBootstrapped st).2) = Some (Some bootstrappedVarTrue :: tail old).
Proof.
  intros Ht Hk Hr.
  assert (layout_ok (cur st)) as Hl.
  { intros t' Ht'. rewrite Ht in Ht'. injection Ht' as <-. exact Hk. }
  rewrite (execute_insertBootstrapped st Hl), Ht, Hr. cbn [fst snd].
  rewrite cur_write. unfold flag. cbn [tables].
  rewrite lookup_insert_eq. cbn [rows]. rewrite lookup_insert_eq.
  repeat split.
Qed.

(** * The theorems at work on concrete stores *)

Import Stores.

(** An answer of Execute, from its parts. *)
Lemma answer_eta {A B C : Type} (x : A * B * C) (a : A) (b : B) :
  x.1.1 = a -> x.1.2 = b -> x = ((a, b), x.2).
Proof. destruct x as [[a' b'] c]. cbn. intros -> ->. reflexivity. Defined.

Lemma finish_eta {A B : Type} (x : A * B) (a : A) : x.1 = a -> x = (a, x.2).
Proof. destruct x as [a' b]. cbn. intros ->. reflexivity. Defined.

(** On the store the installer left, with an empty flag table, the read of
    the flag succeeds with no row; the probe returns (false, nil), and
    bootstrap goes on to execute all eighteen statements of the installer
    and the loader and returns.  On a session that answers the read with
    two rows, "True" first, the probe returns (true, nil). *)
Lemma probe_accepts_zero_rows_and_several :
  (Execute selectBootstrapped installed).1 = ([[]], None) /\
  outcome (checkBootstrappedVar installed) = Returned (false, None) /\
  outcome (bootstrap exampleSysVars installed) = Returned tt /\
  trace (bootstrap exampleSysVars installed) =
    [CallExecute useSystemDB; CallExecute selectBootstrapped]
    ++ (CallExecute <$> ddlStatements ++ dmlStatements exampleSysVars) /\
  outcome (checkBootstrapped (answering [[row_of "True"; row_of "False"]])) =
    Returned (true, None).
Proof. repeat split; vm_compute; reflexivity. Qed.

Lemma checkBootstrapped_unexpected_read_witness :
  bootstrap exampleSysVars (answering []) =
    (Fatal (Traced (ErrNew "Wrong number of Recordset")), Script.mkState [] [],
     [CallExecute useSystemDB; CallExecute selectBootstrapped]) /\
  bootstrap exampleSysVars (answering [[FetchErr (ErrNew "lost connection")]]) =
    (Fatal (Traced (Traced (ErrNew "lost connection"))), Script.mkState [] [],
     [CallExecute useSystemDB; CallExecute selectBootstrapped]) /\
  checkBootstrapped installed =
    (Returned (false, None), (Execute selectBootstrapped installed).2,
     [CallExecute useSystemDB; CallExecute selectBootstrapped]) /\
  checkBootstrappedVar (Script.mkState [([[row_of "False"]], None)] []) =
    checkBootstrappedVar
      (Script.mkState [([[row_of "False"; row_of "True"]], None)] []).
Proof.
  split; [|split; [|split]].
  - refine (proj2 (proj1 (checkBootstrapped_unexpected_read exampleSysVars
      (answering []) (Script.mkState [([], None)] []) (Script.mkState [] [])
      [] None [] eq_refl eq_refl eq_refl) _)).
    cbn. lia.
  - refine (proj2 (proj1 (proj2 (checkBootstrapped_unexpected_read exampleSysVars
      (answering [[FetchErr (ErrNew "lost connection")]])
      (Script.mkState [([[FetchErr (ErrNew "lost connection")]], None)] [])
      (Script.mkState [] []) [] None _ eq_refl eq_refl eq_refl)) _ [] eq_refl)).
  - refine (proj1 (proj2 (proj2 (checkBootstrapped_unexpected_read exampleSysVars
      installed installed (Execute selectBootstrapped installed).2 [] None [[]]
      _ eq_refl _))) eq_refl).
    + reflexivity.
    + apply answer_eta; vm_compute; reflexivity.
  - exact (proj2 (proj2 (proj2 (checkBootstrapped_unexpected_read exampleSysVars
      (answering [[row_of "False"; row_of "True"]])
      (Script.mkState [([[row_of "False"; row_of "True"]], None)] [])
      (Script.mkState [] []) [] None _ eq_refl eq_refl eq_refl)))
      (mkRow [DString "False"]) [row_of "True"] eq_refl
      (Script.mkState [([[row_of "False"]], None)] []) [] eq_refl).
Defined.

(** USE on the reference executor changes nothing. *)
Lemma use_eta (st : State) :
  Execute useSystemDB st =
    (((Execute useSystemDB st).1.1, (Execute useSystemDB st).1.2), st).
Proof.
  destruct (execute_use st) as [Hs _].
  destruct (Execute useSystemDB st) as [[rs err] s']. cbn in *. subst s'. reflexivity.
Defined.

Lemma checkBootstrapped_four_states_witness :
  outcome (checkBootstrapped fresh) = Returned (false, None) /\
  outcome (checkBootstrapped namespace_only) = Returned (false, None) /\
  outcome (checkBootstrapped bootstrapped) = Returned (true, None) /\
  outcome (checkBootstrapped (with_flag [Some "False"; None])) = Returned (false, None).
Proof.
  split; [|split; [|split]].
  - refine (proj1 (checkBootstrapped_four_states fresh fresh
      (Execute selectBootstrapped fresh).2 _ _ (use_eta fresh))
      [] errTableNotExists _ _ _).
    + vm_compute; reflexivity.
    + apply answer_eta; vm_compute; reflexivity.
    + reflexivity.
  - refine (proj1 (proj2 (checkBootstrapped_four_states namespace_only namespace_only
      (Execute selectBootstrapped namespace_only).2 _ _ (use_eta namespace_only)))
      [] errTableNotExists _ _ _).
    + vm_compute; reflexivity.
    + apply answer_eta; vm_compute; reflexivity.
    + reflexivity.
  - refine (proj1 (proj2 (proj2 (checkBootstrapped_four_states bootstrapped bootstrapped
      (Execute selectBootstrapped bootstrapped).2 _ _ (use_eta bootstrapped))))
      (FinishTxn false (Execute selectBootstrapped bootstrapped).2).2 _ _ _).
    + vm_compute; reflexivity.
    + apply answer_eta; vm_compute; reflexivity.
    + apply finish_eta; reflexivity.
  - refine (proj2 (proj2 (proj2 (checkBootstrapped_four_states
      (with_flag [Some "False"; None]) (with_flag [Some "False"; None])
      (Execute selectBootstrapped (with_flag [Some "False"; None])).2 _ _
      (use_eta _)))) "False" _ _ _).
    + vm_compute; reflexivity.
    + apply answer_eta; vm_compute; reflexivity.
    + discriminate.
Defined.

Lemma bootstrap_probe_install_load_witness :
  let p := checkBootstrapped fresh in
  let b := bootstrap exampleSysVars fresh in
  match outcome p with
  | Returned (true, None) =>
      b = (Returned tt, final p, trace p) /\
      trace p = [CallExecute useSystemDB; CallExecute selectBootstrapped;
                 CallFinishTxn false]
  | Returned (false, None) =>
      b = (let r := (doDDLWorks ;;; doDMLWorks exampleSysVars) (final p) in
           (outcome r, final r, trace p ++ trace r)) /\
      exists k : nat,
        (1 <= k <= 18)%nat /\
        trace b = trace p ++
                  (CallExecute <$> take k (ddlStatements ++ dmlStatements exampleSysVars)) /\
        (outcome b = Returned tt -> k = 18%nat)
  | Returned (_, Some e) => b = (Fatal e, final p, trace p)
  | Fatal e => b = (Fatal e, final p, trace p)
  | Panicked => b = (Panicked, final p, trace p)
  end.
Proof. exact (bootstrap_probe_install_load exampleSysVars fresh). Defined.

Lemma fresh_layout_ok : layout_ok (committed fresh).
Proof. intros t Ht. vm_compute in Ht. discriminate. Defined.

Lemma bootstrap_twice_is_bootstrap_once_witness :
  outcome (bootstrap exampleSysVars fresh) = Returned tt /\
  length (trace (bootstrap exampleSysVars fresh)) = 20%nat /\
  bootstrap exampleSysVars (final (bootstrap exampleSysVars fresh)) =
    (Returned tt, final (bootstrap exampleSysVars fresh),
     [CallExecute useSystemDB; CallExecute selectBootstrapped; CallFinishTxn false]) /\
  outcome (bootstrap clashingSysVars fresh) = Fatal errDupKey /\
  committed (final (bootstrap clashingSysVars
                      (rollback (final (bootstrap clashingSysVars fresh))))) =
    committed (rollback (final (bootstrap clashingSysVars fresh))).
Proof.
  assert (outcome (bootstrap exampleSysVars fresh) = Returned tt) as E
    by (vm_compute; reflexivity).
  split; [exact E|]. split; [vm_compute; reflexivity|]. split.
  - exact (proj1 (bootstrap_twice_is_bootstrap_once exampleSysVars fresh
                    eq_refl fresh_layout_ok) E).
  - split; [vm_compute; reflexivity|].
    exact (proj2 (bootstrap_twice_is_bootstrap_once clashingSysVars fresh
                    eq_refl fresh_layout_ok)).
Defined.

Lemma doDMLWorks_statements_witness :
  Sql.parse (insertSysVars exampleSysVars) =
    Some (SInsert "mysql.GLOBAL_VARIABLES"
            ((fun kv => [ToLower kv.1; Value kv.2]) <$> exampleSysVars) None) /\
  (fun kv => [ToLower kv.1; Value kv.2]) <$> exampleSysVars =
    [["autocommit"; "ON"]; ["sql_mode"; ""]; ["max_connections"; "151"]].
Proof.
  split; [|vm_compute; reflexivity].
  refine (proj1 (proj2 (proj2 (proj2 (proj2 (proj2 (proj2 (proj2 (proj2
    (doDMLWorks_statements exampleSysVars fresh eq_refl))))))))) _ _).
  - discriminate.
  - vm_compute. reflexivity.
Defined.

Lemma doDMLWorks_all_or_nothing_witness :
  outcome (doDMLWorks clashingSysVars installed) = Fatal errDupKey /\
  trace (doDMLWorks clashingSysVars installed) =
    CallExecute <$> take 3 (dmlStatements clashingSysVars) /\
  committed (final (doDMLWorks clashingSysVars installed)) = committed installed /\
  committed (exec_all (take 2 (dmlStatements clashingSysVars)) installed) =
    committed installed.
Proof.
  assert (outcome (doDMLWorks clashingSysVars installed) = Fatal errDupKey) as E
    by (vm_compute; reflexivity).
  assert (txn installed = None) as Ht by (vm_compute; reflexivity).
  split; [exact E|]. split; [vm_compute; reflexivity|].
  split.
  - exact (proj2 (doDMLWorks_all_or_nothing clashingSysVars installed Ht) errDupKey E).
  - refine (proj1 (doDMLWorks_all_or_nothing clashingSysVars installed Ht) 2%nat _). lia.
Defined.

Lemma insertBootstrapped_overwrites_witness :
  (Execute insertBootstrapped (with_flag [Some "False"; Some "note"])).1 = ([], None) /\
  flag (cur (Execute insertBootstrapped (with_flag [Some "False"; Some "note"])).2) =
    Some (Some bootstrappedVarTrue :: tail [Some "False"; Some "note"]) /\
  (Execute insertDefaultUser (Execute insertDefaultUser installed).2).1 =
    ([], Some errDupKey).
Proof.
  pose proof (insertBootstrapped_overwrites (with_flag [Some "False"; Some "note"])
    (mkTable 1 {[ [bootstrappedVar] := [Some "False"; Some "note"] ]})
    [Some "False"; Some "note"]) as W.
  split; [|split].
  - refine (proj1 (W _ _ _)); vm_compute; reflexivity.
  - refine (proj2 (proj2 (W _ _ _))); vm_compute; reflexivity.
  - vm_compute. reflexivity.
Defined.

Lemma checkBootstrappedVar_true_finishes_txn_witness :
  (trace (checkBootstrappedVar bootstrapped) =
     [CallExecute selectBootstrapped; CallFinishTxn false] /\
   final (checkBootstrappedVar bootstrapped) =
     (FinishTxn false (Execute selectBootstrapped bootstrapped).2).2 /\
   outcome (checkBootstrappedVar bootstrapped) =
     Returned (match (FinishTxn false (Execute selectBootstrapped bootstrapped).2).1 with
               | None => (true, None)
               | Some e => (false, Some (Traced e))
               end)) /\
  outcome (checkBootstrappedVar bootstrapped) = Returned (true, None).
Proof.
  split; [|vm_compute; reflexivity].
  refine (checkBootstrappedVar_true_finishes_txn bootstrapped
    (Execute selectBootstrapped bootstrapped).2 (mkRow [DString "True"]) [] _ _).
  - apply answer_eta; vm_compute; reflexivity.
  - reflexivity.
Defined.

Lemma checkBootstrapped_other_value_keeps_txn_witness :
  let st := with_flag [Some "False"; None] in
  checkBootstrapped st =
    (Returned (false, None), (Execute selectBootstrapped st).2,
     [CallExecute useSystemDB; CallExecute selectBootstrapped]) /\
  bootstrap exampleSysVars st =
    (let r := (doDDLWorks ;;; doDMLWorks exampleSysVars) (Execute selectBootstrapped st).2 in
     (outcome r, final r,
      [CallExecute useSystemDB; CallExecute selectBootstrapped] ++ trace r)) /\
  forall rb, CallFinishTxn rb ∉ trace (bootstrap exampleSysVars st).
Proof.
  intros st.
  refine (checkBootstrapped_other_value_keeps_txn exampleSysVars st st
    (Execute selectBootstrapped st).2 _ _ (mkRow [DString "False"]) "False" []
    (use_eta st) _ _ _ _).
  - vm_compute; reflexivity.
  - apply answer_eta; vm_compute; reflexivity.
  - reflexivity.
  - discriminate.
Defined.

(** The read leaves a transaction open on that store, and the probe does
    not end it. *)
Lemma probe_leaves_transaction_open :
  txn (with_flag [Some "False"; None]) = None /\
  is_Some (txn (final (checkBootstrapped (with_flag [Some "False"; None])))).
Proof. split; [reflexivity|]. apply is_Some_alt. vm_compute. exact I. Qed.

(** ** A flag row whose value is not a string *)

(** A store whose flag row is there with the value NULL, which is not
    "True": the probe does not return (false, nil), it panics. *)
Lemma probe_panics_on_null_flag :
  txn (with_flag [None; None]) = None /\
  flag (committed (with_flag [None; None])) = Some [None; None] /\
  outcome (checkBootstrapped (with_flag [None; None])) = Panicked /\
  outcome (checkBootstrapped (with_flag [None; None])) <> Returned (false, None).
Proof.
  assert (outcome (checkBootstrapped (with_flag [None; None])) = Panicked) as Hp
    by (vm_compute; reflexivity).
  split; [reflexivity|]. split; [vm_compute; reflexivity|].
  split; [exact Hp|]. rewrite Hp. discriminate.
Qed.

(** On that store, with the comment the loader writes, bootstrap does not
    go on to the installer and the loader: it panics after the read, and
    its calls are USE and the read. *)
Lemma bootstrap_stops_on_null_flag :
  flag (committed (with_flag [None; Some "Bootstrap flag. Do not delete."])) =
    Some [None; Some "Bootstrap flag. Do not delete."] /\
  outcome (checkBootstrapped (with_flag [None; Some "Bootstrap flag. Do not delete."])) <>
    Returned (false, None) /\
  outcome (bootstrap exampleSysVars
             (with_flag [None; Some "Bootstrap flag. Do not delete."])) = Panicked /\
  trace (bootstrap exampleSysVars
           (with_flag [None; Some "Bootstrap flag. Do not delete."])) =
    [CallExecute useSystemDB; CallExecute selectBootstrapped].
Proof.
  split; [vm_compute; reflexivity|]. split.
  - intros Ho. vm_compute in Ho. discriminate.
  - split; vm_compute; reflexivity.
Qed.


(** * More about the probe and the coordinator, for every session *)

Section ProbeCalls.
Context {S : Type} `{Session S}.

(** The probe of the flag alone, by its outcome: what it called. *)
Lemma checkBootstrappedVar_calls (s : S) :
  match outcome (checkBootstrappedVar s) with
  | Returned (true, None) =>
      trace (checkBootstrappedVar s) = selectCall ++ [CallFinishTxn false]
  | Returned (true, Some _) => False
  | Returned (false, None) => trace (checkBootstrappedVar s) = selectCall
  | Returned (false, Some _) =>
      trace (checkBootstrappedVar s) = selectCall \/
      trace (checkBootstrappedVar s) = selectCall ++ [CallFinishTxn false]
  | Fatal _ => False
  | Panicked => trace (checkBootstrappedVar s) = selectCall
  end.
Proof.
  rewrite checkBootstrappedVar_run.
  destruct (Execute selectBootstrapped s) as [[rs [e|]] s1].
  - destruct (Equal TableNotExists (Some e)); cbn; auto.
  - destruct rs as [|[|[row|e] r] [|r' rs]]; cbn; auto.
    destruct (Data row) as [|[| |v|] rest]; cbn; auto.
    case_bool_decide; cbn; auto.
    destruct (FinishTxn false s1) as [[e|] s2]; cbn; auto.
Qed.

(** The calls of the probe, by its outcome. *)
Lemma checkBootstrapped_trace_by_outcome (s : S) :
  match outcome (checkBootstrapped s) with
  | Returned (true, None) =>
      trace (checkBootstrapped s) =
        [CallExecute useSystemDB; CallExecute selectBootstrapped; CallFinishTxn false]
  | Returned (true, Some _) => False
  | Returned (false, None) =>
      trace (checkBootstrapped s) =
        [CallExecute useSystemDB; CallExecute selectBootstrapped]
  | Returned (false, Some _) =>
      trace (checkBootstrapped s) =
        [CallExecute useSystemDB; CallExecute selectBootstrapped] \/
      trace (checkBootstrapped s) =
        [CallExecute useSystemDB; CallExecute selectBootstrapped; CallFinishTxn false]
  | Fatal _ => trace (checkBootstrapped s) = [CallExecute useSystemDB]
  | Panicked =>
      trace (checkBootstrapped s) =
        [CallExecute useSystemDB; CallExecute selectBootstrapped]
  end.
Proof.
  rewrite checkBootstrapped_run.
  destruct (Execute useSystemDB s) as [[rs0 err0] s0].
  destruct (useFatal err0) as [e|]; [reflexivity|]. cbn zeta.
  rewrite outcome_mk, trace_mk.
  pose proof (checkBootstrappedVar_calls s0) as Hc.
  destruct (outcome (checkBootstrappedVar s0)) as [[[] [e|]]|e|].
  - destruct Hc.
  - rewrite Hc. reflexivity.
  - destruct Hc as [-> | ->]; [left|right]; reflexivity.
  - rewrite Hc. reflexivity.
  - destruct Hc.
  - rewrite Hc. reflexivity.
Qed.

(** X1: whatever the session answers, the probe calls USE first, executes
    at most one more statement, the read of the flag, and calls FinishTxn
    at most once, with false, after the read; each call is made on the
    session the call before it left, and the probe leaves the session of
    its last call.  When USE stops the process, USE is the only call; when
    the probe returns (true, nil) the calls are all three; when it returns
    (false, nil) or panics they are USE and the read; it never returns
    true together with an error. *)
Theorem checkBootstrapped_calls (s : S) :
  let p := checkBootstrapped s in
  let s0 := (Execute useSystemDB s).2 in
  let s1 := (Execute selectBootstrapped s0).2 in
  let s2 := (FinishTxn false s1).2 in
  let use := CallExecute useSystemDB in
  let read := CallExecute selectBootstrapped in
  match outcome p with
  | Returned (true, None) => trace p = [use; read; CallFinishTxn false] /\ final p = s2
  | Returned (true, Some _) => False
  | Returned (false, None) => trace p = [use; read] /\ final p = s1
  | Returned (false, Some _) =>
      (trace p = [use; read] /\ final p = s1) \/
      (trace p = [use; read; CallFinishTxn false] /\ final p = s2)
  | Fatal _ => trace p = [use] /\ final p = s0
  | Panicked => trace p = [use; read] /\ final p = s1
  end.
Proof.
  cbn zeta. rewrite checkBootstrapped_run.
  destruct (Execute useSystemDB s) as [[rs0 err0] s0]. cbn [snd].
  destruct (useFatal err0) as [e|]; [split; reflexivity|]. cbn zeta.
  rewrite outcome_mk, trace_mk, final_mk, checkBootstrappedVar_run.
  destruct (Execute selectBootstrapped s0) as [[rs [e|]] s1]; cbn [snd].
  - destruct (Equal TableNotExists (Some e)); cbn; auto.
  - destruct rs as [|[|[row|e] r] [|r' rs]]; cbn; auto.
    destruct (Data row) as [|[| |v|] rest]; cbn; auto.
    case_bool_decide; cbn; auto.
    destruct (FinishTxn false s1) as [[e|] s2]; cbn; auto.
Qed.

(** X2: when USE fails with an error that is not "database does not
    exist", the probe stops the process with that very error, untraced,
    after this one call: the flag is not read, and bootstrap ends the same
    way. *)
Theorem checkBootstrapped_use_failure
    (SysVars : list (string * SysVar)) (s s0 : S) rs0 (e : error) :
  Execute useSystemDB s = ((rs0, Some e), s0) ->
  Equal DatabaseNotExists (Some e) = false ->
  checkBootstrapped s = (Fatal e, s0, [CallExecute useSystemDB]) /\
  bootstrap SysVars s = (Fatal e, s0, [CallExecute useSystemDB]).
Proof.
  intros HU HE.
  assert (checkBootstrapped s = (Fatal e, s0, [CallExecute useSystemDB])) as HP.
  { rewrite checkBootstrapped_run, HU. unfold useFatal. rewrite HE. reflexivity. }
  split; [exact HP|]. rewrite bootstrap_run, HP. reflexivity.
Qed.

(** X3: when the read of the flag fails with an error that is not "table
    does not exist" (be it "database does not exist"), the probe returns
    false and the error, traced once by [checkBootstrappedVar] and once
    more by [checkBootstrapped]; bootstrap stops the process with it, and
    nothing is called after the read. *)
Theorem checkBootstrapped_read_failure
    (SysVars : list (string * SysVar)) (s s0 s1 : S) rs0 err0 rs (e : error) :
  Execute useSystemDB s = ((rs0, err0), s0) ->
  useFatal err0 = None ->
  Execute selectBootstrapped s0 = ((rs, Some e), s1) ->
  Equal TableNotExists (Some e) = false ->
  checkBootstrappedVar s0 = (Returned (false, Some (Traced e)), s1, selectCall) /\
  checkBootstrapped s =
    (Returned (false, Some (Traced (Traced e))), s1,
     [CallExecute useSystemDB; CallExecute selectBootstrapped]) /\
  bootstrap SysVars s =
    (Fatal (Traced (Traced e)), s1,
     [CallExecute useSystemDB; CallExecute selectBootstrapped]).
Proof.
  intros HU HF HS HE.
  assert (checkBootstrappedVar s0 =
          (Returned (false, Some (Traced e)), s1, selectCall)) as HV.
  { rewrite checkBootstrappedVar_run, HS, HE. reflexivity. }
  assert (checkBootstrapped s =
          (Returned (false, Some (Traced (Traced e))), s1,
           [CallExecute useSystemDB; CallExecute selectBootstrapped])) as HP.
  { rewrite checkBootstrapped_run, HU, HF. cbn zeta. rewrite HV. reflexivity. }
  split; [exact HV|]. split; [exact HP|].
  rewrite bootstrap_run, HP. reflexivity.
Qed.

(** X4: the probe returns (true, nil) exactly when USE did not stop the
    process, the read succeeded with one result set whose first row has the
    string "True" as its first value, and FinishTxn(false) reported no
    error. *)
Theorem checkBootstrapped_true_iff (s : S) :
  outcome (checkBootstrapped s) = Returned (true, None) <->
  exists (row : Row) (rest : list Datum) (more : Recordset),
    useFatal (Execute useSystemDB s).1.2 = None /\
    (Execute selectBootstrapped (Execute useSystemDB s).2).1 =
      ([FetchRow row :: more], None) /\
    Data row = DString bootstrappedVarTrue :: rest /\
    (FinishTxn false (Execute selectBootstrapped (Execute useSystemDB s).2).2).1 = None.
Proof.
  rewrite checkBootstrapped_run.
  destruct (Execute useSystemDB s) as [[rs0 err0] s0]. cbn [fst snd].
  destruct (useFatal err0) as [e|].
  { split; [discriminate|]. intros (? & ? & ? & ? & _). discriminate. }
  cbn zeta. rewrite outcome_mk, checkBootstrappedVar_run.
  destruct (Execute selectBootstrapped s0) as [[rs err] s1]. cbn [fst snd].
  destruct err as [e|].
  { rewrite outcome_mk. split.
    - destruct (Equal TableNotExists (Some e)); discriminate.
    - intros (? & ? & ? & _ & ? & _). discriminate. }
  destruct rs as [|[|[row|e] r] [|r' rs]]; rewrite ?outcome_mk;
    try (split; [discriminate|intros (? & ? & ? & _ & ? & _); discriminate]).
  destruct (Data row) as [|d rest] eqn:ED.
  { rewrite outcome_mk. split; [discriminate|].
    intros (row' & ? & ? & _ & [= <- _] & Hd & _). congruence. }
  destruct d as [| |v|];
    try (rewrite outcome_mk; split; [discriminate|];
         intros (row' & ? & ? & _ & [= <- _] & Hd & _); congruence).
  case_bool_decide as Hv.
  - subst v. destruct (FinishTxn false s1) as [[e|] s2]; rewrite outcome_mk; cbn [fst].
    + split; [discriminate|]. intros (? & ? & ? & _ & _ & _ & ?). discriminate.
    + split; [|reflexivity]. intros _. exists row, rest, r. auto.
  - rewrite outcome_mk. split; [discriminate|].
    intros (row' & ? & ? & _ & [= <- _] & Hd & _). congruence.
Qed.

(** X5: the probe panics exactly when USE did not stop the process and the
    read succeeded with one result set whose first row has no first value
    or a first value that is not a string (SQL's NULL is one); bootstrap
    panics in no other way, and then has called nothing but USE and the
    read. *)
Theorem bootstrap_panics_iff (SysVars : list (string * SysVar)) (s : S) :
  (outcome (bootstrap SysVars s) = Panicked <->
   exists (row : Row) (more : Recordset),
     useFatal (Execute useSystemDB s).1.2 = None /\
     (Execute selectBootstrapped (Execute useSystemDB s).2).1 =
       ([FetchRow row :: more], None) /\
     forall v rest, Data row <> DString v :: rest) /\
  (outcome (bootstrap SysVars s) = Panicked ->
   trace (bootstrap SysVars s) =
     [CallExecute useSystemDB; CallExecute selectBootstrapped]).
Proof.
  assert (outcome (bootstrap SysVars s) = Panicked <->
          outcome (checkBootstrapped s) = Panicked) as HB.
  { rewrite bootstrap_run. cbn zeta.
    destruct (outcome (checkBootstrapped s)) as [[[] [e|]]|e|]; rewrite ?outcome_mk;
      try (split; discriminate); try (split; reflexivity).
    split; [|discriminate]. intros Hp.
    destruct (mustExecuteAll_never_panics _ _ Hp). }
  split.
  - rewrite HB, checkBootstrapped_run.
    destruct (Execute useSystemDB s) as [[rs0 err0] s0]. cbn [fst snd].
    destruct (useFatal err0) as [e|].
    { split; [discriminate|]. intros (? & ? & ? & _). discriminate. }
    cbn zeta. rewrite outcome_mk, checkBootstrappedVar_run.
    destruct (Execute selectBootstrapped s0) as [[rs err] s1]. cbn [fst snd].
    destruct err as [e|].
    { rewrite outcome_mk. split.
      - destruct (Equal TableNotExists (Some e)); discriminate.
      - intros (? & ? & _ & ? & _). discriminate. }
    destruct rs as [|[|[row|e] r] [|r' rs]]; rewrite ?outcome_mk;
      try (split; [discriminate|intros (? & ? & _ & ? & _); discriminate]).
    destruct (Data row) as [|d rest] eqn:ED.
    { rewrite outcome_mk. split; [|reflexivity]. intros _.
      exists row, r. split; [reflexivity|]. split; [reflexivity|].
      intros v rest'. rewrite ED. discriminate. }
    destruct d as [|z|v|b];
      try (rewrite outcome_mk; split; [|reflexivity]; intros _;
           exists row, r; split; [reflexivity|]; split; [reflexivity|];
           intros v' rest'; rewrite ED; discriminate).
    split.
    + intros Hp. exfalso.
      destruct (bool_decide (v = bootstrappedVarTrue));
        [destruct (FinishTxn false s1) as [[e|] s2]|];
        rewrite outcome_mk in Hp; discriminate.
    + intros (row' & more & _ & [= <- _] & Hd). destruct (Hd v rest). exact ED.
  - intros Hp. apply HB in Hp.
    pose proof (checkBootstrapped_trace_by_outcome s) as Hc. rewrite Hp in Hc.
    rewrite bootstrap_run. cbn zeta. rewrite Hp, trace_mk. exact Hc.
Qed.

End ProbeCalls.

(** * More about the coordinator, for every session *)

Section Coordinator.
Context {S : Type} `{Session S}.

(** The statements before the first failure do not fail. *)
Lemma first_failure_take_none (sqls : list string) (s : S) (n : nat) :
  first_failure (take n sqls) s = None <->
  match first_failure sqls s with
  | Some (j, _) => (n <= j)%nat
  | None => True
  end.
Proof.
  revert s n. induction sqls as [|q sqls IH]; intros s [|n]; cbn [take first_failure].
  - tauto.
  - tauto.
  - destruct ((Execute q s).1.2); [split; [lia|reflexivity]|].
    destruct (first_failure sqls _) as [[j e]|]; split; auto; lia.
  - destruct ((Execute q s).1.2); [split; [discriminate|lia]|].
    specialize (IH (Execute q s).2 n).
    destruct (first_failure (take n sqls) _) as [[j e]|];
      destruct (first_failure sqls _) as [[j' e']|].
    + split; [discriminate|]. intros Hle.
      assert (n <= j')%nat as Hn by lia. apply IH in Hn. discriminate.
    + split; [discriminate|]. intros _. destruct IH as [_ IH]. specialize (IH I). discriminate.
    + split; [|reflexivity]. intros _.
      assert (n <= j')%nat by (apply IH; reflexivity). lia.
    + tauto.
Qed.

(** The calls of the probe, whatever its outcome. *)
Lemma checkBootstrapped_trace_shape (s : S) :
  trace (checkBootstrapped s) = [CallExecute useSystemDB] \/
  trace (checkBootstrapped s) =
    [CallExecute useSystemDB; CallExecute selectBootstrapped] \/
  trace (checkBootstrapped s) =
    [CallExecute useSystemDB; CallExecute selectBootstrapped; CallFinishTxn false].
Proof.
  rewrite checkBootstrapped_run.
  destruct (Execute useSystemDB s) as [[rs0 err0] s0].
  destruct (useFatal err0) as [e|]; [left; reflexivity|]. cbn zeta.
  rewrite trace_mk.
  pose proof (checkBootstrappedVar_calls s0) as Hc.
  destruct (outcome (checkBootstrappedVar s0)) as [[[] [e|]]|e|];
    try (destruct Hc; fail);
    try (destruct Hc as [-> | ->]; [right; left|right; right]; reflexivity);
    rewrite Hc; [right; right|right; left|right; left]; reflexivity.
Qed.

(** COMMIT is the last of the eighteen statements and no other. *)
Lemma commit_is_last (SysVars : list (string * SysVar)) (i : nat) :
  (ddlStatements ++ dmlStatements SysVars) !! i = Some "COMMIT" -> i = 17%nat.
Proof.
  intros Hi.
  do 17 (destruct i as [|i];
         [exfalso;
          apply (f_equal (fun o => match o with
                                   | Some (String _ (String c _)) => Some c
                                   | _ => None
                                   end)) in Hi;
          vm_compute in Hi; discriminate|]).
  destruct i; [reflexivity|discriminate].
Qed.

(** X6: when bootstrap stops the process with an error, the error is one
    of three kinds.  It is the error USE answered, as it is, when that
    error is not "database does not exist": then USE is the only call.  Or
    it is the error the probe returned, traced: "Wrong number of
    Recordset", or an error the session answered at the read, at the fetch
    of the first row or at FinishTxn, traced twice; then nothing was called
    after the probe.  Or the probe said not initialized and the error is
    what the first failing statement of the installer and the loader
    answered, as it is: the statements before it answered no error, and it
    is the last call. *)
Theorem bootstrap_fatal_cause (SysVars : list (string * SysVar)) (s : S) (e : error) :
  outcome (bootstrap SysVars s) = Fatal e ->
  let p := checkBootstrapped s in
  let sqls := ddlStatements ++ dmlStatements SysVars in
  ((Execute useSystemDB s).1.2 = Some e /\
   Equal DatabaseNotExists (Some e) = false /\
   trace (bootstrap SysVars s) = [CallExecute useSystemDB]) \/
  (outcome p = Returned (false, Some e) /\
   trace (bootstrap SysVars s) = trace p /\
   (e = Traced (ErrNew "Wrong number of Recordset") \/ exists e0, e = Traced (Traced e0))) \/
  (outcome p = Returned (false, None) /\
   exists (j : nat) (sql : string),
     sqls !! j = Some sql /\
     first_failure (take j sqls) (final p) = None /\
     (Execute sql (exec_all (take j sqls) (final p))).1.2 = Some e /\
     trace (bootstrap SysVars s) = trace p ++ (CallExecute <$> take j sqls) ++ [CallExecute sql]).
Proof.
  intros Hb p sqls. subst p sqls. rewrite bootstrap_run in *. cbn zeta in *.
  destruct (outcome (checkBootstrapped s)) as [[[] [e'|]]|e'|] eqn:Hp;
    rewrite ?outcome_mk, ?trace_mk in *; try discriminate.
  - (* (true, Some _): the probe never returns it *)
    exfalso. pose proof (checkBootstrapped_run s) as Hr. rewrite Hr in Hp.
    destruct (Execute useSystemDB s) as [[rs0 err0] s0].
    destruct (useFatal err0); [discriminate|]. cbn zeta in Hp.
    rewrite outcome_mk in Hp.
    destruct (outcome (checkBootstrappedVar s0)) as [[v [e1|]]|e1|]; discriminate.
  - (* the probe returned an error *)
    injection Hb as ->. right. left. split; [reflexivity|]. split; [reflexivity|].
    rewrite checkBootstrapped_run in Hp.
    destruct (Execute useSystemDB s) as [[rs0 err0] s0].
    destruct (useFatal err0); [discriminate|]. cbn zeta in Hp.
    rewrite outcome_mk, checkBootstrappedVar_run in Hp.
    destruct (Execute selectBootstrapped s0) as [[rs [e1|]] s1].
    { destruct (Equal TableNotExists (Some e1)); rewrite outcome_mk in Hp;
        [discriminate|]. injection Hp as <-. right. eauto. }
    destruct rs as [|[|[row|e1] r] [|r' rs]]; rewrite ?outcome_mk in Hp;
      try discriminate; try (injection Hp as <-; auto; fail).
    + destruct (Data row) as [|[| |v|] rest]; rewrite ?outcome_mk in Hp;
        try discriminate.
      case_bool_decide; [|rewrite outcome_mk in Hp; discriminate].
      destruct (FinishTxn false s1) as [[e1|] s2]; rewrite outcome_mk in Hp;
        [|discriminate].
      injection Hp as <-. right. eauto.
    + injection Hp as <-. right. eauto.
  - (* a statement failed *)
    right. right. split; [reflexivity|].
    rewrite mustExecuteAll_run in *.
    destruct (first_failure _ (final (checkBootstrapped s))) as [[j e1]|] eqn:F;
      rewrite ?outcome_mk, ?trace_mk in *; [|discriminate].
    injection Hb as ->.
    destruct (first_failure_at _ _ _ _ F) as (sql & Hl & He).
    exists j, sql. split; [exact Hl|]. split.
    + apply first_failure_take_none. rewrite F. lia.
    + split; [exact He|]. rewrite (take_S_r _ _ _ Hl), fmap_app. reflexivity.
  - (* USE failed *)
    injection Hb as ->. left.
    rewrite checkBootstrapped_run in *.
    destruct (Execute useSystemDB s) as [[rs0 err0] s0]. cbn [fst snd].
    unfold useFatal in *.
    destruct err0 as [e0|].
    + destruct (Equal DatabaseNotExists (Some e0)) eqn:HE.
      * exfalso. cbn zeta in Hp. rewrite outcome_mk in Hp.
        rewrite checkBootstrappedVar_run in Hp.
        destruct (Execute selectBootstrapped s0) as [[rs [e1|]] s1].
        { destruct (Equal TableNotExists (Some e1)); discriminate. }
        destruct rs as [|[|[row|e1] r] [|r' rs]]; rewrite ?outcome_mk in Hp;
          try discriminate.
        destruct (Data row) as [|[| |v|] rest]; rewrite ?outcome_mk in Hp;
          try discriminate.
        case_bool_decide; [|rewrite outcome_mk in Hp; discriminate].
        destruct (FinishTxn false s1) as [[e1|] s2]; rewrite outcome_mk in Hp;
          discriminate.
      * rewrite outcome_mk in Hp. injection Hp as ->. rewrite trace_mk. auto.
    + exfalso. cbn zeta in Hp. rewrite outcome_mk in Hp.
      rewrite checkBootstrappedVar_run in Hp.
      destruct (Execute selectBootstrapped s0) as [[rs [e1|]] s1].
      { destruct (Equal TableNotExists (Some e1)); discriminate. }
      destruct rs as [|[|[row|e1] r] [|r' rs]]; rewrite ?outcome_mk in Hp;
        try discriminate.
      destruct (Data row) as [|[| |v|] rest]; rewrite ?outcome_mk in Hp;
        try discriminate.
      case_bool_decide; [|rewrite outcome_mk in Hp; discriminate].
      destruct (FinishTxn false s1) as [[e1|] s2]; rewrite outcome_mk in Hp;
        discriminate.
Qed.

(** X7: bootstrap executes COMMIT exactly when the probe said not
    initialized and every one of the seventeen statements before it, the
    thirteen of the installer, BEGIN and the three INSERTs, answered no
    error: a failed statement is never followed by COMMIT. *)
Theorem bootstrap_commit_guard (SysVars : list (string * SysVar)) (s : S) :
  CallExecute "COMMIT" ∈ trace (bootstrap SysVars s) <->
  outcome (checkBootstrapped s) = Returned (false, None) /\
  first_failure (ddlStatements ++ take 4 (dmlStatements SysVars))
    (final (checkBootstrapped s)) = None.
Proof.
  assert (ddlStatements ++ take 4 (dmlStatements SysVars) =
          take 17 (ddlStatements ++ dmlStatements SysVars)) as -> by reflexivity.
  rewrite first_failure_take_none.
  assert (CallExecute "COMMIT" ∉ trace (checkBootstrapped s)) as Hnp.
  { destruct (checkBootstrapped_trace_shape s) as [-> | [-> | ->]];
      rewrite !elem_of_cons, elem_of_nil; intros Hin;
      repeat (destruct Hin as [Hin|Hin]; try discriminate); exact Hin. }
  rewrite bootstrap_run. cbn zeta.
  destruct (outcome (checkBootstrapped s)) as [[[] [e'|]]|e'|] eqn:Hp;
    rewrite ?trace_mk;
    try (split; [intros Hin; destruct (Hnp Hin)|intros [? _]; discriminate]).
  rewrite mustExecuteAll_run.
  destruct (first_failure _ (final (checkBootstrapped s))) as [[j e1]|] eqn:F;
    rewrite trace_mk, elem_of_app, list_elem_of_fmap.
  - pose proof (first_failure_lt _ _ _ _ F) as Hj.
    split.
    + intros [Hin|(q & [= <-] & Hq)]; [destruct (Hnp Hin)|].
      split; [reflexivity|].
      apply elem_of_take in Hq as (i & Hi & Hlt).
      apply commit_is_last in Hi. lia.
    + intros [_ Hle]. right. exists "COMMIT". split; [reflexivity|].
      apply elem_of_take. exists 17%nat. split; [reflexivity|lia].
  - split; [intros _; split; [reflexivity|exact I]|].
    intros _. right. exists "COMMIT". split; [reflexivity|].
    apply list_elem_of_lookup. exists 17%nat. reflexivity.
Qed.

(** X8: every call of bootstrap is FinishTxn(false) or the execution of
    one of twenty statements: USE, the read of the flag, the thirteen of
    the installer and the five of the loader.  So it never calls
    FinishTxn(true) and executes no statement of its own to undo the
    loader's writes when the loader fails.  It makes at most twenty calls,
    and when FinishTxn is among them the calls are USE, the read and
    FinishTxn, and no more. *)
Theorem bootstrap_calls (SysVars : list (string * SysVar)) (s : S) :
  Forall (fun c =>
            c = CallFinishTxn false \/
            exists sql, c = CallExecute sql /\
              sql ∈ [useSystemDB; selectBootstrapped]
                    ++ ddlStatements ++ dmlStatements SysVars)
         (trace (bootstrap SysVars s)) /\
  (length (trace (bootstrap SysVars s)) <= 20)%nat /\
  (forall rb, CallFinishTxn rb ∈ trace (bootstrap SysVars s) ->
     trace (bootstrap SysVars s) =
       [CallExecute useSystemDB; CallExecute selectBootstrapped; CallFinishTxn false]).
Proof.
  set (known := [useSystemDB; selectBootstrapped] ++ ddlStatements ++ dmlStatements SysVars).
  assert (Forall (fun c => c = CallFinishTxn false \/
                    exists sql, c = CallExecute sql /\ sql ∈ known)
                 (trace (checkBootstrapped s))) as Hprobe.
  { destruct (checkBootstrapped_trace_shape s) as [-> | [-> | ->]];
      repeat apply Forall_cons_2; try apply Forall_nil_2; auto;
      right; eexists; (split; [reflexivity|]); unfold known;
      apply elem_of_app; left; rewrite !elem_of_cons; auto. }
  assert (forall r : Outcome unit * S * list Call,
             (exists k, trace r = CallExecute <$> take k (ddlStatements ++ dmlStatements SysVars)) ->
             outcome (checkBootstrapped s) = Returned (false, None) ->
             Forall (fun c => c = CallFinishTxn false \/
                      exists sql, c = CallExecute sql /\ sql ∈ known)
                    (trace (checkBootstrapped s) ++ trace r) /\
             (length (trace (checkBootstrapped s) ++ trace r) <= 20)%nat /\
             (forall rb, CallFinishTxn rb ∈ trace (checkBootstrapped s) ++ trace r ->
                trace (checkBootstrapped s) ++ trace r =
                [CallExecute useSystemDB; CallExecute selectBootstrapped;
                 CallFinishTxn false])) as Hrun.
  { intros r [k Hk] Hp. rewrite Hk.
    pose proof (checkBootstrapped_trace_by_outcome s) as Hc. rewrite Hp in Hc.
    split; [|split].
    - apply Forall_app. split; [exact Hprobe|].
      apply Forall_fmap, Forall_forall. intros q Hq. right. exists q.
      split; [reflexivity|]. unfold known. apply elem_of_app. right.
      apply elem_of_take in Hq as (i & Hi & _).
      apply list_elem_of_lookup. eauto.
    - rewrite Hc, length_app, length_fmap, length_take, length_app. cbn. lia.
    - intros rb. rewrite Hc, elem_of_app, !elem_of_cons, elem_of_nil, list_elem_of_fmap.
      intros [[?|[?|[]]]|(q & ? & _)]; discriminate. }
  rewrite bootstrap_run. cbn zeta.
  pose proof (checkBootstrapped_trace_shape s) as Hs.
  pose proof (checkBootstrapped_trace_by_outcome s) as Hc.
  destruct (outcome (checkBootstrapped s)) as [[[] [e'|]]|e'|] eqn:Hp; rewrite ?trace_mk.
  - destruct Hc.
  - rewrite Hc in *. split; [exact Hprobe|]. split; [cbn; lia|reflexivity].
  - split; [exact Hprobe|]. split.
    + destruct Hc as [-> | ->]; cbn; lia.
    + intros rb. destruct Hc as [-> | ->]; [|reflexivity].
      rewrite !elem_of_cons, elem_of_nil. intros [?|[?|[]]]; discriminate.
  - apply Hrun; [|reflexivity]. rewrite mustExecuteAll_run.
    destruct (first_failure _ _) as [[j e1]|]; rewrite trace_mk.
    + eauto.
    + exists 18%nat. reflexivity.
  - split; [exact Hprobe|]. split; [rewrite Hc; cbn; lia|].
    intros rb. rewrite Hc, !elem_of_cons, elem_of_nil. intros [?|[]]; discriminate.
  - split; [exact Hprobe|]. split; [rewrite Hc; cbn; lia|].
    intros rb. rewrite Hc, !elem_of_cons, elem_of_nil. intros [?|[?|[]]]; discriminate.
Qed.

(** X9: bootstrap returns exactly in two cases: the probe said
    initialized, or the probe said not initialized and each of the eighteen
    statements of the installer and the loader, executed in order on the
    session the probe left, answered no error. *)
Theorem bootstrap_returns_iff (SysVars : list (string * SysVar)) (s : S) :
  outcome (bootstrap SysVars s) = Returned tt <->
  outcome (checkBootstrapped s) = Returned (true, None) \/
  (outcome (checkBootstrapped s) = Returned (false, None) /\
   forall (j : nat) (sql : string),
     (ddlStatements ++ dmlStatements SysVars) !! j = Some sql ->
     (Execute sql (exec_all (take j (ddlStatements ++ dmlStatements SysVars))
                     (final (checkBootstrapped s)))).1.2 = None).
Proof.
  rewrite bootstrap_run. cbn zeta.
  destruct (outcome (checkBootstrapped s)) as [[[] [e'|]]|e'|] eqn:Hp;
    rewrite ?outcome_mk;
    try (split; [discriminate|intros [?|[? _]]; discriminate]).
  - split; auto.
  - rewrite mustExecuteAll_run.
    destruct (first_failure _ (final (checkBootstrapped s))) as [[j e1]|] eqn:F;
      rewrite outcome_mk.
    + split; [discriminate|]. intros [?|[_ Hall]]; [discriminate|].
      destruct (first_failure_at _ _ _ _ F) as (sql & Hl & He).
      rewrite (Hall j sql Hl) in He. discriminate.
    + split; [|reflexivity]. intros _. right. split; [reflexivity|].
      apply first_failure_none, F.
Qed.

End Coordinator.

(** * When the store counts as not initialized *)

Section NotInitialized.
Context {S : Type} `{Session S}.

(** X10: the probe returns (false, nil), and bootstrap goes on to install,
    exactly when USE did not stop the process and the read of the flag
    either failed with "table does not exist", or succeeded with one result
    set that has no row, or succeeded with one result set whose first row
    has a string other than "True" as its first value. *)
Theorem checkBootstrapped_false_iff (s : S) :
  outcome (checkBootstrapped s) = Returned (false, None) <->
  useFatal (Execute useSystemDB s).1.2 = None /\
  let read := (Execute selectBootstrapped (Execute useSystemDB s).2).1 in
  ((exists e, read.2 = Some e /\ Equal TableNotExists (Some e) = true) \/
   read = ([[]], None) \/
   (exists (row : Row) (more : Recordset) (v : string) (rest : list Datum),
      read = ([FetchRow row :: more], None) /\
      Data row = DString v :: rest /\ v <> bootstrappedVarTrue)).
Proof.
  rewrite checkBootstrapped_run.
  destruct (Execute useSystemDB s) as [[rs0 err0] s0]. cbn [fst snd].
  destruct (useFatal err0) as [e|].
  { split; [discriminate|]. intros [? _]. discriminate. }
  cbn zeta. rewrite outcome_mk, checkBootstrappedVar_run.
  destruct (Execute selectBootstrapped s0) as [[rs err] s1]. cbn [fst snd].
  destruct err as [e|].
  { destruct (Equal TableNotExists (Some e)) eqn:HE; rewrite outcome_mk.
    - split; [|reflexivity]. intros _. split; [reflexivity|]. left. eauto.
    - split; [discriminate|].
      intros [_ [(e' & [= <-] & HE')|[?|(? & ? & ? & ? & ? & _)]]];
        [congruence|discriminate..]. }
  destruct rs as [|[|[row|e] r] [|r' rs]]; rewrite ?outcome_mk;
    try (split; [discriminate|];
         intros [_ [(e' & ? & _)|[?|(? & ? & ? & ? & ? & _)]]]; discriminate).
  { split; [|reflexivity]. intros _. split; [reflexivity|]. right. left. reflexivity. }
  destruct (Data row) as [|d rest] eqn:ED.
  { rewrite outcome_mk. split; [discriminate|].
    intros [_ [(e' & ? & _)|[?|(row' & ? & ? & ? & [= <- _] & Hd & _)]]];
      [discriminate..|congruence]. }
  destruct d as [| |v|];
    try (rewrite outcome_mk; split; [discriminate|];
         intros [_ [(e' & ? & _)|[?|(row' & ? & ? & ? & [= <- _] & Hd & _)]]];
         [discriminate..|congruence]).
  case_bool_decide as Hv.
  - subst v. destruct (FinishTxn false s1) as [[e|] s2]; rewrite outcome_mk;
      (split; [discriminate|]);
      intros [_ [(e' & ? & _)|[?|(row' & ? & v' & ? & [= <- _] & Hd & Hv')]]];
      try discriminate; congruence.
  - rewrite outcome_mk. split; [|reflexivity]. intros _. split; [reflexivity|].
    right. right. exists row, r, v, rest. auto.
Qed.

End NotInitialized.

(** * More on the reference executor *)

(** What the installer's statements read as. *)
Lemma parse_ddlStatements :
  parse <$> ddlStatements =
    [ Some (SCreateDatabase "test");
      Some (SCreateDatabase "mysql");
      Some (SCreateTable "mysql.user" 2);
      Some (SCreateTable "mysql.db" 3);
      Some (SCreateTable "mysql.tables_priv" 4);
      Some (SCreateTable "mysql.columns_priv" 5);
      Some (SCreateTable "mysql.GLOBAL_VARIABLES" 1);
      Some (SCreateTable "mysql.proc" 3);
      Some (SCreateDatabase "performance_schema");
      Some (SCreateTable "performance_schema.events_statements_current" 0);
      Some (SCreateTable "performance_schema.events_stages_history_long" 0);
      Some (SCreateTable "performance_schema.events_waits_history_long" 0);
      Some (SCreateTable "mysql.tidb" 1) ].
Proof. vm_compute. reflexivity. Qed.

(** X11: on the reference executor the installer returns on every store
    and in every state of the session, and a second run right after it
    returns too, executes the same thirteen statements and leaves the
    session and the store exactly as the first run left them. *)
Theorem doDDLWorks_twice (st : State) :
  outcome (doDDLWorks st) = Returned tt /\
  doDDLWorks (final (doDDLWorks st)) =
    (Returned tt, final (doDDLWorks st), CallExecute <$> ddlStatements).
Proof.
  destruct (doDDLWorks_returns st) as (Hr & _).
  assert (outcome (doDDLWorks st) = Returned tt) as Ho.
  { rewrite Hr. apply outcome_mk. }
  split; [exact Ho|]. apply doDDLWorks_again_is_noop, Ho.
Qed.

(** X12: on the reference executor, after the installer the three
    databases and the ten tables exist, no transaction is open, and every
    table the session saw before is in the committed data as it was, key
    columns and rows: the installer drops, empties or alters no table, and
    the tables it adds are empty. *)
Theorem doDDLWorks_keeps_data (st : State) :
  let d := committed (final (doDDLWorks st)) in
  txn (final (doDDLWorks st)) = None /\
  keeps_tables (cur st) d /\
  Forall (fun db => db ∈ schemas d) ["test"; "mysql"; "performance_schema"] /\
  Forall (fun tbl => is_Some (tables d !! tbl))
    [ "mysql.user"; "mysql.db"; "mysql.tables_priv"; "mysql.columns_priv";
      "mysql.GLOBAL_VARIABLES"; "mysql.proc";
      "performance_schema.events_statements_current";
      "performance_schema.events_stages_history_long";
      "performance_schema.events_waits_history_long"; "mysql.tidb" ].
Proof.
  destruct (doDDLWorks_returns st) as (Hr & Ht & Hh).
  rewrite Hr, final_mk. cbn zeta.
  pose proof (exec_all_create_keeps_tables ddlStatements st ddlStatements_create) as Hk.
  rewrite (cur_at_rest _ Ht) in Hk.
  revert Ht Hh Hk. generalize (exec_all ddlStatements st). intros s13 Ht Hh Hk.
  split; [exact Ht|]. split; [exact Hk|].
  assert (Forall (fun o => match o with
                           | Some stmt => has (committed s13) stmt
                           | None => True
                           end) (parse <$> ddlStatements)) as Hp.
  { apply Forall_fmap. exact Hh. }
  rewrite parse_ddlStatements in Hp.
  rewrite !Forall_cons in Hp. cbn [has] in Hp.
  destruct Hp as (T & M & U1 & U2 & U3 & U4 & U5 & U6 & P & P1 & P2 & P3 & U7 & _).
  split; repeat (apply Forall_cons_2); try apply Forall_nil_2;
    try assumption; match goal with H : _ /\ is_Some ?x |- is_Some ?x => apply H end.
Qed.

(** X13: on the reference executor the probe answers by the flag the
    session sees and writes nothing.  It returns (true, nil) exactly when
    the flag row is there with the value "True", and (false, nil) exactly
    when the flag table or the flag row is missing or the row has another
    string value; it never returns an error and never stops the process.
    What the session sees afterwards is what it saw before, and on a
    session at rest the committed data is untouched. *)
Theorem checkBootstrapped_reads_flag (st : State) :
  let p := checkBootstrapped st in
  (outcome p = Returned (true, None) <-> flag_is_true (cur st)) /\
  (outcome p = Returned (false, None) <-> flag_says_no (cur st)) /\
  (forall e, outcome p <> Fatal e) /\
  (forall v e, outcome p <> Returned (v, Some e)) /\
  cur (final p) = cur st /\
  (txn st = None -> committed (final p) = committed st).
Proof.
  cbn zeta. rewrite checkBootstrapped_store.
  unfold flag_is_true, flag_says_no, flag.
  assert (cur (open_txn st) = cur st) as Ho by apply cur_open_txn.
  assert (txn st = None -> committed (open_txn st) = committed st) as Hc.
  { intros Ht. unfold open_txn. rewrite Ht. reflexivity. }
  destruct (tables (cur st) !! tidbTable) as [t|].
  - destruct (rows t !! [bootstrappedVar]) as [cols|].
    + destruct cols as [|[v|] cols]; cbn [head mjoin option_join].
      * rewrite outcome_mk, final_mk.
        repeat split; try discriminate; try assumption.
        -- intros (c & [=]).
        -- intros (v & [=] & _).
      * case_bool_decide as Hv; rewrite outcome_mk, final_mk.
        -- subst v. repeat split; try discriminate; eauto.
           ++ intros (v & [= <-] & Hv). congruence.
           ++ intros Ht. cbn. apply cur_at_rest, Ht.
        -- repeat split; try discriminate; try assumption; eauto.
           intros (c & [= -> _]). congruence.
      * rewrite outcome_mk, final_mk.
        repeat split; try discriminate; try assumption.
        -- intros (c & [=]).
        -- intros (v & [=] & _).
    + rewrite outcome_mk, final_mk.
      repeat split; try discriminate; try assumption. intros (c & [=]).
  - rewrite outcome_mk, final_mk.
    repeat split; try discriminate; try reflexivity. intros (c & [=]).
Qed.

(** ** Bootstrap of a store nothing was created in *)

(** Rows with fresh, distinct keys go in one after the other. *)
Lemma insert_rows_sysvars (vars : list (string * SysVar))
    (m : gmap (list string) (list (option string))) :
  NoDup (ToLower <$> vars.*1) ->
  (forall kv, kv ∈ vars -> m !! [ToLower kv.1] = None) ->
  insert_rows 1 None m ((fun kv => [ToLower kv.1; Value kv.2]) <$> vars) =
    inr (list_to_map ((fun kv => ([ToLower kv.1], [Some (Value kv.2)])) <$> vars) ∪ m).
Proof.
  revert m. induction vars as [|[k v] vars IH]; intros m Hnd Hm.
  - cbn. rewrite (left_id ∅ (∪)). reflexivity.
  - cbn [fmap list_fmap fst snd] in *. apply NoDup_cons in Hnd as [Hk Hnd].
    cbn [insert_rows]. unfold insert_row.
    cbn [length Nat.ltb Nat.leb take drop fmap list_fmap].
    pose proof (Hm (k, v) (list_elem_of_here _ _)) as Hkv. cbn [fst] in Hkv. rewrite Hkv.
    change (list_fmap ?A ?B ?f ?l) with (f <$> l).
    rewrite IH.
    + f_equal. cbn [list_to_map foldr fst snd uncurry].
      change (foldr _ ∅ ?l) with (list_to_map l : gmap (list string) (list (option string))).
      rewrite <- insert_union_l, <- insert_union_r; [reflexivity|].
      apply not_elem_of_list_to_map_1. rewrite <- list_fmap_compose.
      intros (kv & E & Hin)%list_elem_of_fmap. cbn in E. injection E as E.
      apply Hk. rewrite E. apply list_elem_of_fmap. exists kv.1.
      split; [reflexivity|]. apply list_elem_of_fmap. exists kv. auto.
    + exact Hnd.
    + intros kv Hin. rewrite lookup_insert_ne.
      * apply Hm. apply elem_of_cons. auto.
      * intros [= E]. apply Hk. rewrite E. apply list_elem_of_fmap. exists kv.1.
        split; [reflexivity|]. apply list_elem_of_fmap. exists kv. auto.
Qed.

(** The insert of the default user into the empty user table. *)
Lemma execute_insertDefaultUser (st : State) :
  tables (cur st) !! "mysql.user" = Some (mkTable 2 ∅) ->
  Execute insertDefaultUser st =
    (([], None),
     write (mkDatabase (schemas (cur st))
              (<["mysql.user" :=
                  mkTable 2 {[ ["%"; "root"] := Some <$> ("" :: replicate 12 "Y") ]}]>
                 (tables (cur st)))) st).
Proof.
  intros Hu. rewrite Execute_store.
  assert (parse insertDefaultUser =
          Some (SInsert "mysql.user" [["%"; "root"; ""] ++ replicate 12 "Y"] None)) as ->
    by (vm_compute; reflexivity).
  cbn [exec]. rewrite Hu. cbn [key_cols rows Nat.eqb insert_rows].
  unfold insert_row. cbn [app replicate length Nat.ltb Nat.leb take drop].
  rewrite lookup_empty. reflexivity.
Qed.

(** The insert of the registry into the empty table of the variables. *)
Lemma execute_insertSysVars (vars : list (string * SysVar)) (st : State) :
  vars <> [] ->
  forallb (fun kv => quote_free kv.1 && quote_free (Value kv.2)) vars = true ->
  NoDup (ToLower <$> vars.*1) ->
  tables (cur st) !! "mysql.GLOBAL_VARIABLES" = Some (mkTable 1 ∅) ->
  Execute (insertSysVars vars) st =
    (([], None),
     write (mkDatabase (schemas (cur st))
              (<["mysql.GLOBAL_VARIABLES" :=
                  mkTable 1 (list_to_map
                    ((fun kv => ([ToLower kv.1], [Some (Value kv.2)])) <$> vars))]>
                 (tables (cur st)))) st).
Proof.
  intros Hne Hq Hnd Hg. rewrite Execute_store, parse_insertSysVars by assumption.
  cbn [exec]. rewrite Hg. cbn [key_cols rows Nat.eqb].
  rewrite insert_rows_sysvars; [|assumption|intros; apply lookup_empty].
  rewrite (right_id ∅ (∪)). reflexivity.
Qed.

(** The three tables of the loader after the installer ran on the store
    nothing was created in. *)
Lemma installed_tables :
  txn (exec_all ddlStatements fresh) = None /\
  tables (committed (exec_all ddlStatements fresh)) !! "mysql.user" = Some (mkTable 2 ∅) /\
  tables (committed (exec_all ddlStatements fresh)) !! "mysql.GLOBAL_VARIABLES" =
    Some (mkTable 1 ∅) /\
  tables (committed (exec_all ddlStatements fresh)) !! tidbTable = Some (mkTable 1 ∅).
Proof. repeat split; vm_compute; reflexivity. Qed.

(** The loader on a session at rest whose three tables are empty. *)
Lemma doDMLWorks_empty_tables (vars : list (string * SysVar)) (st : State) :
  vars <> [] ->
  forallb (fun kv => quote_free kv.1 && quote_free (Value kv.2)) vars = true ->
  NoDup (ToLower <$> vars.*1) ->
  txn st = None ->
  tables (committed st) !! "mysql.user" = Some (mkTable 2 ∅) ->
  tables (committed st) !! "mysql.GLOBAL_VARIABLES" = Some (mkTable 1 ∅) ->
  tables (committed st) !! tidbTable = Some (mkTable 1 ∅) ->
  outcome (doDMLWorks vars st) = Returned tt /\
  final (doDMLWorks vars st) =
    mkState
      (mkDatabase (schemas (committed st))
         (<[tidbTable :=
             mkTable 1 {[ [bootstrappedVar] :=
                          [Some bootstrappedVarTrue;
                           Some "Bootstrap flag. Do not delete."] ]}]>
            (<["mysql.GLOBAL_VARIABLES" :=
                mkTable 1 (list_to_map
                  ((fun kv => ([ToLower kv.1], [Some (Value kv.2)])) <$> vars))]>
               (<["mysql.user" :=
                   mkTable 2 {[ ["%"; "root"] := Some <$> ("" :: replicate 12 "Y") ]}]>
                  (tables (committed st))))))
      None.
Proof.
  intros Hne Hq Hnd Ht Hu Hg Hf.
  rewrite doDMLWorks_all. unfold dmlStatements.
  rewrite mustExecuteAll_cons, execute_begin. cbn [fst snd]. cbn zeta.
  rewrite (cur_at_rest st Ht).
  set (d0 := committed st) in *.
  set (s1 := mkState d0 (Some d0)).
  rewrite mustExecuteAll_cons, (execute_insertDefaultUser s1 Hu). cbn [fst snd]. cbn zeta.
  change (cur s1) with d0.
  set (d1 := mkDatabase (schemas d0) (<["mysql.user" := _]> (tables d0))).
  change (write d1 s1) with (mkState d0 (Some d1)).
  set (s2 := mkState d0 (Some d1)).
  assert (tables (cur s2) !! "mysql.GLOBAL_VARIABLES" = Some (mkTable 1 ∅)) as Hg2.
  { cbn. rewrite lookup_insert_ne by discriminate. exact Hg. }
  rewrite mustExecuteAll_cons, (execute_insertSysVars vars s2 Hne Hq Hnd Hg2).
  cbn [fst snd]. cbn zeta. change (cur s2) with d1.
  set (d2 := mkDatabase (schemas d1) (<["mysql.GLOBAL_VARIABLES" := _]> (tables d1))).
  change (write d2 s2) with (mkState d0 (Some d2)).
  set (s3 := mkState d0 (Some d2)).
  assert (tables (cur s3) !! tidbTable = Some (mkTable 1 ∅)) as Hf3.
  { cbn. rewrite !lookup_insert_ne by discriminate. exact Hf. }
  assert (layout_ok (cur s3)) as Hl3.
  { intros t Et. rewrite Hf3 in Et. injection Et as <-. reflexivity. }
  rewrite mustExecuteAll_cons, (execute_insertBootstrapped s3 Hl3), Hf3.
  cbn [fst snd rows]. cbn zeta. rewrite lookup_empty.
  rewrite mustExecuteAll_cons, execute_commit. cbn [fst snd]. cbn zeta.
  cbn [mustExecuteAll]. unfold ret. rewrite outcome_mk, final_mk.
  split; reflexivity.
Qed.

(** X14: on the reference executor, bootstrap of a store nothing was
    created in, with a registry that is not empty, whose names are ASCII
    text (where [ToLower] is what Go's library does), whose names and
    values hold no double quote and whose names stay distinct in lower
    case:
    bootstrap returns and no transaction is left open; the flag table has
    one row, (bootstrapped, True, the comment); the user table has one
    row, for root at the host "%", with the empty password and the twelve
    privileges "Y"; and the table of the variables has one row per entry
    of the registry, the name in lower case with the value of the entry. *)
Theorem bootstrap_fresh_store (vars : list (string * SysVar)) :
  vars <> [] ->
  forallb (fun kv => isASCII kv.1) vars = true ->
  forallb (fun kv => quote_free kv.1 && quote_free (Value kv.2)) vars = true ->
  NoDup (ToLower <$> vars.*1) ->
  let st := final (bootstrap vars fresh) in
  outcome (bootstrap vars fresh) = Returned tt /\
  txn st = None /\
  tables (committed st) !! "mysql.tidb" =
    Some (mkTable 1 {[ ["bootstrapped"] :=
                       [Some "True"; Some "Bootstrap flag. Do not delete."] ]}) /\
  tables (committed st) !! "mysql.user" =
    Some (mkTable 2 {[ ["%"; "root"] := Some <$> ("" :: replicate 12 "Y") ]}) /\
  exists m,
    tables (committed st) !! "mysql.GLOBAL_VARIABLES" = Some (mkTable 1 m) /\
    size m = length vars /\
    forall k v, (k, v) ∈ vars -> m !! [ToLower k] = Some [Some (Value v)].
Proof.
  intros Hne _ Hq Hnd.
  assert (outcome (checkBootstrapped fresh) = Returned (false, None) /\
          final (checkBootstrapped fresh) = fresh) as [Hpo Hpf].
  { rewrite checkBootstrapped_store. split; reflexivity. }
  destruct (bootstrap_not_initialized vars fresh Hpo) as [-> ->].
  rewrite Hpf.
  destruct (install_and_load_run vars fresh) as [-> ->].
  destruct installed_tables as (Ht & Hu & Hg & Hf).
  revert Ht Hu Hg Hf. generalize (exec_all ddlStatements fresh). intros s13 Ht Hu Hg Hf.
  destruct (doDMLWorks_empty_tables vars s13 Hne Hq Hnd Ht Hu Hg Hf) as [-> ->].
  cbn zeta. cbn [txn committed tables].
  split; [reflexivity|]. split; [reflexivity|].
  split; [apply lookup_insert_eq|].
  split.
  { rewrite !lookup_insert_ne by discriminate. apply lookup_insert_eq. }
  eexists. split.
  { rewrite lookup_insert_ne by discriminate. apply lookup_insert_eq. }
  assert (((fun kv : string * SysVar => ([ToLower kv.1], [Some (Value kv.2)])) <$> vars).*1
          = (fun k => [ToLower k]) <$> vars.*1) as Hkeys.
  { rewrite <- !list_fmap_compose. reflexivity. }
  assert (NoDup ((fun kv : string * SysVar => ([ToLower kv.1], [Some (Value kv.2)]))
                   <$> vars).*1) as Hnd'.
  { rewrite Hkeys, (list_fmap_compose ToLower (fun k => [k])).
    apply NoDup_fmap_2; [|exact Hnd]. intros a b [= ->]. reflexivity. }
  split.
  - rewrite map_size_list_to_map by exact Hnd'. apply length_fmap.
  - intros k v Hin. apply elem_of_list_to_map_1; [exact Hnd'|].
    apply list_elem_of_fmap. exists (k, v). split; [reflexivity|exact Hin].
Qed.

(** ** A run that does not return *)

(** The flag row is that of the flag table, as it is. *)
Lemma flag_kept (d d' : Database) : keeps_tables d d' -> flag d' = flag d.
Proof.
  intros Hk. specialize (Hk tidbTable). unfold flag.
  destruct (tables d !! tidbTable) as [t|].
  - rewrite Hk. reflexivity.
  - destruct Hk as [->|[k ->]]; [reflexivity|]. cbn [rows]. apply lookup_empty.
Qed.

(** Installer and loader that do not run through have written no row. *)
Lemma install_and_load_failure (vars : list (string * SysVar)) (st : State) :
  outcome (mustExecuteAll (ddlStatements ++ dmlStatements vars) st) <> Returned tt ->
  keeps_tables (cur st)
    (committed (final (mustExecuteAll (ddlStatements ++ dmlStatements vars) st))).
Proof.
  destruct (install_and_load_run vars st) as [-> ->].
  destruct (doDDLWorks_returns st) as (_ & Ht & _).
  pose proof (exec_all_create_keeps_tables ddlStatements st ddlStatements_create) as Hk.
  revert Ht Hk. generalize (exec_all ddlStatements st). intros s13 Ht Hk Ho.
  destruct (outcome (doDMLWorks vars s13)) as [[]|e|] eqn:E.
  - destruct Ho. reflexivity.
  - destruct (loader_fatal_committed vars s13 e E) as [-> _]. exact Hk.
  - rewrite doDMLWorks_all in E. destruct (mustExecuteAll_never_panics _ _ E).
Qed.

(** X15: on the reference executor, a run of bootstrap that starts on a
    session at rest and does not return, because a statement failed or the
    probe panicked, has written no row: every table that was in the store
    is in the committed data as it was, the tables beyond them are empty,
    and the flag row is what it was.  So the flag is never "True" after a
    run that failed, unless it was before. *)
Theorem bootstrap_failure_writes_nothing (vars : list (string * SysVar)) (st : State) :
  txn st = None ->
  outcome (bootstrap vars st) <> Returned tt ->
  keeps_tables (committed st) (committed (final (bootstrap vars st))) /\
  flag (committed (final (bootstrap vars st))) = flag (committed st).
Proof.
  intros Ht Ho.
  assert (keeps_tables (committed st) (committed (final (bootstrap vars st)))) as Hk.
  { pose proof (cur_at_rest st Ht) as Hcur.
    assert (committed (open_txn st) = committed st) as Hopen.
    { unfold open_txn. rewrite Ht. reflexivity. }
    pose proof (bootstrap_run vars st) as Hb. cbn zeta in Hb.
    pose proof (checkBootstrapped_store st) as Hp.
    destruct (tables (cur st) !! tidbTable) as [t|].
    - destruct (rows t !! [bootstrappedVar]) as [cols|].
      + destruct (mjoin (head cols)) as [v|].
        * destruct (bool_decide (v = bootstrappedVarTrue)).
          -- rewrite Hp, outcome_mk in Hb. rewrite Hb, outcome_mk in Ho.
             destruct Ho. reflexivity.
          -- rewrite Hp, outcome_mk, final_mk, trace_mk in Hb.
             rewrite Hb, outcome_mk in Ho. rewrite Hb, final_mk.
             rewrite <- Hcur, <- (cur_open_txn st).
             apply install_and_load_failure, Ho.
        * rewrite Hp, outcome_mk, final_mk in Hb. rewrite Hb, final_mk, Hopen.
          apply keeps_tables_refl.
      + rewrite Hp, outcome_mk, final_mk, trace_mk in Hb.
        rewrite Hb, outcome_mk in Ho. rewrite Hb, final_mk.
        rewrite <- Hcur, <- (cur_open_txn st).
        apply install_and_load_failure, Ho.
    - rewrite Hp, outcome_mk, final_mk, trace_mk in Hb.
      rewrite Hb, outcome_mk in Ho. rewrite Hb, final_mk.
      rewrite <- Hcur. apply install_and_load_failure, Ho. }
  split; [exact Hk|apply flag_kept, Hk].
Qed.

(** * The further theorems at work *)

(** A session that lost its connection answers USE with an error of its
    own: the process stops after this one call. *)
Lemma checkBootstrapped_use_failure_witness :
  checkBootstrapped (Script.mkState [([], Some (ErrNew "lost connection"))] []) =
    (Fatal (ErrNew "lost connection"), Script.mkState [] [],
     [CallExecute useSystemDB]) /\
  bootstrap exampleSysVars (Script.mkState [([], Some (ErrNew "lost connection"))] []) =
    (Fatal (ErrNew "lost connection"), Script.mkState [] [],
     [CallExecute useSystemDB]).
Proof.
  exact (checkBootstrapped_use_failure exampleSysVars
           (Script.mkState [([], Some (ErrNew "lost connection"))] [])
           (Script.mkState [] []) [] (ErrNew "lost connection") eq_refl eq_refl).
Defined.

(** A session that answers USE with nil and the read with "database does
    not exist": at the read this error is not a sign of a store to
    initialize, and the process stops. *)
Lemma checkBootstrapped_read_failure_witness :
  checkBootstrappedVar
    (Script.mkState [([], Some (Terr DatabaseNotExists "database does not exist"))] []) =
    (Returned (false, Some (Traced (Terr DatabaseNotExists "database does not exist"))),
     Script.mkState [] [], selectCall) /\
  checkBootstrapped
    (Script.mkState
       [([], None); ([], Some (Terr DatabaseNotExists "database does not exist"))] []) =
    (Returned (false,
       Some (Traced (Traced (Terr DatabaseNotExists "database does not exist")))),
     Script.mkState [] [],
     [CallExecute useSystemDB; CallExecute selectBootstrapped]) /\
  bootstrap exampleSysVars
    (Script.mkState
       [([], None); ([], Some (Terr DatabaseNotExists "database does not exist"))] []) =
    (Fatal (Traced (Traced (Terr DatabaseNotExists "database does not exist"))),
     Script.mkState [] [],
     [CallExecute useSystemDB; CallExecute selectBootstrapped]).
Proof.
  exact (checkBootstrapped_read_failure exampleSysVars
           (Script.mkState
              [([], None); ([], Some (Terr DatabaseNotExists "database does not exist"))] [])
           (Script.mkState [([], Some (Terr DatabaseNotExists "database does not exist"))] [])
           (Script.mkState [] []) [] None []
           (Terr DatabaseNotExists "database does not exist")
           eq_refl eq_refl eq_refl eq_refl).
Defined.

(** A session without flag table whose second creation fails: the error
    of that statement stops the process, after USE, the read and the two
    creations. *)
Lemma bootstrap_fatal_cause_witness :
  let s := Script.mkState
             [([], None); ([], Some (Terr TableNotExists "table does not exist"));
              ([], None); ([], Some (ErrNew "disk full"))] [] in
  let e := ErrNew "disk full" in
  let p := checkBootstrapped s in
  let sqls := ddlStatements ++ dmlStatements exampleSysVars in
  ((Execute useSystemDB s).1.2 = Some e /\
   Equal DatabaseNotExists (Some e) = false /\
   trace (bootstrap exampleSysVars s) = [CallExecute useSystemDB]) \/
  (outcome p = Returned (false, Some e) /\
   trace (bootstrap exampleSysVars s) = trace p /\
   (e = Traced (ErrNew "Wrong number of Recordset") \/ exists e0, e = Traced (Traced e0))) \/
  (outcome p = Returned (false, None) /\
   exists (j : nat) (sql : string),
     sqls !! j = Some sql /\
     first_failure (take j sqls) (final p) = None /\
     (Execute sql (exec_all (take j sqls) (final p))).1.2 = Some e /\
     trace (bootstrap exampleSysVars s) =
       trace p ++ (CallExecute <$> take j sqls) ++ [CallExecute sql]).
Proof.
  apply (bootstrap_fatal_cause exampleSysVars
           (Script.mkState
              [([], None); ([], Some (Terr TableNotExists "table does not exist"));
               ([], None); ([], Some (ErrNew "disk full"))] [])
           (ErrNew "disk full")).
  vm_compute. reflexivity.
Defined.

(** The example registry on the store nothing was created in. *)
Lemma bootstrap_fresh_store_witness :
  let st := final (bootstrap exampleSysVars fresh) in
  outcome (bootstrap exampleSysVars fresh) = Returned tt /\
  txn st = None /\
  tables (committed st) !! "mysql.tidb" =
    Some (mkTable 1 {[ ["bootstrapped"] :=
                       [Some "True"; Some "Bootstrap flag. Do not delete."] ]}) /\
  tables (committed st) !! "mysql.user" =
    Some (mkTable 2 {[ ["%"; "root"] := Some <$> ("" :: replicate 12 "Y") ]}) /\
  exists m,
    tables (committed st) !! "mysql.GLOBAL_VARIABLES" = Some (mkTable 1 m) /\
    size m = length exampleSysVars /\
    forall k v, (k, v) ∈ exampleSysVars -> m !! [ToLower k] = Some [Some (Value v)].
Proof.
  apply (bootstrap_fresh_store exampleSysVars).
  - discriminate.
  - reflexivity.
  - reflexivity.
  - apply (@bool_decide_unpack _ (NoDup_dec _)). vm_compute. exact I.
Defined.

(** With a registry whose names clash in lower case the loader fails on
    the store nothing was created in: no row is written. *)
Lemma bootstrap_failure_writes_nothing_witness :
  keeps_tables (committed fresh) (committed (final (bootstrap clashingSysVars fresh))) /\
  flag (committed (final (bootstrap clashingSysVars fresh))) = flag (committed fresh).
Proof.
  apply (bootstrap_failure_writes_nothing clashingSysVars fresh).
  - reflexivity.
  - intros Ho. vm_compute in Ho. discriminate.
Defined.
